(** * AutoGGUF: the conversion and quantization driver of [main.py]

    A shallow embedding of [src/main.py] and the properties of its
    orchestration sequence: input collection, external conversion, iterated
    external quantization, the summary and the relocation of the produced
    files.

    Conventions of the model.
    - A Python [str] is the [string] of its UTF-8 bytes.  [strip],
      [upper] and [lower] follow Python on every code point: the white
      space of [str.isspace], the full case mappings and the final-sigma
      rule of [str.lower], with the tables of Unicode 14.0.0 (CPython 3.11).
      [split], [join], [rstrip("/")] and comparisons work on the bytes,
      which is the same thing for an ASCII separator.
    - The filesystem is a finite map from canonical path names, relative to
      the working directory or absolute, to nodes.  Path names given to the
      [os] functions are resolved component by component as the kernel does
      ([.], [..], repeated and trailing slashes); there are no symbolic
      links and no permissions.  The root, the working directory and the
      directories above it exist without an entry of their own; what lies
      beside the working directory is in the map under a name that starts
      with [..], the working directory itself under no name.
    - Standard input is a list of events: a decoded line, a line whose
      bytes cannot be decoded, or the interrupt key; reading past its end
      raises [EOFError] as Python's [input] does.  The interrupt key is
      pressed while a prompt waits or while an external command runs, at no
      other moment.  Standard output takes whatever is printed.
    - Everything printed, every prompt and every external command that is
      started is recorded, in order, in a trace.
    - The external tools are opaque: what becomes of a command line handed
      to the shell, and of the disk, is the parameter [sh].  The tools do
      not read the standard input. *)

From Stdlib Require Import ZArith NArith List Ascii String Bool Lia.
From stdpp Require Import base decidable option list strings gmap pretty sorting.

Local Open Scope string_scope.
Local Open Scope list_scope.

(** ** Unicode data used by the [str] methods *)

Module Unicode.

(** Code points for which [str.isspace] holds. *)
Definition whitespace : list N := [
  0x9; 0xa; 0xb; 0xc; 0xd; 0x1c; 0x1d; 0x1e; 0x1f; 0x20; 0x85; 0xa0; 0x1680; 0x2000; 0x2001; 0x2002; 0x2003; 0x2004; 0x2005; 0x2006; 0x2007; 0x2008; 0x2009; 0x200a; 0x2028; 0x2029; 0x202f; 0x205f; 0x3000
]%N.

(** Full uppercase mapping of the code points above U+007F that [str.upper] changes. *)
Definition upper_table : list (N * list N) := [
  (0xb5, [0x39c]); (0xdf, [0x53; 0x53]); (0xe0, [0xc0]); (0xe1, [0xc1]);
  (0xe2, [0xc2]); (0xe3, [0xc3]); (0xe4, [0xc4]); (0xe5, [0xc5]);
  (0xe6, [0xc6]); (0xe7, [0xc7]); (0xe8, [0xc8]); (0xe9, [0xc9]);
  (0xea, [0xca]); (0xeb, [0xcb]); (0xec, [0xcc]); (0xed, [0xcd]);
  (0xee, [0xce]); (0xef, [0xcf]); (0xf0, [0xd0]); (0xf1, [0xd1]);
  (0xf2, [0xd2]); (0xf3, [0xd3]); (0xf4, [0xd4]); (0xf5, [0xd5]);
  (0xf6, [0xd6]); (0xf8, [0xd8]); (0xf9, [0xd9]); (0xfa, [0xda]);
  (0xfb, [0xdb]); (0xfc, [0xdc]); (0xfd, [0xdd]); (0xfe, [0xde]);
  (0xff, [0x178]); (0x101, [0x100]); (0x103, [0x102]); (0x105, [0x104]);
  (0x107, [0x106]); (0x109, [0x108]); (0x10b, [0x10a]); (0x10d, [0x10c]);
  (0x10f, [0x10e]); (0x111, [0x110]); (0x113, [0x112]); (0x115, [0x114]);
  (0x117, [0x116]); (0x119, [0x118]); (0x11b, [0x11a]); (0x11d, [0x11c]);
  (0x11f, [0x11e]); (0x121, [0x120]); (0x123, [0x122]); (0x125, [0x124]);
  (0x127, [0x126]); (0x129, [0x128]); (0x12b, [0x12a]); (0x12d, [0x12c]);
  (0x12f, [0x12e]); (0x131, [0x49]); (0x133, [0x132]); (0x135, [0x134]);
  (0x137, [0x136]); (0x13a, [0x139]); (0x13c, [0x13b]); (0x13e, [0x13d]);
  (0x140, [0x13f]); (0x142, [0x141]); (0x144, [0x143]); (0x146, [0x145]);
  (0x148, [0x147]); (0x149, [0x2bc; 0x4e]); (0x14b, [0x14a]); (0x14d, [0x14c]);
  (0x14f, [0x14e]); (0x151, [0x150]); (0x153, [0x152]); (0x155, [0x154]);
  (0x157, [0x156]); (0x159, [0x158]); (0x15b, [0x15a]); (0x15d, [0x15c]);
  (0x15f, [0x15e]); (0x161, [0x160]); (0x163, [0x162]); (0x165, [0x164]);
  (0x167, [0x166]); (0x169, [0x168]); (0x16b, [0x16a]); (0x16d, [0x16c]);
  (0x16f, [0x16e]); (0x171, [0x170]); (0x173, [0x172]); (0x175, [0x174]);
  (0x177, [0x176]); (0x17a, [0x179]); (0x17c, [0x17b]); (0x17e, [0x17d]);
  (0x17f, [0x53]); (0x180, [0x243]); (0x183, [0x182]); (0x185, [0x184]);
  (0x188, [0x187]); (0x18c, [0x18b]); (0x192, [0x191]); (0x195, [0x1f6]);
  (0x199, [0x198]); (0x19a, [0x23d]); (0x19e, [0x220]); (0x1a1, [0x1a0]);
  (0x1a3, [0x1a2]); (0x1a5, [0x1a4]); (0x1a8, [0x1a7]); (0x1ad, [0x1ac]);
  (0x1b0, [0x1af]); (0x1b4, [0x1b3]); (0x1b6, [0x1b5]); (0x1b9, [0x1b8]);
  (0x1bd, [0x1bc]); (0x1bf, [0x1f7]); (0x1c5, [0x1c4]); (0x1c6, [0x1c4]);
  (0x1c8, [0x1c7]); (0x1c9, [0x1c7]); (0x1cb, [0x1ca]); (0x1cc, [0x1ca]);
  (0x1ce, [0x1cd]); (0x1d0, [0x1cf]); (0x1d2, [0x1d1]); (0x1d4, [0x1d3]);
  (0x1d6, [0x1d5]); (0x1d8, [0x1d7]); (0x1da, [0x1d9]); (0x1dc, [0x1db]);
  (0x1dd, [0x18e]); (0x1df, [0x1de]); (0x1e1, [0x1e0]); (0x1e3, [0x1e2]);
  (0x1e5, [0x1e4]); (0x1e7, [0x1e6]); (0x1e9, [0x1e8]); (0x1eb, [0x1ea]);
  (0x1ed, [0x1ec]); (0x1ef, [0x1ee]); (0x1f0, [0x4a; 0x30c]); (0x1f2, [0x1f1]);
  (0x1f3, [0x1f1]); (0x1f5, [0x1f4]); (0x1f9, [0x1f8]); (0x1fb, [0x1fa]);
  (0x1fd, [0x1fc]); (0x1ff, [0x1fe]); (0x201, [0x200]); (0x203, [0x202]);
  (0x205, [0x204]); (0x207, [0x206]); (0x209, [0x208]); (0x20b, [0x20a]);
  (0x20d, [0x20c]); (0x20f, [0x20e]); (0x211, [0x210]); (0x213, [0x212]);
  (0x215, [0x214]); (0x217, [0x216]); (0x219, [0x218]); (0x21b, [0x21a]);
  (0x21d, [0x21c]); (0x21f, [0x21e]); (0x223, [0x222]); (0x225, [0x224]);
  (0x227, [0x226]); (0x229, [0x228]); (0x22b, [0x22a]); (0x22d, [0x22c]);
  (0x22f, [0x22e]); (0x231, [0x230]); (0x233, [0x232]); (0x23c, [0x23b]);
  (0x23f, [0x2c7e]); (0x240, [0x2c7f]); (0x242, [0x241]); (0x247, [0x246]);
  (0x249, [0x248]); (0x24b, [0x24a]); (0x24d, [0x24c]); (0x24f, [0x24e]);
  (0x250, [0x2c6f]); (0x251, [0x2c6d]); (0x252, [0x2c70]); (0x253, [0x181]);
  (0x254, [0x186]); (0x256, [0x189]); (0x257, [0x18a]); (0x259, [0x18f]);
  (0x25b, [0x190]); (0x25c, [0xa7ab]); (0x260, [0x193]); (0x261, [0xa7ac]);
  (0x263, [0x194]); (0x265, [0xa78d]); (0x266, [0xa7aa]); (0x268, [0x197]);
  (0x269, [0x196]); (0x26a, [0xa7ae]); (0x26b, [0x2c62]); (0x26c, [0xa7ad]);
  (0x26f, [0x19c]); (0x271, [0x2c6e]); (0x272, [0x19d]); (0x275, [0x19f]);
  (0x27d, [0x2c64]); (0x280, [0x1a6]); (0x282, [0xa7c5]); (0x283, [0x1a9]);
  (0x287, [0xa7b1]); (0x288, [0x1ae]); (0x289, [0x244]); (0x28a, [0x1b1]);
  (0x28b, [0x1b2]); (0x28c, [0x245]); (0x292, [0x1b7]); (0x29d, [0xa7b2]);
  (0x29e, [0xa7b0]); (0x345, [0x399]); (0x371, [0x370]); (0x373, [0x372]);
  (0x377, [0x376]); (0x37b, [0x3fd]); (0x37c, [0x3fe]); (0x37d, [0x3ff]);
  (0x390, [0x399; 0x308; 0x301]); (0x3ac, [0x386]); (0x3ad, [0x388]); (0x3ae, [0x389]);
  (0x3af, [0x38a]); (0x3b0, [0x3a5; 0x308; 0x301]); (0x3b1, [0x391]); (0x3b2, [0x392]);
  (0x3b3, [0x393]); (0x3b4, [0x394]); (0x3b5, [0x395]); (0x3b6, [0x396]);
  (0x3b7, [0x397]); (0x3b8, [0x398]); (0x3b9, [0x399]); (0x3ba, [0x39a]);
  (0x3bb, [0x39b]); (0x3bc, [0x39c]); (0x3bd, [0x39d]); (0x3be, [0x39e]);
  (0x3bf, [0x39f]); (0x3c0, [0x3a0]); (0x3c1, [0x3a1]); (0x3c2, [0x3a3]);
  (0x3c3, [0x3a3]); (0x3c4, [0x3a4]); (0x3c5, [0x3a5]); (0x3c6, [0x3a6]);
  (0x3c7, [0x3a7]); (0x3c8, [0x3a8]); (0x3c9, [0x3a9]); (0x3ca, [0x3aa]);
  (0x3cb, [0x3ab]); (0x3cc, [0x38c]); (0x3cd, [0x38e]); (0x3ce, [0x38f]);
  (0x3d0, [0x392]); (0x3d1, [0x398]); (0x3d5, [0x3a6]); (0x3d6, [0x3a0]);
  (0x3d7, [0x3cf]); (0x3d9, [0x3d8]); (0x3db, [0x3da]); (0x3dd, [0x3dc]);
  (0x3df, [0x3de]); (0x3e1, [0x3e0]); (0x3e3, [0x3e2]); (0x3e5, [0x3e4]);
  (0x3e7, [0x3e6]); (0x3e9, [0x3e8]); (0x3eb, [0x3ea]); (0x3ed, [0x3ec]);
  (0x3ef, [0x3ee]); (0x3f0, [0x39a]); (0x3f1, [0x3a1]); (0x3f2, [0x3f9]);
  (0x3f3, [0x37f]); (0x3f5, [0x395]); (0x3f8, [0x3f7]); (0x3fb, [0x3fa]);
  (0x430, [0x410]); (0x431, [0x411]); (0x432, [0x412]); (0x433, [0x413]);
  (0x434, [0x414]); (0x435, [0x415]); (0x436, [0x416]); (0x437, [0x417]);
  (0x438, [0x418]); (0x439, [0x419]); (0x43a, [0x41a]); (0x43b, [0x41b]);
  (0x43c, [0x41c]); (0x43d, [0x41d]); (0x43e, [0x41e]); (0x43f, [0x41f]);
  (0x440, [0x420]); (0x441, [0x421]); (0x442, [0x422]); (0x443, [0x423]);
  (0x444, [0x424]); (0x445, [0x425]); (0x446, [0x426]); (0x447, [0x427]);
  (0x448, [0x428]); (0x449, [0x429]); (0x44a, [0x42a]); (0x44b, [0x42b]);
  (0x44c, [0x42c]); (0x44d, [0x42d]); (0x44e, [0x42e]); (0x44f, [0x42f]);
  (0x450, [0x400]); (0x451, [0x401]); (0x452, [0x402]); (0x453, [0x403]);
  (0x454, [0x404]); (0x455, [0x405]); (0x456, [0x406]); (0x457, [0x407]);
  (0x458, [0x408]); (0x459, [0x409]); (0x45a, [0x40a]); (0x45b, [0x40b]);
  (0x45c, [0x40c]); (0x45d, [0x40d]); (0x45e, [0x40e]); (0x45f, [0x40f]);
  (0x461, [0x460]); (0x463, [0x462]); (0x465, [0x464]); (0x467, [0x466]);
  (0x469, [0x468]); (0x46b, [0x46a]); (0x46d, [0x46c]); (0x46f, [0x46e]);
  (0x471, [0x470]); (0x473, [0x472]); (0x475, [0x474]); (0x477, [0x476]);
  (0x479, [0x478]); (0x47b, [0x47a]); (0x47d, [0x47c]); (0x47f, [0x47e]);
  (0x481, [0x480]); (0x48b, [0x48a]); (0x48d, [0x48c]); (0x48f, [0x48e]);
  (0x491, [0x490]); (0x493, [0x492]); (0x495, [0x494]); (0x497, [0x496]);
  (0x499, [0x498]); (0x49b, [0x49a]); (0x49d, [0x49c]); (0x49f, [0x49e]);
  (0x4a1, [0x4a0]); (0x4a3, [0x4a2]); (0x4a5, [0x4a4]); (0x4a7, [0x4a6]);
  (0x4a9, [0x4a8]); (0x4ab, [0x4aa]); (0x4ad, [0x4ac]); (0x4af, [0x4ae]);
  (0x4b1, [0x4b0]); (0x4b3, [0x4b2]); (0x4b5, [0x4b4]); (0x4b7, [0x4b6]);
  (0x4b9, [0x4b8]); (0x4bb, [0x4ba]); (0x4bd, [0x4bc]); (0x4bf, [0x4be]);
  (0x4c2, [0x4c1]); (0x4c4, [0x4c3]); (0x4c6, [0x4c5]); (0x4c8, [0x4c7]);
  (0x4ca, [0x4c9]); (0x4cc, [0x4cb]); (0x4ce, [0x4cd]); (0x4cf, [0x4c0]);
  (0x4d1, [0x4d0]); (0x4d3, [0x4d2]); (0x4d5, [0x4d4]); (0x4d7, [0x4d6]);
  (0x4d9, [0x4d8]); (0x4db, [0x4da]); (0x4dd, [0x4dc]); (0x4df, [0x4de]);
  (0x4e1, [0x4e0]); (0x4e3, [0x4e2]); (0x4e5, [0x4e4]); (0x4e7, [0x4e6]);
  (0x4e9, [0x4e8]); (0x4eb, [0x4ea]); (0x4ed, [0x4ec]); (0x4ef, [0x4ee]);
  (0x4f1, [0x4f0]); (0x4f3, [0x4f2]); (0x4f5, [0x4f4]); (0x4f7, [0x4f6]);
  (0x4f9, [0x4f8]); (0x4fb, [0x4fa]); (0x4fd, [0x4fc]); (0x4ff, [0x4fe]);
  (0x501, [0x500]); (0x503, [0x502]); (0x505, [0x504]); (0x507, [0x506]);
  (0x509, [0x508]); (0x50b, [0x50a]); (0x50d, [0x50c]); (0x50f, [0x50e]);
  (0x511, [0x510]); (0x513, [0x512]); (0x515, [0x514]); (0x517, [0x516]);
  (0x519, [0x518]); (0x51b, [0x51a]); (0x51d, [0x51c]); (0x51f, [0x51e]);
  (0x521, [0x520]); (0x523, [0x522]); (0x525, [0x524]); (0x527, [0x526]);
  (0x529, [0x528]); (0x52b, [0x52a]); (0x52d, [0x52c]); (0x52f, [0x52e]);
  (0x561, [0x531]); (0x562, [0x532]); (0x563, [0x533]); (0x564, [0x534]);
  (0x565, [0x535]); (0x566, [0x536]); (0x567, [0x537]); (0x568, [0x538]);
  (0x569, [0x539]); (0x56a, [0x53a]); (0x56b, [0x53b]); (0x56c, [0x53c]);
  (0x56d, [0x53d]); (0x56e, [0x53e]); (0x56f, [0x53f]); (0x570, [0x540]);
  (0x571, [0x541]); (0x572, [0x542]); (0x573, [0x543]); (0x574, [0x544]);
  (0x575, [0x545]); (0x576, [0x546]); (0x577, [0x547]); (0x578, [0x548]);
  (0x579, [0x549]); (0x57a, [0x54a]); (0x57b, [0x54b]); (0x57c, [0x54c]);
  (0x57d, [0x54d]); (0x57e, [0x54e]); (0x57f, [0x54f]); (0x580, [0x550]);
  (0x581, [0x551]); (0x582, [0x552]); (0x583, [0x553]); (0x584, [0x554]);
  (0x585, [0x555]); (0x586, [0x556]); (0x587, [0x535; 0x552]); (0x10d0, [0x1c90]);
  (0x10d1, [0x1c91]); (0x10d2, [0x1c92]); (0x10d3, [0x1c93]); (0x10d4, [0x1c94]);
  (0x10d5, [0x1c95]); (0x10d6, [0x1c96]); (0x10d7, [0x1c97]); (0x10d8, [0x1c98]);
  (0x10d9, [0x1c99]); (0x10da, [0x1c9a]); (0x10db, [0x1c9b]); (0x10dc, [0x1c9c]);
  (0x10dd, [0x1c9d]); (0x10de, [0x1c9e]); (0x10df, [0x1c9f]); (0x10e0, [0x1ca0]);
  (0x10e1, [0x1ca1]); (0x10e2, [0x1ca2]); (0x10e3, [0x1ca3]); (0x10e4, [0x1ca4]);
  (0x10e5, [0x1ca5]); (0x10e6, [0x1ca6]); (0x10e7, [0x1ca7]); (0x10e8, [0x1ca8]);
  (0x10e9, [0x1ca9]); (0x10ea, [0x1caa]); (0x10eb, [0x1cab]); (0x10ec, [0x1cac]);
  (0x10ed, [0x1cad]); (0x10ee, [0x1cae]); (0x10ef, [0x1caf]); (0x10f0, [0x1cb0]);
  (0x10f1, [0x1cb1]); (0x10f2, [0x1cb2]); (0x10f3, [0x1cb3]); (0x10f4, [0x1cb4]);
  (0x10f5, [0x1cb5]); (0x10f6, [0x1cb6]); (0x10f7, [0x1cb7]); (0x10f8, [0x1cb8]);
  (0x10f9, [0x1cb9]); (0x10fa, [0x1cba]); (0x10fd, [0x1cbd]); (0x10fe, [0x1cbe]);
  (0x10ff, [0x1cbf]); (0x13f8, [0x13f0]); (0x13f9, [0x13f1]); (0x13fa, [0x13f2]);
  (0x13fb, [0x13f3]); (0x13fc, [0x13f4]); (0x13fd, [0x13f5]); (0x1c80, [0x412]);
  (0x1c81, [0x414]); (0x1c82, [0x41e]); (0x1c83, [0x421]); (0x1c84, [0x422]);
  (0x1c85, [0x422]); (0x1c86, [0x42a]); (0x1c87, [0x462]); (0x1c88, [0xa64a]);
  (0x1d79, [0xa77d]); (0x1d7d, [0x2c63]); (0x1d8e, [0xa7c6]); (0x1e01, [0x1e00]);
  (0x1e03, [0x1e02]); (0x1e05, [0x1e04]); (0x1e07, [0x1e06]); (0x1e09, [0x1e08]);
  (0x1e0b, [0x1e0a]); (0x1e0d, [0x1e0c]); (0x1e0f, [0x1e0e]); (0x1e11, [0x1e10]);
  (0x1e13, [0x1e12]); (0x1e15, [0x1e14]); (0x1e17, [0x1e16]); (0x1e19, [0x1e18]);
  (0x1e1b, [0x1e1a]); (0x1e1d, [0x1e1c]); (0x1e1f, [0x1e1e]); (0x1e21, [0x1e20]);
  (0x1e23, [0x1e22]); (0x1e25, [0x1e24]); (0x1e27, [0x1e26]); (0x1e29, [0x1e28]);
  (0x1e2b, [0x1e2a]); (0x1e2d, [0x1e2c]); (0x1e2f, [0x1e2e]); (0x1e31, [0x1e30]);
  (0x1e33, [0x1e32]); (0x1e35, [0x1e34]); (0x1e37, [0x1e36]); (0x1e39, [0x1e38]);
  (0x1e3b, [0x1e3a]); (0x1e3d, [0x1e3c]); (0x1e3f, [0x1e3e]); (0x1e41, [0x1e40]);
  (0x1e43, [0x1e42]); (0x1e45, [0x1e44]); (0x1e47, [0x1e46]); (0x1e49, [0x1e48]);
  (0x1e4b, [0x1e4a]); (0x1e4d, [0x1e4c]); (0x1e4f, [0x1e4e]); (0x1e51, [0x1e50]);
  (0x1e53, [0x1e52]); (0x1e55, [0x1e54]); (0x1e57, [0x1e56]); (0x1e59, [0x1e58]);
  (0x1e5b, [0x1e5a]); (0x1e5d, [0x1e5c]); (0x1e5f, [0x1e5e]); (0x1e61, [0x1e60]);
  (0x1e63, [0x1e62]); (0x1e65, [0x1e64]); (0x1e67, [0x1e66]); (0x1e69, [0x1e68]);
  (0x1e6b, [0x1e6a]); (0x1e6d, [0x1e6c]); (0x1e6f, [0x1e6e]); (0x1e71, [0x1e70]);
  (0x1e73, [0x1e72]); (0x1e75, [0x1e74]); (0x1e77, [0x1e76]); (0x1e79, [0x1e78]);
  (0x1e7b, [0x1e7a]); (0x1e7d, [0x1e7c]); (0x1e7f, [0x1e7e]); (0x1e81, [0x1e80]);
  (0x1e83, [0x1e82]); (0x1e85, [0x1e84]); (0x1e87, [0x1e86]); (0x1e89, [0x1e88]);
  (0x1e8b, [0x1e8a]); (0x1e8d, [0x1e8c]); (0x1e8f, [0x1e8e]); (0x1e91, [0x1e90]);
  (0x1e93, [0x1e92]); (0x1e95, [0x1e94]); (0x1e96, [0x48; 0x331]); (0x1e97, [0x54; 0x308]);
  (0x1e98, [0x57; 0x30a]); (0x1e99, [0x59; 0x30a]); (0x1e9a, [0x41; 0x2be]); (0x1e9b, [0x1e60]);
  (0x1ea1, [0x1ea0]); (0x1ea3, [0x1ea2]); (0x1ea5, [0x1ea4]); (0x1ea7, [0x1ea6]);
  (0x1ea9, [0x1ea8]); (0x1eab, [0x1eaa]); (0x1ead, [0x1eac]); (0x1eaf, [0x1eae]);
  (0x1eb1, [0x1eb0]); (0x1eb3, [0x1eb2]); (0x1eb5, [0x1eb4]); (0x1eb7, [0x1eb6]);
  (0x1eb9, [0x1eb8]); (0x1ebb, [0x1eba]); (0x1ebd, [0x1ebc]); (0x1ebf, [0x1ebe]);
  (0x1ec1, [0x1ec0]); (0x1ec3, [0x1ec2]); (0x1ec5, [0x1ec4]); (0x1ec7, [0x1ec6]);
  (0x1ec9, [0x1ec8]); (0x1ecb, [0x1eca]); (0x1ecd, [0x1ecc]); (0x1ecf, [0x1ece]);
  (0x1ed1, [0x1ed0]); (0x1ed3, [0x1ed2]); (0x1ed5, [0x1ed4]); (0x1ed7, [0x1ed6]);
  (0x1ed9, [0x1ed8]); (0x1edb, [0x1eda]); (0x1edd, [0x1edc]); (0x1edf, [0x1ede]);
  (0x1ee1, [0x1ee0]); (0x1ee3, [0x1ee2]); (0x1ee5, [0x1ee4]); (0x1ee7, [0x1ee6]);
  (0x1ee9, [0x1ee8]); (0x1eeb, [0x1eea]); (0x1eed, [0x1eec]); (0x1eef, [0x1eee]);
  (0x1ef1, [0x1ef0]); (0x1ef3, [0x1ef2]); (0x1ef5, [0x1ef4]); (0x1ef7, [0x1ef6]);
  (0x1ef9, [0x1ef8]); (0x1efb, [0x1efa]); (0x1efd, [0x1efc]); (0x1eff, [0x1efe]);
  (0x1f00, [0x1f08]); (0x1f01, [0x1f09]); (0x1f02, [0x1f0a]); (0x1f03, [0x1f0b]);
  (0x1f04, [0x1f0c]); (0x1f05, [0x1f0d]); (0x1f06, [0x1f0e]); (0x1f07, [0x1f0f]);
  (0x1f10, [0x1f18]); (0x1f11, [0x1f19]); (0x1f12, [0x1f1a]); (0x1f13, [0x1f1b]);
  (0x1f14, [0x1f1c]); (0x1f15, [0x1f1d]); (0x1f20, [0x1f28]); (0x1f21, [0x1f29]);
  (0x1f22, [0x1f2a]); (0x1f23, [0x1f2b]); (0x1f24, [0x1f2c]); (0x1f25, [0x1f2d]);
  (0x1f26, [0x1f2e]); (0x1f27, [0x1f2f]); (0x1f30, [0x1f38]); (0x1f31, [0x1f39]);
  (0x1f32, [0x1f3a]); (0x1f33, [0x1f3b]); (0x1f34, [0x1f3c]); (0x1f35, [0x1f3d]);
  (0x1f36, [0x1f3e]); (0x1f37, [0x1f3f]); (0x1f40, [0x1f48]); (0x1f41, [0x1f49]);
  (0x1f42, [0x1f4a]); (0x1f43, [0x1f4b]); (0x1f44, [0x1f4c]); (0x1f45, [0x1f4d]);
  (0x1f50, [0x3a5; 0x313]); (0x1f51, [0x1f59]); (0x1f52, [0x3a5; 0x313; 0x300]); (0x1f53, [0x1f5b]);
  (0x1f54, [0x3a5; 0x313; 0x301]); (0x1f55, [0x1f5d]); (0x1f56, [0x3a5; 0x313; 0x342]); (0x1f57, [0x1f5f]);
  (0x1f60, [0x1f68]); (0x1f61, [0x1f69]); (0x1f62, [0x1f6a]); (0x1f63, [0x1f6b]);
  (0x1f64, [0x1f6c]); (0x1f65, [0x1f6d]); (0x1f66, [0x1f6e]); (0x1f67, [0x1f6f]);
  (0x1f70, [0x1fba]); (0x1f71, [0x1fbb]); (0x1f72, [0x1fc8]); (0x1f73, [0x1fc9]);
  (0x1f74, [0x1fca]); (0x1f75, [0x1fcb]); (0x1f76, [0x1fda]); (0x1f77, [0x1fdb]);
  (0x1f78, [0x1ff8]); (0x1f79, [0x1ff9]); (0x1f7a, [0x1fea]); (0x1f7b, [0x1feb]);
  (0x1f7c, [0x1ffa]); (0x1f7d, [0x1ffb]); (0x1f80, [0x1f08; 0x399]); (0x1f81, [0x1f09; 0x399]);
  (0x1f82, [0x1f0a; 0x399]); (0x1f83, [0x1f0b; 0x399]); (0x1f84, [0x1f0c; 0x399]); (0x1f85, [0x1f0d; 0x399]);
  (0x1f86, [0x1f0e; 0x399]); (0x1f87, [0x1f0f; 0x399]); (0x1f88, [0x1f08; 0x399]); (0x1f89, [0x1f09; 0x399]);
  (0x1f8a, [0x1f0a; 0x399]); (0x1f8b, [0x1f0b; 0x399]); (0x1f8c, [0x1f0c; 0x399]); (0x1f8d, [0x1f0d; 0x399]);
  (0x1f8e, [0x1f0e; 0x399]); (0x1f8f, [0x1f0f; 0x399]); (0x1f90, [0x1f28; 0x399]); (0x1f91, [0x1f29; 0x399]);
  (0x1f92, [0x1f2a; 0x399]); (0x1f93, [0x1f2b; 0x399]); (0x1f94, [0x1f2c; 0x399]); (0x1f95, [0x1f2d; 0x399]);
  (0x1f96, [0x1f2e; 0x399]); (0x1f97, [0x1f2f; 0x399]); (0x1f98, [0x1f28; 0x399]); (0x1f99, [0x1f29; 0x399]);
  (0x1f9a, [0x1f2a; 0x399]); (0x1f9b, [0x1f2b; 0x399]); (0x1f9c, [0x1f2c; 0x399]); (0x1f9d, [0x1f2d; 0x399]);
  (0x1f9e, [0x1f2e; 0x399]); (0x1f9f, [0x1f2f; 0x399]); (0x1fa0, [0x1f68; 0x399]); (0x1fa1, [0x1f69; 0x399]);
  (0x1fa2, [0x1f6a; 0x399]); (0x1fa3, [0x1f6b; 0x399]); (0x1fa4, [0x1f6c; 0x399]); (0x1fa5, [0x1f6d; 0x399]);
  (0x1fa6, [0x1f6e; 0x399]); (0x1fa7, [0x1f6f; 0x399]); (0x1fa8, [0x1f68; 0x399]); (0x1fa9, [0x1f69; 0x399]);
  (0x1faa, [0x1f6a; 0x399]); (0x1fab, [0x1f6b; 0x399]); (0x1fac, [0x1f6c; 0x399]); (0x1fad, [0x1f6d; 0x399]);
  (0x1fae, [0x1f6e; 0x399]); (0x1faf, [0x1f6f; 0x399]); (0x1fb0, [0x1fb8]); (0x1fb1, [0x1fb9]);
  (0x1fb2, [0x1fba; 0x399]); (0x1fb3, [0x391; 0x399]); (0x1fb4, [0x386; 0x399]); (0x1fb6, [0x391; 0x342]);
  (0x1fb7, [0x391; 0x342; 0x399]); (0x1fbc, [0x391; 0x399]); (0x1fbe, [0x399]); (0x1fc2, [0x1fca; 0x399]);
  (0x1fc3, [0x397; 0x399]); (0x1fc4, [0x389; 0x399]); (0x1fc6, [0x397; 0x342]); (0x1fc7, [0x397; 0x342; 0x399]);
  (0x1fcc, [0x397; 0x399]); (0x1fd0, [0x1fd8]); (0x1fd1, [0x1fd9]); (0x1fd2, [0x399; 0x308; 0x300]);
  (0x1fd3, [0x399; 0x308; 0x301]); (0x1fd6, [0x399; 0x342]); (0x1fd7, [0x399; 0x308; 0x342]); (0x1fe0, [0x1fe8]);
  (0x1fe1, [0x1fe9]); (0x1fe2, [0x3a5; 0x308; 0x300]); (0x1fe3, [0x3a5; 0x308; 0x301]); (0x1fe4, [0x3a1; 0x313]);
  (0x1fe5, [0x1fec]); (0x1fe6, [0x3a5; 0x342]); (0x1fe7, [0x3a5; 0x308; 0x342]); (0x1ff2, [0x1ffa; 0x399]);
  (0x1ff3, [0x3a9; 0x399]); (0x1ff4, [0x38f; 0x399]); (0x1ff6, [0x3a9; 0x342]); (0x1ff7, [0x3a9; 0x342; 0x399]);
  (0x1ffc, [0x3a9; 0x399]); (0x214e, [0x2132]); (0x2170, [0x2160]); (0x2171, [0x2161]);
  (0x2172, [0x2162]); (0x2173, [0x2163]); (0x2174, [0x2164]); (0x2175, [0x2165]);
  (0x2176, [0x2166]); (0x2177, [0x2167]); (0x2178, [0x2168]); (0x2179, [0x2169]);
  (0x217a, [0x216a]); (0x217b, [0x216b]); (0x217c, [0x216c]); (0x217d, [0x216d]);
  (0x217e, [0x216e]); (0x217f, [0x216f]); (0x2184, [0x2183]); (0x24d0, [0x24b6]);
  (0x24d1, [0x24b7]); (0x24d2, [0x24b8]); (0x24d3, [0x24b9]); (0x24d4, [0x24ba]);
  (0x24d5, [0x24bb]); (0x24d6, [0x24bc]); (0x24d7, [0x24bd]); (0x24d8, [0x24be]);
  (0x24d9, [0x24bf]); (0x24da, [0x24c0]); (0x24db, [0x24c1]); (0x24dc, [0x24c2]);
  (0x24dd, [0x24c3]); (0x24de, [0x24c4]); (0x24df, [0x24c5]); (0x24e0, [0x24c6]);
  (0x24e1, [0x24c7]); (0x24e2, [0x24c8]); (0x24e3, [0x24c9]); (0x24e4, [0x24ca]);
  (0x24e5, [0x24cb]); (0x24e6, [0x24cc]); (0x24e7, [0x24cd]); (0x24e8, [0x24ce]);
  (0x24e9, [0x24cf]); (0x2c30, [0x2c00]); (0x2c31, [0x2c01]); (0x2c32, [0x2c02]);
  (0x2c33, [0x2c03]); (0x2c34, [0x2c04]); (0x2c35, [0x2c05]); (0x2c36, [0x2c06]);
  (0x2c37, [0x2c07]); (0x2c38, [0x2c08]); (0x2c39, [0x2c09]); (0x2c3a, [0x2c0a]);
  (0x2c3b, [0x2c0b]); (0x2c3c, [0x2c0c]); (0x2c3d, [0x2c0d]); (0x2c3e, [0x2c0e]);
  (0x2c3f, [0x2c0f]); (0x2c40, [0x2c10]); (0x2c41, [0x2c11]); (0x2c42, [0x2c12]);
  (0x2c43, [0x2c13]); (0x2c44, [0x2c14]); (0x2c45, [0x2c15]); (0x2c46, [0x2c16]);
  (0x2c47, [0x2c17]); (0x2c48, [0x2c18]); (0x2c49, [0x2c19]); (0x2c4a, [0x2c1a]);
  (0x2c4b, [0x2c1b]); (0x2c4c, [0x2c1c]); (0x2c4d, [0x2c1d]); (0x2c4e, [0x2c1e]);
  (0x2c4f, [0x2c1f]); (0x2c50, [0x2c20]); (0x2c51, [0x2c21]); (0x2c52, [0x2c22]);
  (0x2c53, [0x2c23]); (0x2c54, [0x2c24]); (0x2c55, [0x2c25]); (0x2c56, [0x2c26]);
  (0x2c57, [0x2c27]); (0x2c58, [0x2c28]); (0x2c59, [0x2c29]); (0x2c5a, [0x2c2a]);
  (0x2c5b, [0x2c2b]); (0x2c5c, [0x2c2c]); (0x2c5d, [0x2c2d]); (0x2c5e, [0x2c2e]);
  (0x2c5f, [0x2c2f]); (0x2c61, [0x2c60]); (0x2c65, [0x23a]); (0x2c66, [0x23e]);
  (0x2c68, [0x2c67]); (0x2c6a, [0x2c69]); (0x2c6c, [0x2c6b]); (0x2c73, [0x2c72]);
  (0x2c76, [0x2c75]); (0x2c81, [0x2c80]); (0x2c83, [0x2c82]); (0x2c85, [0x2c84]);
  (0x2c87, [0x2c86]); (0x2c89, [0x2c88]); (0x2c8b, [0x2c8a]); (0x2c8d, [0x2c8c]);
  (0x2c8f, [0x2c8e]); (0x2c91, [0x2c90]); (0x2c93, [0x2c92]); (0x2c95, [0x2c94]);
  (0x2c97, [0x2c96]); (0x2c99, [0x2c98]); (0x2c9b, [0x2c9a]); (0x2c9d, [0x2c9c]);
  (0x2c9f, [0x2c9e]); (0x2ca1, [0x2ca0]); (0x2ca3, [0x2ca2]); (0x2ca5, [0x2ca4]);
  (0x2ca7, [0x2ca6]); (0x2ca9, [0x2ca8]); (0x2cab, [0x2caa]); (0x2cad, [0x2cac]);
  (0x2caf, [0x2cae]); (0x2cb1, [0x2cb0]); (0x2cb3, [0x2cb2]); (0x2cb5, [0x2cb4]);
  (0x2cb7, [0x2cb6]); (0x2cb9, [0x2cb8]); (0x2cbb, [0x2cba]); (0x2cbd, [0x2cbc]);
  (0x2cbf, [0x2cbe]); (0x2cc1, [0x2cc0]); (0x2cc3, [0x2cc2]); (0x2cc5, [0x2cc4]);
  (0x2cc7, [0x2cc6]); (0x2cc9, [0x2cc8]); (0x2ccb, [0x2cca]); (0x2ccd, [0x2ccc]);
  (0x2ccf, [0x2cce]); (0x2cd1, [0x2cd0]); (0x2cd3, [0x2cd2]); (0x2cd5, [0x2cd4]);
  (0x2cd7, [0x2cd6]); (0x2cd9, [0x2cd8]); (0x2cdb, [0x2cda]); (0x2cdd, [0x2cdc]);
  (0x2cdf, [0x2cde]); (0x2ce1, [0x2ce0]); (0x2ce3, [0x2ce2]); (0x2cec, [0x2ceb]);
  (0x2cee, [0x2ced]); (0x2cf3, [0x2cf2]); (0x2d00, [0x10a0]); (0x2d01, [0x10a1]);
  (0x2d02, [0x10a2]); (0x2d03, [0x10a3]); (0x2d04, [0x10a4]); (0x2d05, [0x10a5]);
  (0x2d06, [0x10a6]); (0x2d07, [0x10a7]); (0x2d08, [0x10a8]); (0x2d09, [0x10a9]);
  (0x2d0a, [0x10aa]); (0x2d0b, [0x10ab]); (0x2d0c, [0x10ac]); (0x2d0d, [0x10ad]);
  (0x2d0e, [0x10ae]); (0x2d0f, [0x10af]); (0x2d10, [0x10b0]); (0x2d11, [0x10b1]);
  (0x2d12, [0x10b2]); (0x2d13, [0x10b3]); (0x2d14, [0x10b4]); (0x2d15, [0x10b5]);
  (0x2d16, [0x10b6]); (0x2d17, [0x10b7]); (0x2d18, [0x10b8]); (0x2d19, [0x10b9]);
  (0x2d1a, [0x10ba]); (0x2d1b, [0x10bb]); (0x2d1c, [0x10bc]); (0x2d1d, [0x10bd]);
  (0x2d1e, [0x10be]); (0x2d1f, [0x10bf]); (0x2d20, [0x10c0]); (0x2d21, [0x10c1]);
  (0x2d22, [0x10c2]); (0x2d23, [0x10c3]); (0x2d24, [0x10c4]); (0x2d25, [0x10c5]);
  (0x2d27, [0x10c7]); (0x2d2d, [0x10cd]); (0xa641, [0xa640]); (0xa643, [0xa642]);
  (0xa645, [0xa644]); (0xa647, [0xa646]); (0xa649, [0xa648]); (0xa64b, [0xa64a]);
  (0xa64d, [0xa64c]); (0xa64f, [0xa64e]); (0xa651, [0xa650]); (0xa653, [0xa652]);
  (0xa655, [0xa654]); (0xa657, [0xa656]); (0xa659, [0xa658]); (0xa65b, [0xa65a]);
  (0xa65d, [0xa65c]); (0xa65f, [0xa65e]); (0xa661, [0xa660]); (0xa663, [0xa662]);
  (0xa665, [0xa664]); (0xa667, [0xa666]); (0xa669, [0xa668]); (0xa66b, [0xa66a]);
  (0xa66d, [0xa66c]); (0xa681, [0xa680]); (0xa683, [0xa682]); (0xa685, [0xa684]);
  (0xa687, [0xa686]); (0xa689, [0xa688]); (0xa68b, [0xa68a]); (0xa68d, [0xa68c]);
  (0xa68f, [0xa68e]); (0xa691, [0xa690]); (0xa693, [0xa692]); (0xa695, [0xa694]);
  (0xa697, [0xa696]); (0xa699, [0xa698]); (0xa69b, [0xa69a]); (0xa723, [0xa722]);
  (0xa725, [0xa724]); (0xa727, [0xa726]); (0xa729, [0xa728]); (0xa72b, [0xa72a]);
  (0xa72d, [0xa72c]); (0xa72f, [0xa72e]); (0xa733, [0xa732]); (0xa735, [0xa734]);
  (0xa737, [0xa736]); (0xa739, [0xa738]); (0xa73b, [0xa73a]); (0xa73d, [0xa73c]);
  (0xa73f, [0xa73e]); (0xa741, [0xa740]); (0xa743, [0xa742]); (0xa745, [0xa744]);
  (0xa747, [0xa746]); (0xa749, [0xa748]); (0xa74b, [0xa74a]); (0xa74d, [0xa74c]);
  (0xa74f, [0xa74e]); (0xa751, [0xa750]); (0xa753, [0xa752]); (0xa755, [0xa754]);
  (0xa757, [0xa756]); (0xa759, [0xa758]); (0xa75b, [0xa75a]); (0xa75d, [0xa75c]);
  (0xa75f, [0xa75e]); (0xa761, [0xa760]); (0xa763, [0xa762]); (0xa765, [0xa764]);
  (0xa767, [0xa766]); (0xa769, [0xa768]); (0xa76b, [0xa76a]); (0xa76d, [0xa76c]);
  (0xa76f, [0xa76e]); (0xa77a, [0xa779]); (0xa77c, [0xa77b]); (0xa77f, [0xa77e]);
  (0xa781, [0xa780]); (0xa783, [0xa782]); (0xa785, [0xa784]); (0xa787, [0xa786]);
  (0xa78c, [0xa78b]); (0xa791, [0xa790]); (0xa793, [0xa792]); (0xa794, [0xa7c4]);
  (0xa797, [0xa796]); (0xa799, [0xa798]); (0xa79b, [0xa79a]); (0xa79d, [0xa79c]);
  (0xa79f, [0xa79e]); (0xa7a1, [0xa7a0]); (0xa7a3, [0xa7a2]); (0xa7a5, [0xa7a4]);
  (0xa7a7, [0xa7a6]); (0xa7a9, [0xa7a8]); (0xa7b5, [0xa7b4]); (0xa7b7, [0xa7b6]);
  (0xa7b9, [0xa7b8]); (0xa7bb, [0xa7ba]); (0xa7bd, [0xa7bc]); (0xa7bf, [0xa7be]);
  (0xa7c1, [0xa7c0]); (0xa7c3, [0xa7c2]); (0xa7c8, [0xa7c7]); (0xa7ca, [0xa7c9]);
  (0xa7d1, [0xa7d0]); (0xa7d7, [0xa7d6]); (0xa7d9, [0xa7d8]); (0xa7f6, [0xa7f5]);
  (0xab53, [0xa7b3]); (0xab70, [0x13a0]); (0xab71, [0x13a1]); (0xab72, [0x13a2]);
  (0xab73, [0x13a3]); (0xab74, [0x13a4]); (0xab75, [0x13a5]); (0xab76, [0x13a6]);
  (0xab77, [0x13a7]); (0xab78, [0x13a8]); (0xab79, [0x13a9]); (0xab7a, [0x13aa]);
  (0xab7b, [0x13ab]); (0xab7c, [0x13ac]); (0xab7d, [0x13ad]); (0xab7e, [0x13ae]);
  (0xab7f, [0x13af]); (0xab80, [0x13b0]); (0xab81, [0x13b1]); (0xab82, [0x13b2]);
  (0xab83, [0x13b3]); (0xab84, [0x13b4]); (0xab85, [0x13b5]); (0xab86, [0x13b6]);
  (0xab87, [0x13b7]); (0xab88, [0x13b8]); (0xab89, [0x13b9]); (0xab8a, [0x13ba]);
  (0xab8b, [0x13bb]); (0xab8c, [0x13bc]); (0xab8d, [0x13bd]); (0xab8e, [0x13be]);
  (0xab8f, [0x13bf]); (0xab90, [0x13c0]); (0xab91, [0x13c1]); (0xab92, [0x13c2]);
  (0xab93, [0x13c3]); (0xab94, [0x13c4]); (0xab95, [0x13c5]); (0xab96, [0x13c6]);
  (0xab97, [0x13c7]); (0xab98, [0x13c8]); (0xab99, [0x13c9]); (0xab9a, [0x13ca]);
  (0xab9b, [0x13cb]); (0xab9c, [0x13cc]); (0xab9d, [0x13cd]); (0xab9e, [0x13ce]);
  (0xab9f, [0x13cf]); (0xaba0, [0x13d0]); (0xaba1, [0x13d1]); (0xaba2, [0x13d2]);
  (0xaba3, [0x13d3]); (0xaba4, [0x13d4]); (0xaba5, [0x13d5]); (0xaba6, [0x13d6]);
  (0xaba7, [0x13d7]); (0xaba8, [0x13d8]); (0xaba9, [0x13d9]); (0xabaa, [0x13da]);
  (0xabab, [0x13db]); (0xabac, [0x13dc]); (0xabad, [0x13dd]); (0xabae, [0x13de]);
  (0xabaf, [0x13df]); (0xabb0, [0x13e0]); (0xabb1, [0x13e1]); (0xabb2, [0x13e2]);
  (0xabb3, [0x13e3]); (0xabb4, [0x13e4]); (0xabb5, [0x13e5]); (0xabb6, [0x13e6]);
  (0xabb7, [0x13e7]); (0xabb8, [0x13e8]); (0xabb9, [0x13e9]); (0xabba, [0x13ea]);
  (0xabbb, [0x13eb]); (0xabbc, [0x13ec]); (0xabbd, [0x13ed]); (0xabbe, [0x13ee]);
  (0xabbf, [0x13ef]); (0xfb00, [0x46; 0x46]); (0xfb01, [0x46; 0x49]); (0xfb02, [0x46; 0x4c]);
  (0xfb03, [0x46; 0x46; 0x49]); (0xfb04, [0x46; 0x46; 0x4c]); (0xfb05, [0x53; 0x54]); (0xfb06, [0x53; 0x54]);
  (0xfb13, [0x544; 0x546]); (0xfb14, [0x544; 0x535]); (0xfb15, [0x544; 0x53b]); (0xfb16, [0x54e; 0x546]);
  (0xfb17, [0x544; 0x53d]); (0xff41, [0xff21]); (0xff42, [0xff22]); (0xff43, [0xff23]);
  (0xff44, [0xff24]); (0xff45, [0xff25]); (0xff46, [0xff26]); (0xff47, [0xff27]);
  (0xff48, [0xff28]); (0xff49, [0xff29]); (0xff4a, [0xff2a]); (0xff4b, [0xff2b]);
  (0xff4c, [0xff2c]); (0xff4d, [0xff2d]); (0xff4e, [0xff2e]); (0xff4f, [0xff2f]);
  (0xff50, [0xff30]); (0xff51, [0xff31]); (0xff52, [0xff32]); (0xff53, [0xff33]);
  (0xff54, [0xff34]); (0xff55, [0xff35]); (0xff56, [0xff36]); (0xff57, [0xff37]);
  (0xff58, [0xff38]); (0xff59, [0xff39]); (0xff5a, [0xff3a]); (0x10428, [0x10400]);
  (0x10429, [0x10401]); (0x1042a, [0x10402]); (0x1042b, [0x10403]); (0x1042c, [0x10404]);
  (0x1042d, [0x10405]); (0x1042e, [0x10406]); (0x1042f, [0x10407]); (0x10430, [0x10408]);
  (0x10431, [0x10409]); (0x10432, [0x1040a]); (0x10433, [0x1040b]); (0x10434, [0x1040c]);
  (0x10435, [0x1040d]); (0x10436, [0x1040e]); (0x10437, [0x1040f]); (0x10438, [0x10410]);
  (0x10439, [0x10411]); (0x1043a, [0x10412]); (0x1043b, [0x10413]); (0x1043c, [0x10414]);
  (0x1043d, [0x10415]); (0x1043e, [0x10416]); (0x1043f, [0x10417]); (0x10440, [0x10418]);
  (0x10441, [0x10419]); (0x10442, [0x1041a]); (0x10443, [0x1041b]); (0x10444, [0x1041c]);
  (0x10445, [0x1041d]); (0x10446, [0x1041e]); (0x10447, [0x1041f]); (0x10448, [0x10420]);
  (0x10449, [0x10421]); (0x1044a, [0x10422]); (0x1044b, [0x10423]); (0x1044c, [0x10424]);
  (0x1044d, [0x10425]); (0x1044e, [0x10426]); (0x1044f, [0x10427]); (0x104d8, [0x104b0]);
  (0x104d9, [0x104b1]); (0x104da, [0x104b2]); (0x104db, [0x104b3]); (0x104dc, [0x104b4]);
  (0x104dd, [0x104b5]); (0x104de, [0x104b6]); (0x104df, [0x104b7]); (0x104e0, [0x104b8]);
  (0x104e1, [0x104b9]); (0x104e2, [0x104ba]); (0x104e3, [0x104bb]); (0x104e4, [0x104bc]);
  (0x104e5, [0x104bd]); (0x104e6, [0x104be]); (0x104e7, [0x104bf]); (0x104e8, [0x104c0]);
  (0x104e9, [0x104c1]); (0x104ea, [0x104c2]); (0x104eb, [0x104c3]); (0x104ec, [0x104c4]);
  (0x104ed, [0x104c5]); (0x104ee, [0x104c6]); (0x104ef, [0x104c7]); (0x104f0, [0x104c8]);
  (0x104f1, [0x104c9]); (0x104f2, [0x104ca]); (0x104f3, [0x104cb]); (0x104f4, [0x104cc]);
  (0x104f5, [0x104cd]); (0x104f6, [0x104ce]); (0x104f7, [0x104cf]); (0x104f8, [0x104d0]);
  (0x104f9, [0x104d1]); (0x104fa, [0x104d2]); (0x104fb, [0x104d3]); (0x10597, [0x10570]);
  (0x10598, [0x10571]); (0x10599, [0x10572]); (0x1059a, [0x10573]); (0x1059b, [0x10574]);
  (0x1059c, [0x10575]); (0x1059d, [0x10576]); (0x1059e, [0x10577]); (0x1059f, [0x10578]);
  (0x105a0, [0x10579]); (0x105a1, [0x1057a]); (0x105a3, [0x1057c]); (0x105a4, [0x1057d]);
  (0x105a5, [0x1057e]); (0x105a6, [0x1057f]); (0x105a7, [0x10580]); (0x105a8, [0x10581]);
  (0x105a9, [0x10582]); (0x105aa, [0x10583]); (0x105ab, [0x10584]); (0x105ac, [0x10585]);
  (0x105ad, [0x10586]); (0x105ae, [0x10587]); (0x105af, [0x10588]); (0x105b0, [0x10589]);
  (0x105b1, [0x1058a]); (0x105b3, [0x1058c]); (0x105b4, [0x1058d]); (0x105b5, [0x1058e]);
  (0x105b6, [0x1058f]); (0x105b7, [0x10590]); (0x105b8, [0x10591]); (0x105b9, [0x10592]);
  (0x105bb, [0x10594]); (0x105bc, [0x10595]); (0x10cc0, [0x10c80]); (0x10cc1, [0x10c81]);
  (0x10cc2, [0x10c82]); (0x10cc3, [0x10c83]); (0x10cc4, [0x10c84]); (0x10cc5, [0x10c85]);
  (0x10cc6, [0x10c86]); (0x10cc7, [0x10c87]); (0x10cc8, [0x10c88]); (0x10cc9, [0x10c89]);
  (0x10cca, [0x10c8a]); (0x10ccb, [0x10c8b]); (0x10ccc, [0x10c8c]); (0x10ccd, [0x10c8d]);
  (0x10cce, [0x10c8e]); (0x10ccf, [0x10c8f]); (0x10cd0, [0x10c90]); (0x10cd1, [0x10c91]);
  (0x10cd2, [0x10c92]); (0x10cd3, [0x10c93]); (0x10cd4, [0x10c94]); (0x10cd5, [0x10c95]);
  (0x10cd6, [0x10c96]); (0x10cd7, [0x10c97]); (0x10cd8, [0x10c98]); (0x10cd9, [0x10c99]);
  (0x10cda, [0x10c9a]); (0x10cdb, [0x10c9b]); (0x10cdc, [0x10c9c]); (0x10cdd, [0x10c9d]);
  (0x10cde, [0x10c9e]); (0x10cdf, [0x10c9f]); (0x10ce0, [0x10ca0]); (0x10ce1, [0x10ca1]);
  (0x10ce2, [0x10ca2]); (0x10ce3, [0x10ca3]); (0x10ce4, [0x10ca4]); (0x10ce5, [0x10ca5]);
  (0x10ce6, [0x10ca6]); (0x10ce7, [0x10ca7]); (0x10ce8, [0x10ca8]); (0x10ce9, [0x10ca9]);
  (0x10cea, [0x10caa]); (0x10ceb, [0x10cab]); (0x10cec, [0x10cac]); (0x10ced, [0x10cad]);
  (0x10cee, [0x10cae]); (0x10cef, [0x10caf]); (0x10cf0, [0x10cb0]); (0x10cf1, [0x10cb1]);
  (0x10cf2, [0x10cb2]); (0x118c0, [0x118a0]); (0x118c1, [0x118a1]); (0x118c2, [0x118a2]);
  (0x118c3, [0x118a3]); (0x118c4, [0x118a4]); (0x118c5, [0x118a5]); (0x118c6, [0x118a6]);
  (0x118c7, [0x118a7]); (0x118c8, [0x118a8]); (0x118c9, [0x118a9]); (0x118ca, [0x118aa]);
  (0x118cb, [0x118ab]); (0x118cc, [0x118ac]); (0x118cd, [0x118ad]); (0x118ce, [0x118ae]);
  (0x118cf, [0x118af]); (0x118d0, [0x118b0]); (0x118d1, [0x118b1]); (0x118d2, [0x118b2]);
  (0x118d3, [0x118b3]); (0x118d4, [0x118b4]); (0x118d5, [0x118b5]); (0x118d6, [0x118b6]);
  (0x118d7, [0x118b7]); (0x118d8, [0x118b8]); (0x118d9, [0x118b9]); (0x118da, [0x118ba]);
  (0x118db, [0x118bb]); (0x118dc, [0x118bc]); (0x118dd, [0x118bd]); (0x118de, [0x118be]);
  (0x118df, [0x118bf]); (0x16e60, [0x16e40]); (0x16e61, [0x16e41]); (0x16e62, [0x16e42]);
  (0x16e63, [0x16e43]); (0x16e64, [0x16e44]); (0x16e65, [0x16e45]); (0x16e66, [0x16e46]);
  (0x16e67, [0x16e47]); (0x16e68, [0x16e48]); (0x16e69, [0x16e49]); (0x16e6a, [0x16e4a]);
  (0x16e6b, [0x16e4b]); (0x16e6c, [0x16e4c]); (0x16e6d, [0x16e4d]); (0x16e6e, [0x16e4e]);
  (0x16e6f, [0x16e4f]); (0x16e70, [0x16e50]); (0x16e71, [0x16e51]); (0x16e72, [0x16e52]);
  (0x16e73, [0x16e53]); (0x16e74, [0x16e54]); (0x16e75, [0x16e55]); (0x16e76, [0x16e56]);
  (0x16e77, [0x16e57]); (0x16e78, [0x16e58]); (0x16e79, [0x16e59]); (0x16e7a, [0x16e5a]);
  (0x16e7b, [0x16e5b]); (0x16e7c, [0x16e5c]); (0x16e7d, [0x16e5d]); (0x16e7e, [0x16e5e]);
  (0x16e7f, [0x16e5f]); (0x1e922, [0x1e900]); (0x1e923, [0x1e901]); (0x1e924, [0x1e902]);
  (0x1e925, [0x1e903]); (0x1e926, [0x1e904]); (0x1e927, [0x1e905]); (0x1e928, [0x1e906]);
  (0x1e929, [0x1e907]); (0x1e92a, [0x1e908]); (0x1e92b, [0x1e909]); (0x1e92c, [0x1e90a]);
  (0x1e92d, [0x1e90b]); (0x1e92e, [0x1e90c]); (0x1e92f, [0x1e90d]); (0x1e930, [0x1e90e]);
  (0x1e931, [0x1e90f]); (0x1e932, [0x1e910]); (0x1e933, [0x1e911]); (0x1e934, [0x1e912]);
  (0x1e935, [0x1e913]); (0x1e936, [0x1e914]); (0x1e937, [0x1e915]); (0x1e938, [0x1e916]);
  (0x1e939, [0x1e917]); (0x1e93a, [0x1e918]); (0x1e93b, [0x1e919]); (0x1e93c, [0x1e91a]);
  (0x1e93d, [0x1e91b]); (0x1e93e, [0x1e91c]); (0x1e93f, [0x1e91d]); (0x1e940, [0x1e91e]);
  (0x1e941, [0x1e91f]); (0x1e942, [0x1e920]); (0x1e943, [0x1e921])
]%N.

(** Full lowercase mapping of the code points above U+007F that [str.lower] changes, capital sigma apart. *)
Definition lower_table : list (N * list N) := [
  (0xc0, [0xe0]); (0xc1, [0xe1]); (0xc2, [0xe2]); (0xc3, [0xe3]);
  (0xc4, [0xe4]); (0xc5, [0xe5]); (0xc6, [0xe6]); (0xc7, [0xe7]);
  (0xc8, [0xe8]); (0xc9, [0xe9]); (0xca, [0xea]); (0xcb, [0xeb]);
  (0xcc, [0xec]); (0xcd, [0xed]); (0xce, [0xee]); (0xcf, [0xef]);
  (0xd0, [0xf0]); (0xd1, [0xf1]); (0xd2, [0xf2]); (0xd3, [0xf3]);
  (0xd4, [0xf4]); (0xd5, [0xf5]); (0xd6, [0xf6]); (0xd8, [0xf8]);
  (0xd9, [0xf9]); (0xda, [0xfa]); (0xdb, [0xfb]); (0xdc, [0xfc]);
  (0xdd, [0xfd]); (0xde, [0xfe]); (0x100, [0x101]); (0x102, [0x103]);
  (0x104, [0x105]); (0x106, [0x107]); (0x108, [0x109]); (0x10a, [0x10b]);
  (0x10c, [0x10d]); (0x10e, [0x10f]); (0x110, [0x111]); (0x112, [0x113]);
  (0x114, [0x115]); (0x116, [0x117]); (0x118, [0x119]); (0x11a, [0x11b]);
  (0x11c, [0x11d]); (0x11e, [0x11f]); (0x120, [0x121]); (0x122, [0x123]);
  (0x124, [0x125]); (0x126, [0x127]); (0x128, [0x129]); (0x12a, [0x12b]);
  (0x12c, [0x12d]); (0x12e, [0x12f]); (0x130, [0x69; 0x307]); (0x132, [0x133]);
  (0x134, [0x135]); (0x136, [0x137]); (0x139, [0x13a]); (0x13b, [0x13c]);
  (0x13d, [0x13e]); (0x13f, [0x140]); (0x141, [0x142]); (0x143, [0x144]);
  (0x145, [0x146]); (0x147, [0x148]); (0x14a, [0x14b]); (0x14c, [0x14d]);
  (0x14e, [0x14f]); (0x150, [0x151]); (0x152, [0x153]); (0x154, [0x155]);
  (0x156, [0x157]); (0x158, [0x159]); (0x15a, [0x15b]); (0x15c, [0x15d]);
  (0x15e, [0x15f]); (0x160, [0x161]); (0x162, [0x163]); (0x164, [0x165]);
  (0x166, [0x167]); (0x168, [0x169]); (0x16a, [0x16b]); (0x16c, [0x16d]);
  (0x16e, [0x16f]); (0x170, [0x171]); (0x172, [0x173]); (0x174, [0x175]);
  (0x176, [0x177]); (0x178, [0xff]); (0x179, [0x17a]); (0x17b, [0x17c]);
  (0x17d, [0x17e]); (0x181, [0x253]); (0x182, [0x183]); (0x184, [0x185]);
  (0x186, [0x254]); (0x187, [0x188]); (0x189, [0x256]); (0x18a, [0x257]);
  (0x18b, [0x18c]); (0x18e, [0x1dd]); (0x18f, [0x259]); (0x190, [0x25b]);
  (0x191, [0x192]); (0x193, [0x260]); (0x194, [0x263]); (0x196, [0x269]);
  (0x197, [0x268]); (0x198, [0x199]); (0x19c, [0x26f]); (0x19d, [0x272]);
  (0x19f, [0x275]); (0x1a0, [0x1a1]); (0x1a2, [0x1a3]); (0x1a4, [0x1a5]);
  (0x1a6, [0x280]); (0x1a7, [0x1a8]); (0x1a9, [0x283]); (0x1ac, [0x1ad]);
  (0x1ae, [0x288]); (0x1af, [0x1b0]); (0x1b1, [0x28a]); (0x1b2, [0x28b]);
  (0x1b3, [0x1b4]); (0x1b5, [0x1b6]); (0x1b7, [0x292]); (0x1b8, [0x1b9]);
  (0x1bc, [0x1bd]); (0x1c4, [0x1c6]); (0x1c5, [0x1c6]); (0x1c7, [0x1c9]);
  (0x1c8, [0x1c9]); (0x1ca, [0x1cc]); (0x1cb, [0x1cc]); (0x1cd, [0x1ce]);
  (0x1cf, [0x1d0]); (0x1d1, [0x1d2]); (0x1d3, [0x1d4]); (0x1d5, [0x1d6]);
  (0x1d7, [0x1d8]); (0x1d9, [0x1da]); (0x1db, [0x1dc]); (0x1de, [0x1df]);
  (0x1e0, [0x1e1]); (0x1e2, [0x1e3]); (0x1e4, [0x1e5]); (0x1e6, [0x1e7]);
  (0x1e8, [0x1e9]); (0x1ea, [0x1eb]); (0x1ec, [0x1ed]); (0x1ee, [0x1ef]);
  (0x1f1, [0x1f3]); (0x1f2, [0x1f3]); (0x1f4, [0x1f5]); (0x1f6, [0x195]);
  (0x1f7, [0x1bf]); (0x1f8, [0x1f9]); (0x1fa, [0x1fb]); (0x1fc, [0x1fd]);
  (0x1fe, [0x1ff]); (0x200, [0x201]); (0x202, [0x203]); (0x204, [0x205]);
  (0x206, [0x207]); (0x208, [0x209]); (0x20a, [0x20b]); (0x20c, [0x20d]);
  (0x20e, [0x20f]); (0x210, [0x211]); (0x212, [0x213]); (0x214, [0x215]);
  (0x216, [0x217]); (0x218, [0x219]); (0x21a, [0x21b]); (0x21c, [0x21d]);
  (0x21e, [0x21f]); (0x220, [0x19e]); (0x222, [0x223]); (0x224, [0x225]);
  (0x226, [0x227]); (0x228, [0x229]); (0x22a, [0x22b]); (0x22c, [0x22d]);
  (0x22e, [0x22f]); (0x230, [0x231]); (0x232, [0x233]); (0x23a, [0x2c65]);
  (0x23b, [0x23c]); (0x23d, [0x19a]); (0x23e, [0x2c66]); (0x241, [0x242]);
  (0x243, [0x180]); (0x244, [0x289]); (0x245, [0x28c]); (0x246, [0x247]);
  (0x248, [0x249]); (0x24a, [0x24b]); (0x24c, [0x24d]); (0x24e, [0x24f]);
  (0x370, [0x371]); (0x372, [0x373]); (0x376, [0x377]); (0x37f, [0x3f3]);
  (0x386, [0x3ac]); (0x388, [0x3ad]); (0x389, [0x3ae]); (0x38a, [0x3af]);
  (0x38c, [0x3cc]); (0x38e, [0x3cd]); (0x38f, [0x3ce]); (0x391, [0x3b1]);
  (0x392, [0x3b2]); (0x393, [0x3b3]); (0x394, [0x3b4]); (0x395, [0x3b5]);
  (0x396, [0x3b6]); (0x397, [0x3b7]); (0x398, [0x3b8]); (0x399, [0x3b9]);
  (0x39a, [0x3ba]); (0x39b, [0x3bb]); (0x39c, [0x3bc]); (0x39d, [0x3bd]);
  (0x39e, [0x3be]); (0x39f, [0x3bf]); (0x3a0, [0x3c0]); (0x3a1, [0x3c1]);
  (0x3a4, [0x3c4]); (0x3a5, [0x3c5]); (0x3a6, [0x3c6]); (0x3a7, [0x3c7]);
  (0x3a8, [0x3c8]); (0x3a9, [0x3c9]); (0x3aa, [0x3ca]); (0x3ab, [0x3cb]);
  (0x3cf, [0x3d7]); (0x3d8, [0x3d9]); (0x3da, [0x3db]); (0x3dc, [0x3dd]);
  (0x3de, [0x3df]); (0x3e0, [0x3e1]); (0x3e2, [0x3e3]); (0x3e4, [0x3e5]);
  (0x3e6, [0x3e7]); (0x3e8, [0x3e9]); (0x3ea, [0x3eb]); (0x3ec, [0x3ed]);
  (0x3ee, [0x3ef]); (0x3f4, [0x3b8]); (0x3f7, [0x3f8]); (0x3f9, [0x3f2]);
  (0x3fa, [0x3fb]); (0x3fd, [0x37b]); (0x3fe, [0x37c]); (0x3ff, [0x37d]);
  (0x400, [0x450]); (0x401, [0x451]); (0x402, [0x452]); (0x403, [0x453]);
  (0x404, [0x454]); (0x405, [0x455]); (0x406, [0x456]); (0x407, [0x457]);
  (0x408, [0x458]); (0x409, [0x459]); (0x40a, [0x45a]); (0x40b, [0x45b]);
  (0x40c, [0x45c]); (0x40d, [0x45d]); (0x40e, [0x45e]); (0x40f, [0x45f]);
  (0x410, [0x430]); (0x411, [0x431]); (0x412, [0x432]); (0x413, [0x433]);
  (0x414, [0x434]); (0x415, [0x435]); (0x416, [0x436]); (0x417, [0x437]);
  (0x418, [0x438]); (0x419, [0x439]); (0x41a, [0x43a]); (0x41b, [0x43b]);
  (0x41c, [0x43c]); (0x41d, [0x43d]); (0x41e, [0x43e]); (0x41f, [0x43f]);
  (0x420, [0x440]); (0x421, [0x441]); (0x422, [0x442]); (0x423, [0x443]);
  (0x424, [0x444]); (0x425, [0x445]); (0x426, [0x446]); (0x427, [0x447]);
  (0x428, [0x448]); (0x429, [0x449]); (0x42a, [0x44a]); (0x42b, [0x44b]);
  (0x42c, [0x44c]); (0x42d, [0x44d]); (0x42e, [0x44e]); (0x42f, [0x44f]);
  (0x460, [0x461]); (0x462, [0x463]); (0x464, [0x465]); (0x466, [0x467]);
  (0x468, [0x469]); (0x46a, [0x46b]); (0x46c, [0x46d]); (0x46e, [0x46f]);
  (0x470, [0x471]); (0x472, [0x473]); (0x474, [0x475]); (0x476, [0x477]);
  (0x478, [0x479]); (0x47a, [0x47b]); (0x47c, [0x47d]); (0x47e, [0x47f]);
  (0x480, [0x481]); (0x48a, [0x48b]); (0x48c, [0x48d]); (0x48e, [0x48f]);
  (0x490, [0x491]); (0x492, [0x493]); (0x494, [0x495]); (0x496, [0x497]);
  (0x498, [0x499]); (0x49a, [0x49b]); (0x49c, [0x49d]); (0x49e, [0x49f]);
  (0x4a0, [0x4a1]); (0x4a2, [0x4a3]); (0x4a4, [0x4a5]); (0x4a6, [0x4a7]);
  (0x4a8, [0x4a9]); (0x4aa, [0x4ab]); (0x4ac, [0x4ad]); (0x4ae, [0x4af]);
  (0x4b0, [0x4b1]); (0x4b2, [0x4b3]); (0x4b4, [0x4b5]); (0x4b6, [0x4b7]);
  (0x4b8, [0x4b9]); (0x4ba, [0x4bb]); (0x4bc, [0x4bd]); (0x4be, [0x4bf]);
  (0x4c0, [0x4cf]); (0x4c1, [0x4c2]); (0x4c3, [0x4c4]); (0x4c5, [0x4c6]);
  (0x4c7, [0x4c8]); (0x4c9, [0x4ca]); (0x4cb, [0x4cc]); (0x4cd, [0x4ce]);
  (0x4d0, [0x4d1]); (0x4d2, [0x4d3]); (0x4d4, [0x4d5]); (0x4d6, [0x4d7]);
  (0x4d8, [0x4d9]); (0x4da, [0x4db]); (0x4dc, [0x4dd]); (0x4de, [0x4df]);
  (0x4e0, [0x4e1]); (0x4e2, [0x4e3]); (0x4e4, [0x4e5]); (0x4e6, [0x4e7]);
  (0x4e8, [0x4e9]); (0x4ea, [0x4eb]); (0x4ec, [0x4ed]); (0x4ee, [0x4ef]);
  (0x4f0, [0x4f1]); (0x4f2, [0x4f3]); (0x4f4, [0x4f5]); (0x4f6, [0x4f7]);
  (0x4f8, [0x4f9]); (0x4fa, [0x4fb]); (0x4fc, [0x4fd]); (0x4fe, [0x4ff]);
  (0x500, [0x501]); (0x502, [0x503]); (0x504, [0x505]); (0x506, [0x507]);
  (0x508, [0x509]); (0x50a, [0x50b]); (0x50c, [0x50d]); (0x50e, [0x50f]);
  (0x510, [0x511]); (0x512, [0x513]); (0x514, [0x515]); (0x516, [0x517]);
  (0x518, [0x519]); (0x51a, [0x51b]); (0x51c, [0x51d]); (0x51e, [0x51f]);
  (0x520, [0x521]); (0x522, [0x523]); (0x524, [0x525]); (0x526, [0x527]);
  (0x528, [0x529]); (0x52a, [0x52b]); (0x52c, [0x52d]); (0x52e, [0x52f]);
  (0x531, [0x561]); (0x532, [0x562]); (0x533, [0x563]); (0x534, [0x564]);
  (0x535, [0x565]); (0x536, [0x566]); (0x537, [0x567]); (0x538, [0x568]);
  (0x539, [0x569]); (0x53a, [0x56a]); (0x53b, [0x56b]); (0x53c, [0x56c]);
  (0x53d, [0x56d]); (0x53e, [0x56e]); (0x53f, [0x56f]); (0x540, [0x570]);
  (0x541, [0x571]); (0x542, [0x572]); (0x543, [0x573]); (0x544, [0x574]);
  (0x545, [0x575]); (0x546, [0x576]); (0x547, [0x577]); (0x548, [0x578]);
  (0x549, [0x579]); (0x54a, [0x57a]); (0x54b, [0x57b]); (0x54c, [0x57c]);
  (0x54d, [0x57d]); (0x54e, [0x57e]); (0x54f, [0x57f]); (0x550, [0x580]);
  (0x551, [0x581]); (0x552, [0x582]); (0x553, [0x583]); (0x554, [0x584]);
  (0x555, [0x585]); (0x556, [0x586]); (0x10a0, [0x2d00]); (0x10a1, [0x2d01]);
  (0x10a2, [0x2d02]); (0x10a3, [0x2d03]); (0x10a4, [0x2d04]); (0x10a5, [0x2d05]);
  (0x10a6, [0x2d06]); (0x10a7, [0x2d07]); (0x10a8, [0x2d08]); (0x10a9, [0x2d09]);
  (0x10aa, [0x2d0a]); (0x10ab, [0x2d0b]); (0x10ac, [0x2d0c]); (0x10ad, [0x2d0d]);
  (0x10ae, [0x2d0e]); (0x10af, [0x2d0f]); (0x10b0, [0x2d10]); (0x10b1, [0x2d11]);
  (0x10b2, [0x2d12]); (0x10b3, [0x2d13]); (0x10b4, [0x2d14]); (0x10b5, [0x2d15]);
  (0x10b6, [0x2d16]); (0x10b7, [0x2d17]); (0x10b8, [0x2d18]); (0x10b9, [0x2d19]);
  (0x10ba, [0x2d1a]); (0x10bb, [0x2d1b]); (0x10bc, [0x2d1c]); (0x10bd, [0x2d1d]);
  (0x10be, [0x2d1e]); (0x10bf, [0x2d1f]); (0x10c0, [0x2d20]); (0x10c1, [0x2d21]);
  (0x10c2, [0x2d22]); (0x10c3, [0x2d23]); (0x10c4, [0x2d24]); (0x10c5, [0x2d25]);
  (0x10c7, [0x2d27]); (0x10cd, [0x2d2d]); (0x13a0, [0xab70]); (0x13a1, [0xab71]);
  (0x13a2, [0xab72]); (0x13a3, [0xab73]); (0x13a4, [0xab74]); (0x13a5, [0xab75]);
  (0x13a6, [0xab76]); (0x13a7, [0xab77]); (0x13a8, [0xab78]); (0x13a9, [0xab79]);
  (0x13aa, [0xab7a]); (0x13ab, [0xab7b]); (0x13ac, [0xab7c]); (0x13ad, [0xab7d]);
  (0x13ae, [0xab7e]); (0x13af, [0xab7f]); (0x13b0, [0xab80]); (0x13b1, [0xab81]);
  (0x13b2, [0xab82]); (0x13b3, [0xab83]); (0x13b4, [0xab84]); (0x13b5, [0xab85]);
  (0x13b6, [0xab86]); (0x13b7, [0xab87]); (0x13b8, [0xab88]); (0x13b9, [0xab89]);
  (0x13ba, [0xab8a]); (0x13bb, [0xab8b]); (0x13bc, [0xab8c]); (0x13bd, [0xab8d]);
  (0x13be, [0xab8e]); (0x13bf, [0xab8f]); (0x13c0, [0xab90]); (0x13c1, [0xab91]);
  (0x13c2, [0xab92]); (0x13c3, [0xab93]); (0x13c4, [0xab94]); (0x13c5, [0xab95]);
  (0x13c6, [0xab96]); (0x13c7, [0xab97]); (0x13c8, [0xab98]); (0x13c9, [0xab99]);
  (0x13ca, [0xab9a]); (0x13cb, [0xab9b]); (0x13cc, [0xab9c]); (0x13cd, [0xab9d]);
  (0x13ce, [0xab9e]); (0x13cf, [0xab9f]); (0x13d0, [0xaba0]); (0x13d1, [0xaba1]);
  (0x13d2, [0xaba2]); (0x13d3, [0xaba3]); (0x13d4, [0xaba4]); (0x13d5, [0xaba5]);
  (0x13d6, [0xaba6]); (0x13d7, [0xaba7]); (0x13d8, [0xaba8]); (0x13d9, [0xaba9]);
  (0x13da, [0xabaa]); (0x13db, [0xabab]); (0x13dc, [0xabac]); (0x13dd, [0xabad]);
  (0x13de, [0xabae]); (0x13df, [0xabaf]); (0x13e0, [0xabb0]); (0x13e1, [0xabb1]);
  (0x13e2, [0xabb2]); (0x13e3, [0xabb3]); (0x13e4, [0xabb4]); (0x13e5, [0xabb5]);
  (0x13e6, [0xabb6]); (0x13e7, [0xabb7]); (0x13e8, [0xabb8]); (0x13e9, [0xabb9]);
  (0x13ea, [0xabba]); (0x13eb, [0xabbb]); (0x13ec, [0xabbc]); (0x13ed, [0xabbd]);
  (0x13ee, [0xabbe]); (0x13ef, [0xabbf]); (0x13f0, [0x13f8]); (0x13f1, [0x13f9]);
  (0x13f2, [0x13fa]); (0x13f3, [0x13fb]); (0x13f4, [0x13fc]); (0x13f5, [0x13fd]);
  (0x1c90, [0x10d0]); (0x1c91, [0x10d1]); (0x1c92, [0x10d2]); (0x1c93, [0x10d3]);
  (0x1c94, [0x10d4]); (0x1c95, [0x10d5]); (0x1c96, [0x10d6]); (0x1c97, [0x10d7]);
  (0x1c98, [0x10d8]); (0x1c99, [0x10d9]); (0x1c9a, [0x10da]); (0x1c9b, [0x10db]);
  (0x1c9c, [0x10dc]); (0x1c9d, [0x10dd]); (0x1c9e, [0x10de]); (0x1c9f, [0x10df]);
  (0x1ca0, [0x10e0]); (0x1ca1, [0x10e1]); (0x1ca2, [0x10e2]); (0x1ca3, [0x10e3]);
  (0x1ca4, [0x10e4]); (0x1ca5, [0x10e5]); (0x1ca6, [0x10e6]); (0x1ca7, [0x10e7]);
  (0x1ca8, [0x10e8]); (0x1ca9, [0x10e9]); (0x1caa, [0x10ea]); (0x1cab, [0x10eb]);
  (0x1cac, [0x10ec]); (0x1cad, [0x10ed]); (0x1cae, [0x10ee]); (0x1caf, [0x10ef]);
  (0x1cb0, [0x10f0]); (0x1cb1, [0x10f1]); (0x1cb2, [0x10f2]); (0x1cb3, [0x10f3]);
  (0x1cb4, [0x10f4]); (0x1cb5, [0x10f5]); (0x1cb6, [0x10f6]); (0x1cb7, [0x10f7]);
  (0x1cb8, [0x10f8]); (0x1cb9, [0x10f9]); (0x1cba, [0x10fa]); (0x1cbd, [0x10fd]);
  (0x1cbe, [0x10fe]); (0x1cbf, [0x10ff]); (0x1e00, [0x1e01]); (0x1e02, [0x1e03]);
  (0x1e04, [0x1e05]); (0x1e06, [0x1e07]); (0x1e08, [0x1e09]); (0x1e0a, [0x1e0b]);
  (0x1e0c, [0x1e0d]); (0x1e0e, [0x1e0f]); (0x1e10, [0x1e11]); (0x1e12, [0x1e13]);
  (0x1e14, [0x1e15]); (0x1e16, [0x1e17]); (0x1e18, [0x1e19]); (0x1e1a, [0x1e1b]);
  (0x1e1c, [0x1e1d]); (0x1e1e, [0x1e1f]); (0x1e20, [0x1e21]); (0x1e22, [0x1e23]);
  (0x1e24, [0x1e25]); (0x1e26, [0x1e27]); (0x1e28, [0x1e29]); (0x1e2a, [0x1e2b]);
  (0x1e2c, [0x1e2d]); (0x1e2e, [0x1e2f]); (0x1e30, [0x1e31]); (0x1e32, [0x1e33]);
  (0x1e34, [0x1e35]); (0x1e36, [0x1e37]); (0x1e38, [0x1e39]); (0x1e3a, [0x1e3b]);
  (0x1e3c, [0x1e3d]); (0x1e3e, [0x1e3f]); (0x1e40, [0x1e41]); (0x1e42, [0x1e43]);
  (0x1e44, [0x1e45]); (0x1e46, [0x1e47]); (0x1e48, [0x1e49]); (0x1e4a, [0x1e4b]);
  (0x1e4c, [0x1e4d]); (0x1e4e, [0x1e4f]); (0x1e50, [0x1e51]); (0x1e52, [0x1e53]);
  (0x1e54, [0x1e55]); (0x1e56, [0x1e57]); (0x1e58, [0x1e59]); (0x1e5a, [0x1e5b]);
  (0x1e5c, [0x1e5d]); (0x1e5e, [0x1e5f]); (0x1e60, [0x1e61]); (0x1e62, [0x1e63]);
  (0x1e64, [0x1e65]); (0x1e66, [0x1e67]); (0x1e68, [0x1e69]); (0x1e6a, [0x1e6b]);
  (0x1e6c, [0x1e6d]); (0x1e6e, [0x1e6f]); (0x1e70, [0x1e71]); (0x1e72, [0x1e73]);
  (0x1e74, [0x1e75]); (0x1e76, [0x1e77]); (0x1e78, [0x1e79]); (0x1e7a, [0x1e7b]);
  (0x1e7c, [0x1e7d]); (0x1e7e, [0x1e7f]); (0x1e80, [0x1e81]); (0x1e82, [0x1e83]);
  (0x1e84, [0x1e85]); (0x1e86, [0x1e87]); (0x1e88, [0x1e89]); (0x1e8a, [0x1e8b]);
  (0x1e8c, [0x1e8d]); (0x1e8e, [0x1e8f]); (0x1e90, [0x1e91]); (0x1e92, [0x1e93]);
  (0x1e94, [0x1e95]); (0x1e9e, [0xdf]); (0x1ea0, [0x1ea1]); (0x1ea2, [0x1ea3]);
  (0x1ea4, [0x1ea5]); (0x1ea6, [0x1ea7]); (0x1ea8, [0x1ea9]); (0x1eaa, [0x1eab]);
  (0x1eac, [0x1ead]); (0x1eae, [0x1eaf]); (0x1eb0, [0x1eb1]); (0x1eb2, [0x1eb3]);
  (0x1eb4, [0x1eb5]); (0x1eb6, [0x1eb7]); (0x1eb8, [0x1eb9]); (0x1eba, [0x1ebb]);
  (0x1ebc, [0x1ebd]); (0x1ebe, [0x1ebf]); (0x1ec0, [0x1ec1]); (0x1ec2, [0x1ec3]);
  (0x1ec4, [0x1ec5]); (0x1ec6, [0x1ec7]); (0x1ec8, [0x1ec9]); (0x1eca, [0x1ecb]);
  (0x1ecc, [0x1ecd]); (0x1ece, [0x1ecf]); (0x1ed0, [0x1ed1]); (0x1ed2, [0x1ed3]);
  (0x1ed4, [0x1ed5]); (0x1ed6, [0x1ed7]); (0x1ed8, [0x1ed9]); (0x1eda, [0x1edb]);
  (0x1edc, [0x1edd]); (0x1ede, [0x1edf]); (0x1ee0, [0x1ee1]); (0x1ee2, [0x1ee3]);
  (0x1ee4, [0x1ee5]); (0x1ee6, [0x1ee7]); (0x1ee8, [0x1ee9]); (0x1eea, [0x1eeb]);
  (0x1eec, [0x1eed]); (0x1eee, [0x1eef]); (0x1ef0, [0x1ef1]); (0x1ef2, [0x1ef3]);
  (0x1ef4, [0x1ef5]); (0x1ef6, [0x1ef7]); (0x1ef8, [0x1ef9]); (0x1efa, [0x1efb]);
  (0x1efc, [0x1efd]); (0x1efe, [0x1eff]); (0x1f08, [0x1f00]); (0x1f09, [0x1f01]);
  (0x1f0a, [0x1f02]); (0x1f0b, [0x1f03]); (0x1f0c, [0x1f04]); (0x1f0d, [0x1f05]);
  (0x1f0e, [0x1f06]); (0x1f0f, [0x1f07]); (0x1f18, [0x1f10]); (0x1f19, [0x1f11]);
  (0x1f1a, [0x1f12]); (0x1f1b, [0x1f13]); (0x1f1c, [0x1f14]); (0x1f1d, [0x1f15]);
  (0x1f28, [0x1f20]); (0x1f29, [0x1f21]); (0x1f2a, [0x1f22]); (0x1f2b, [0x1f23]);
  (0x1f2c, [0x1f24]); (0x1f2d, [0x1f25]); (0x1f2e, [0x1f26]); (0x1f2f, [0x1f27]);
  (0x1f38, [0x1f30]); (0x1f39, [0x1f31]); (0x1f3a, [0x1f32]); (0x1f3b, [0x1f33]);
  (0x1f3c, [0x1f34]); (0x1f3d, [0x1f35]); (0x1f3e, [0x1f36]); (0x1f3f, [0x1f37]);
  (0x1f48, [0x1f40]); (0x1f49, [0x1f41]); (0x1f4a, [0x1f42]); (0x1f4b, [0x1f43]);
  (0x1f4c, [0x1f44]); (0x1f4d, [0x1f45]); (0x1f59, [0x1f51]); (0x1f5b, [0x1f53]);
  (0x1f5d, [0x1f55]); (0x1f5f, [0x1f57]); (0x1f68, [0x1f60]); (0x1f69, [0x1f61]);
  (0x1f6a, [0x1f62]); (0x1f6b, [0x1f63]); (0x1f6c, [0x1f64]); (0x1f6d, [0x1f65]);
  (0x1f6e, [0x1f66]); (0x1f6f, [0x1f67]); (0x1f88, [0x1f80]); (0x1f89, [0x1f81]);
  (0x1f8a, [0x1f82]); (0x1f8b, [0x1f83]); (0x1f8c, [0x1f84]); (0x1f8d, [0x1f85]);
  (0x1f8e, [0x1f86]); (0x1f8f, [0x1f87]); (0x1f98, [0x1f90]); (0x1f99, [0x1f91]);
  (0x1f9a, [0x1f92]); (0x1f9b, [0x1f93]); (0x1f9c, [0x1f94]); (0x1f9d, [0x1f95]);
  (0x1f9e, [0x1f96]); (0x1f9f, [0x1f97]); (0x1fa8, [0x1fa0]); (0x1fa9, [0x1fa1]);
  (0x1faa, [0x1fa2]); (0x1fab, [0x1fa3]); (0x1fac, [0x1fa4]); (0x1fad, [0x1fa5]);
  (0x1fae, [0x1fa6]); (0x1faf, [0x1fa7]); (0x1fb8, [0x1fb0]); (0x1fb9, [0x1fb1]);
  (0x1fba, [0x1f70]); (0x1fbb, [0x1f71]); (0x1fbc, [0x1fb3]); (0x1fc8, [0x1f72]);
  (0x1fc9, [0x1f73]); (0x1fca, [0x1f74]); (0x1fcb, [0x1f75]); (0x1fcc, [0x1fc3]);
  (0x1fd8, [0x1fd0]); (0x1fd9, [0x1fd1]); (0x1fda, [0x1f76]); (0x1fdb, [0x1f77]);
  (0x1fe8, [0x1fe0]); (0x1fe9, [0x1fe1]); (0x1fea, [0x1f7a]); (0x1feb, [0x1f7b]);
  (0x1fec, [0x1fe5]); (0x1ff8, [0x1f78]); (0x1ff9, [0x1f79]); (0x1ffa, [0x1f7c]);
  (0x1ffb, [0x1f7d]); (0x1ffc, [0x1ff3]); (0x2126, [0x3c9]); (0x212a, [0x6b]);
  (0x212b, [0xe5]); (0x2132, [0x214e]); (0x2160, [0x2170]); (0x2161, [0x2171]);
  (0x2162, [0x2172]); (0x2163, [0x2173]); (0x2164, [0x2174]); (0x2165, [0x2175]);
  (0x2166, [0x2176]); (0x2167, [0x2177]); (0x2168, [0x2178]); (0x2169, [0x2179]);
  (0x216a, [0x217a]); (0x216b, [0x217b]); (0x216c, [0x217c]); (0x216d, [0x217d]);
  (0x216e, [0x217e]); (0x216f, [0x217f]); (0x2183, [0x2184]); (0x24b6, [0x24d0]);
  (0x24b7, [0x24d1]); (0x24b8, [0x24d2]); (0x24b9, [0x24d3]); (0x24ba, [0x24d4]);
  (0x24bb, [0x24d5]); (0x24bc, [0x24d6]); (0x24bd, [0x24d7]); (0x24be, [0x24d8]);
  (0x24bf, [0x24d9]); (0x24c0, [0x24da]); (0x24c1, [0x24db]); (0x24c2, [0x24dc]);
  (0x24c3, [0x24dd]); (0x24c4, [0x24de]); (0x24c5, [0x24df]); (0x24c6, [0x24e0]);
  (0x24c7, [0x24e1]); (0x24c8, [0x24e2]); (0x24c9, [0x24e3]); (0x24ca, [0x24e4]);
  (0x24cb, [0x24e5]); (0x24cc, [0x24e6]); (0x24cd, [0x24e7]); (0x24ce, [0x24e8]);
  (0x24cf, [0x24e9]); (0x2c00, [0x2c30]); (0x2c01, [0x2c31]); (0x2c02, [0x2c32]);
  (0x2c03, [0x2c33]); (0x2c04, [0x2c34]); (0x2c05, [0x2c35]); (0x2c06, [0x2c36]);
  (0x2c07, [0x2c37]); (0x2c08, [0x2c38]); (0x2c09, [0x2c39]); (0x2c0a, [0x2c3a]);
  (0x2c0b, [0x2c3b]); (0x2c0c, [0x2c3c]); (0x2c0d, [0x2c3d]); (0x2c0e, [0x2c3e]);
  (0x2c0f, [0x2c3f]); (0x2c10, [0x2c40]); (0x2c11, [0x2c41]); (0x2c12, [0x2c42]);
  (0x2c13, [0x2c43]); (0x2c14, [0x2c44]); (0x2c15, [0x2c45]); (0x2c16, [0x2c46]);
  (0x2c17, [0x2c47]); (0x2c18, [0x2c48]); (0x2c19, [0x2c49]); (0x2c1a, [0x2c4a]);
  (0x2c1b, [0x2c4b]); (0x2c1c, [0x2c4c]); (0x2c1d, [0x2c4d]); (0x2c1e, [0x2c4e]);
  (0x2c1f, [0x2c4f]); (0x2c20, [0x2c50]); (0x2c21, [0x2c51]); (0x2c22, [0x2c52]);
  (0x2c23, [0x2c53]); (0x2c24, [0x2c54]); (0x2c25, [0x2c55]); (0x2c26, [0x2c56]);
  (0x2c27, [0x2c57]); (0x2c28, [0x2c58]); (0x2c29, [0x2c59]); (0x2c2a, [0x2c5a]);
  (0x2c2b, [0x2c5b]); (0x2c2c, [0x2c5c]); (0x2c2d, [0x2c5d]); (0x2c2e, [0x2c5e]);
  (0x2c2f, [0x2c5f]); (0x2c60, [0x2c61]); (0x2c62, [0x26b]); (0x2c63, [0x1d7d]);
  (0x2c64, [0x27d]); (0x2c67, [0x2c68]); (0x2c69, [0x2c6a]); (0x2c6b, [0x2c6c]);
  (0x2c6d, [0x251]); (0x2c6e, [0x271]); (0x2c6f, [0x250]); (0x2c70, [0x252]);
  (0x2c72, [0x2c73]); (0x2c75, [0x2c76]); (0x2c7e, [0x23f]); (0x2c7f, [0x240]);
  (0x2c80, [0x2c81]); (0x2c82, [0x2c83]); (0x2c84, [0x2c85]); (0x2c86, [0x2c87]);
  (0x2c88, [0x2c89]); (0x2c8a, [0x2c8b]); (0x2c8c, [0x2c8d]); (0x2c8e, [0x2c8f]);
  (0x2c90, [0x2c91]); (0x2c92, [0x2c93]); (0x2c94, [0x2c95]); (0x2c96, [0x2c97]);
  (0x2c98, [0x2c99]); (0x2c9a, [0x2c9b]); (0x2c9c, [0x2c9d]); (0x2c9e, [0x2c9f]);
  (0x2ca0, [0x2ca1]); (0x2ca2, [0x2ca3]); (0x2ca4, [0x2ca5]); (0x2ca6, [0x2ca7]);
  (0x2ca8, [0x2ca9]); (0x2caa, [0x2cab]); (0x2cac, [0x2cad]); (0x2cae, [0x2caf]);
  (0x2cb0, [0x2cb1]); (0x2cb2, [0x2cb3]); (0x2cb4, [0x2cb5]); (0x2cb6, [0x2cb7]);
  (0x2cb8, [0x2cb9]); (0x2cba, [0x2cbb]); (0x2cbc, [0x2cbd]); (0x2cbe, [0x2cbf]);
  (0x2cc0, [0x2cc1]); (0x2cc2, [0x2cc3]); (0x2cc4, [0x2cc5]); (0x2cc6, [0x2cc7]);
  (0x2cc8, [0x2cc9]); (0x2cca, [0x2ccb]); (0x2ccc, [0x2ccd]); (0x2cce, [0x2ccf]);
  (0x2cd0, [0x2cd1]); (0x2cd2, [0x2cd3]); (0x2cd4, [0x2cd5]); (0x2cd6, [0x2cd7]);
  (0x2cd8, [0x2cd9]); (0x2cda, [0x2cdb]); (0x2cdc, [0x2cdd]); (0x2cde, [0x2cdf]);
  (0x2ce0, [0x2ce1]); (0x2ce2, [0x2ce3]); (0x2ceb, [0x2cec]); (0x2ced, [0x2cee]);
  (0x2cf2, [0x2cf3]); (0xa640, [0xa641]); (0xa642, [0xa643]); (0xa644, [0xa645]);
  (0xa646, [0xa647]); (0xa648, [0xa649]); (0xa64a, [0xa64b]); (0xa64c, [0xa64d]);
  (0xa64e, [0xa64f]); (0xa650, [0xa651]); (0xa652, [0xa653]); (0xa654, [0xa655]);
  (0xa656, [0xa657]); (0xa658, [0xa659]); (0xa65a, [0xa65b]); (0xa65c, [0xa65d]);
  (0xa65e, [0xa65f]); (0xa660, [0xa661]); (0xa662, [0xa663]); (0xa664, [0xa665]);
  (0xa666, [0xa667]); (0xa668, [0xa669]); (0xa66a, [0xa66b]); (0xa66c, [0xa66d]);
  (0xa680, [0xa681]); (0xa682, [0xa683]); (0xa684, [0xa685]); (0xa686, [0xa687]);
  (0xa688, [0xa689]); (0xa68a, [0xa68b]); (0xa68c, [0xa68d]); (0xa68e, [0xa68f]);
  (0xa690, [0xa691]); (0xa692, [0xa693]); (0xa694, [0xa695]); (0xa696, [0xa697]);
  (0xa698, [0xa699]); (0xa69a, [0xa69b]); (0xa722, [0xa723]); (0xa724, [0xa725]);
  (0xa726, [0xa727]); (0xa728, [0xa729]); (0xa72a, [0xa72b]); (0xa72c, [0xa72d]);
  (0xa72e, [0xa72f]); (0xa732, [0xa733]); (0xa734, [0xa735]); (0xa736, [0xa737]);
  (0xa738, [0xa739]); (0xa73a, [0xa73b]); (0xa73c, [0xa73d]); (0xa73e, [0xa73f]);
  (0xa740, [0xa741]); (0xa742, [0xa743]); (0xa744, [0xa745]); (0xa746, [0xa747]);
  (0xa748, [0xa749]); (0xa74a, [0xa74b]); (0xa74c, [0xa74d]); (0xa74e, [0xa74f]);
  (0xa750, [0xa751]); (0xa752, [0xa753]); (0xa754, [0xa755]); (0xa756, [0xa757]);
  (0xa758, [0xa759]); (0xa75a, [0xa75b]); (0xa75c, [0xa75d]); (0xa75e, [0xa75f]);
  (0xa760, [0xa761]); (0xa762, [0xa763]); (0xa764, [0xa765]); (0xa766, [0xa767]);
  (0xa768, [0xa769]); (0xa76a, [0xa76b]); (0xa76c, [0xa76d]); (0xa76e, [0xa76f]);
  (0xa779, [0xa77a]); (0xa77b, [0xa77c]); (0xa77d, [0x1d79]); (0xa77e, [0xa77f]);
  (0xa780, [0xa781]); (0xa782, [0xa783]); (0xa784, [0xa785]); (0xa786, [0xa787]);
  (0xa78b, [0xa78c]); (0xa78d, [0x265]); (0xa790, [0xa791]); (0xa792, [0xa793]);
  (0xa796, [0xa797]); (0xa798, [0xa799]); (0xa79a, [0xa79b]); (0xa79c, [0xa79d]);
  (0xa79e, [0xa79f]); (0xa7a0, [0xa7a1]); (0xa7a2, [0xa7a3]); (0xa7a4, [0xa7a5]);
  (0xa7a6, [0xa7a7]); (0xa7a8, [0xa7a9]); (0xa7aa, [0x266]); (0xa7ab, [0x25c]);
  (0xa7ac, [0x261]); (0xa7ad, [0x26c]); (0xa7ae, [0x26a]); (0xa7b0, [0x29e]);
  (0xa7b1, [0x287]); (0xa7b2, [0x29d]); (0xa7b3, [0xab53]); (0xa7b4, [0xa7b5]);
  (0xa7b6, [0xa7b7]); (0xa7b8, [0xa7b9]); (0xa7ba, [0xa7bb]); (0xa7bc, [0xa7bd]);
  (0xa7be, [0xa7bf]); (0xa7c0, [0xa7c1]); (0xa7c2, [0xa7c3]); (0xa7c4, [0xa794]);
  (0xa7c5, [0x282]); (0xa7c6, [0x1d8e]); (0xa7c7, [0xa7c8]); (0xa7c9, [0xa7ca]);
  (0xa7d0, [0xa7d1]); (0xa7d6, [0xa7d7]); (0xa7d8, [0xa7d9]); (0xa7f5, [0xa7f6]);
  (0xff21, [0xff41]); (0xff22, [0xff42]); (0xff23, [0xff43]); (0xff24, [0xff44]);
  (0xff25, [0xff45]); (0xff26, [0xff46]); (0xff27, [0xff47]); (0xff28, [0xff48]);
  (0xff29, [0xff49]); (0xff2a, [0xff4a]); (0xff2b, [0xff4b]); (0xff2c, [0xff4c]);
  (0xff2d, [0xff4d]); (0xff2e, [0xff4e]); (0xff2f, [0xff4f]); (0xff30, [0xff50]);
  (0xff31, [0xff51]); (0xff32, [0xff52]); (0xff33, [0xff53]); (0xff34, [0xff54]);
  (0xff35, [0xff55]); (0xff36, [0xff56]); (0xff37, [0xff57]); (0xff38, [0xff58]);
  (0xff39, [0xff59]); (0xff3a, [0xff5a]); (0x10400, [0x10428]); (0x10401, [0x10429]);
  (0x10402, [0x1042a]); (0x10403, [0x1042b]); (0x10404, [0x1042c]); (0x10405, [0x1042d]);
  (0x10406, [0x1042e]); (0x10407, [0x1042f]); (0x10408, [0x10430]); (0x10409, [0x10431]);
  (0x1040a, [0x10432]); (0x1040b, [0x10433]); (0x1040c, [0x10434]); (0x1040d, [0x10435]);
  (0x1040e, [0x10436]); (0x1040f, [0x10437]); (0x10410, [0x10438]); (0x10411, [0x10439]);
  (0x10412, [0x1043a]); (0x10413, [0x1043b]); (0x10414, [0x1043c]); (0x10415, [0x1043d]);
  (0x10416, [0x1043e]); (0x10417, [0x1043f]); (0x10418, [0x10440]); (0x10419, [0x10441]);
  (0x1041a, [0x10442]); (0x1041b, [0x10443]); (0x1041c, [0x10444]); (0x1041d, [0x10445]);
  (0x1041e, [0x10446]); (0x1041f, [0x10447]); (0x10420, [0x10448]); (0x10421, [0x10449]);
  (0x10422, [0x1044a]); (0x10423, [0x1044b]); (0x10424, [0x1044c]); (0x10425, [0x1044d]);
  (0x10426, [0x1044e]); (0x10427, [0x1044f]); (0x104b0, [0x104d8]); (0x104b1, [0x104d9]);
  (0x104b2, [0x104da]); (0x104b3, [0x104db]); (0x104b4, [0x104dc]); (0x104b5, [0x104dd]);
  (0x104b6, [0x104de]); (0x104b7, [0x104df]); (0x104b8, [0x104e0]); (0x104b9, [0x104e1]);
  (0x104ba, [0x104e2]); (0x104bb, [0x104e3]); (0x104bc, [0x104e4]); (0x104bd, [0x104e5]);
  (0x104be, [0x104e6]); (0x104bf, [0x104e7]); (0x104c0, [0x104e8]); (0x104c1, [0x104e9]);
  (0x104c2, [0x104ea]); (0x104c3, [0x104eb]); (0x104c4, [0x104ec]); (0x104c5, [0x104ed]);
  (0x104c6, [0x104ee]); (0x104c7, [0x104ef]); (0x104c8, [0x104f0]); (0x104c9, [0x104f1]);
  (0x104ca, [0x104f2]); (0x104cb, [0x104f3]); (0x104cc, [0x104f4]); (0x104cd, [0x104f5]);
  (0x104ce, [0x104f6]); (0x104cf, [0x104f7]); (0x104d0, [0x104f8]); (0x104d1, [0x104f9]);
  (0x104d2, [0x104fa]); (0x104d3, [0x104fb]); (0x10570, [0x10597]); (0x10571, [0x10598]);
  (0x10572, [0x10599]); (0x10573, [0x1059a]); (0x10574, [0x1059b]); (0x10575, [0x1059c]);
  (0x10576, [0x1059d]); (0x10577, [0x1059e]); (0x10578, [0x1059f]); (0x10579, [0x105a0]);
  (0x1057a, [0x105a1]); (0x1057c, [0x105a3]); (0x1057d, [0x105a4]); (0x1057e, [0x105a5]);
  (0x1057f, [0x105a6]); (0x10580, [0x105a7]); (0x10581, [0x105a8]); (0x10582, [0x105a9]);
  (0x10583, [0x105aa]); (0x10584, [0x105ab]); (0x10585, [0x105ac]); (0x10586, [0x105ad]);
  (0x10587, [0x105ae]); (0x10588, [0x105af]); (0x10589, [0x105b0]); (0x1058a, [0x105b1]);
  (0x1058c, [0x105b3]); (0x1058d, [0x105b4]); (0x1058e, [0x105b5]); (0x1058f, [0x105b6]);
  (0x10590, [0x105b7]); (0x10591, [0x105b8]); (0x10592, [0x105b9]); (0x10594, [0x105bb]);
  (0x10595, [0x105bc]); (0x10c80, [0x10cc0]); (0x10c81, [0x10cc1]); (0x10c82, [0x10cc2]);
  (0x10c83, [0x10cc3]); (0x10c84, [0x10cc4]); (0x10c85, [0x10cc5]); (0x10c86, [0x10cc6]);
  (0x10c87, [0x10cc7]); (0x10c88, [0x10cc8]); (0x10c89, [0x10cc9]); (0x10c8a, [0x10cca]);
  (0x10c8b, [0x10ccb]); (0x10c8c, [0x10ccc]); (0x10c8d, [0x10ccd]); (0x10c8e, [0x10cce]);
  (0x10c8f, [0x10ccf]); (0x10c90, [0x10cd0]); (0x10c91, [0x10cd1]); (0x10c92, [0x10cd2]);
  (0x10c93, [0x10cd3]); (0x10c94, [0x10cd4]); (0x10c95, [0x10cd5]); (0x10c96, [0x10cd6]);
  (0x10c97, [0x10cd7]); (0x10c98, [0x10cd8]); (0x10c99, [0x10cd9]); (0x10c9a, [0x10cda]);
  (0x10c9b, [0x10cdb]); (0x10c9c, [0x10cdc]); (0x10c9d, [0x10cdd]); (0x10c9e, [0x10cde]);
  (0x10c9f, [0x10cdf]); (0x10ca0, [0x10ce0]); (0x10ca1, [0x10ce1]); (0x10ca2, [0x10ce2]);
  (0x10ca3, [0x10ce3]); (0x10ca4, [0x10ce4]); (0x10ca5, [0x10ce5]); (0x10ca6, [0x10ce6]);
  (0x10ca7, [0x10ce7]); (0x10ca8, [0x10ce8]); (0x10ca9, [0x10ce9]); (0x10caa, [0x10cea]);
  (0x10cab, [0x10ceb]); (0x10cac, [0x10cec]); (0x10cad, [0x10ced]); (0x10cae, [0x10cee]);
  (0x10caf, [0x10cef]); (0x10cb0, [0x10cf0]); (0x10cb1, [0x10cf1]); (0x10cb2, [0x10cf2]);
  (0x118a0, [0x118c0]); (0x118a1, [0x118c1]); (0x118a2, [0x118c2]); (0x118a3, [0x118c3]);
  (0x118a4, [0x118c4]); (0x118a5, [0x118c5]); (0x118a6, [0x118c6]); (0x118a7, [0x118c7]);
  (0x118a8, [0x118c8]); (0x118a9, [0x118c9]); (0x118aa, [0x118ca]); (0x118ab, [0x118cb]);
  (0x118ac, [0x118cc]); (0x118ad, [0x118cd]); (0x118ae, [0x118ce]); (0x118af, [0x118cf]);
  (0x118b0, [0x118d0]); (0x118b1, [0x118d1]); (0x118b2, [0x118d2]); (0x118b3, [0x118d3]);
  (0x118b4, [0x118d4]); (0x118b5, [0x118d5]); (0x118b6, [0x118d6]); (0x118b7, [0x118d7]);
  (0x118b8, [0x118d8]); (0x118b9, [0x118d9]); (0x118ba, [0x118da]); (0x118bb, [0x118db]);
  (0x118bc, [0x118dc]); (0x118bd, [0x118dd]); (0x118be, [0x118de]); (0x118bf, [0x118df]);
  (0x16e40, [0x16e60]); (0x16e41, [0x16e61]); (0x16e42, [0x16e62]); (0x16e43, [0x16e63]);
  (0x16e44, [0x16e64]); (0x16e45, [0x16e65]); (0x16e46, [0x16e66]); (0x16e47, [0x16e67]);
  (0x16e48, [0x16e68]); (0x16e49, [0x16e69]); (0x16e4a, [0x16e6a]); (0x16e4b, [0x16e6b]);
  (0x16e4c, [0x16e6c]); (0x16e4d, [0x16e6d]); (0x16e4e, [0x16e6e]); (0x16e4f, [0x16e6f]);
  (0x16e50, [0x16e70]); (0x16e51, [0x16e71]); (0x16e52, [0x16e72]); (0x16e53, [0x16e73]);
  (0x16e54, [0x16e74]); (0x16e55, [0x16e75]); (0x16e56, [0x16e76]); (0x16e57, [0x16e77]);
  (0x16e58, [0x16e78]); (0x16e59, [0x16e79]); (0x16e5a, [0x16e7a]); (0x16e5b, [0x16e7b]);
  (0x16e5c, [0x16e7c]); (0x16e5d, [0x16e7d]); (0x16e5e, [0x16e7e]); (0x16e5f, [0x16e7f]);
  (0x1e900, [0x1e922]); (0x1e901, [0x1e923]); (0x1e902, [0x1e924]); (0x1e903, [0x1e925]);
  (0x1e904, [0x1e926]); (0x1e905, [0x1e927]); (0x1e906, [0x1e928]); (0x1e907, [0x1e929]);
  (0x1e908, [0x1e92a]); (0x1e909, [0x1e92b]); (0x1e90a, [0x1e92c]); (0x1e90b, [0x1e92d]);
  (0x1e90c, [0x1e92e]); (0x1e90d, [0x1e92f]); (0x1e90e, [0x1e930]); (0x1e90f, [0x1e931]);
  (0x1e910, [0x1e932]); (0x1e911, [0x1e933]); (0x1e912, [0x1e934]); (0x1e913, [0x1e935]);
  (0x1e914, [0x1e936]); (0x1e915, [0x1e937]); (0x1e916, [0x1e938]); (0x1e917, [0x1e939]);
  (0x1e918, [0x1e93a]); (0x1e919, [0x1e93b]); (0x1e91a, [0x1e93c]); (0x1e91b, [0x1e93d]);
  (0x1e91c, [0x1e93e]); (0x1e91d, [0x1e93f]); (0x1e91e, [0x1e940]); (0x1e91f, [0x1e941]);
  (0x1e920, [0x1e942]); (0x1e921, [0x1e943])
]%N.

(** Inclusive ranges of the cased code points that are not case-ignorable. *)
Definition cased : list (N * N) := [
  (0x41, 0x5a); (0x61, 0x7a); (0xaa, 0xaa); (0xb5, 0xb5); (0xba, 0xba);
  (0xc0, 0xd6); (0xd8, 0xf6); (0xf8, 0x1ba); (0x1bc, 0x1bf); (0x1c4, 0x293);
  (0x295, 0x2af); (0x370, 0x373); (0x376, 0x377); (0x37b, 0x37d); (0x37f, 0x37f);
  (0x386, 0x386); (0x388, 0x38a); (0x38c, 0x38c); (0x38e, 0x3a1); (0x3a3, 0x3f5);
  (0x3f7, 0x481); (0x48a, 0x52f); (0x531, 0x556); (0x560, 0x588); (0x10a0, 0x10c5);
  (0x10c7, 0x10c7); (0x10cd, 0x10cd); (0x10d0, 0x10fa); (0x10fd, 0x10ff); (0x13a0, 0x13f5);
  (0x13f8, 0x13fd); (0x1c80, 0x1c88); (0x1c90, 0x1cba); (0x1cbd, 0x1cbf); (0x1d00, 0x1d2b);
  (0x1d6b, 0x1d77); (0x1d79, 0x1d9a); (0x1e00, 0x1f15); (0x1f18, 0x1f1d); (0x1f20, 0x1f45);
  (0x1f48, 0x1f4d); (0x1f50, 0x1f57); (0x1f59, 0x1f59); (0x1f5b, 0x1f5b); (0x1f5d, 0x1f5d);
  (0x1f5f, 0x1f7d); (0x1f80, 0x1fb4); (0x1fb6, 0x1fbc); (0x1fbe, 0x1fbe); (0x1fc2, 0x1fc4);
  (0x1fc6, 0x1fcc); (0x1fd0, 0x1fd3); (0x1fd6, 0x1fdb); (0x1fe0, 0x1fec); (0x1ff2, 0x1ff4);
  (0x1ff6, 0x1ffc); (0x2102, 0x2102); (0x2107, 0x2107); (0x210a, 0x2113); (0x2115, 0x2115);
  (0x2119, 0x211d); (0x2124, 0x2124); (0x2126, 0x2126); (0x2128, 0x2128); (0x212a, 0x212d);
  (0x212f, 0x2134); (0x2139, 0x2139); (0x213c, 0x213f); (0x2145, 0x2149); (0x214e, 0x214e);
  (0x2160, 0x217f); (0x2183, 0x2184); (0x24b6, 0x24e9); (0x2c00, 0x2c7b); (0x2c7e, 0x2ce4);
  (0x2ceb, 0x2cee); (0x2cf2, 0x2cf3); (0x2d00, 0x2d25); (0x2d27, 0x2d27); (0x2d2d, 0x2d2d);
  (0xa640, 0xa66d); (0xa680, 0xa69b); (0xa722, 0xa76f); (0xa771, 0xa787); (0xa78b, 0xa78e);
  (0xa790, 0xa7ca); (0xa7d0, 0xa7d1); (0xa7d3, 0xa7d3); (0xa7d5, 0xa7d9); (0xa7f5, 0xa7f6);
  (0xa7fa, 0xa7fa); (0xab30, 0xab5a); (0xab60, 0xab68); (0xab70, 0xabbf); (0xfb00, 0xfb06);
  (0xfb13, 0xfb17); (0xff21, 0xff3a); (0xff41, 0xff5a); (0x10400, 0x1044f); (0x104b0, 0x104d3);
  (0x104d8, 0x104fb); (0x10570, 0x1057a); (0x1057c, 0x1058a); (0x1058c, 0x10592); (0x10594, 0x10595);
  (0x10597, 0x105a1); (0x105a3, 0x105b1); (0x105b3, 0x105b9); (0x105bb, 0x105bc); (0x10c80, 0x10cb2);
  (0x10cc0, 0x10cf2); (0x118a0, 0x118df); (0x16e40, 0x16e7f); (0x1d400, 0x1d454); (0x1d456, 0x1d49c);
  (0x1d49e, 0x1d49f); (0x1d4a2, 0x1d4a2); (0x1d4a5, 0x1d4a6); (0x1d4a9, 0x1d4ac); (0x1d4ae, 0x1d4b9);
  (0x1d4bb, 0x1d4bb); (0x1d4bd, 0x1d4c3); (0x1d4c5, 0x1d505); (0x1d507, 0x1d50a); (0x1d50d, 0x1d514);
  (0x1d516, 0x1d51c); (0x1d51e, 0x1d539); (0x1d53b, 0x1d53e); (0x1d540, 0x1d544); (0x1d546, 0x1d546);
  (0x1d54a, 0x1d550); (0x1d552, 0x1d6a5); (0x1d6a8, 0x1d6c0); (0x1d6c2, 0x1d6da); (0x1d6dc, 0x1d6fa);
  (0x1d6fc, 0x1d714); (0x1d716, 0x1d734); (0x1d736, 0x1d74e); (0x1d750, 0x1d76e); (0x1d770, 0x1d788);
  (0x1d78a, 0x1d7a8); (0x1d7aa, 0x1d7c2); (0x1d7c4, 0x1d7cb); (0x1df00, 0x1df09); (0x1df0b, 0x1df1e);
  (0x1e900, 0x1e943); (0x1f130, 0x1f149); (0x1f150, 0x1f169); (0x1f170, 0x1f189)
]%N.

(** Inclusive ranges of the case-ignorable code points. *)
Definition case_ignorable : list (N * N) := [
  (0x27, 0x27); (0x2e, 0x2e); (0x3a, 0x3a); (0x5e, 0x5e); (0x60, 0x60);
  (0xa8, 0xa8); (0xad, 0xad); (0xaf, 0xaf); (0xb4, 0xb4); (0xb7, 0xb8);
  (0x2b0, 0x36f); (0x374, 0x375); (0x37a, 0x37a); (0x384, 0x385); (0x387, 0x387);
  (0x483, 0x489); (0x559, 0x559); (0x55f, 0x55f); (0x591, 0x5bd); (0x5bf, 0x5bf);
  (0x5c1, 0x5c2); (0x5c4, 0x5c5); (0x5c7, 0x5c7); (0x5f4, 0x5f4); (0x600, 0x605);
  (0x610, 0x61a); (0x61c, 0x61c); (0x640, 0x640); (0x64b, 0x65f); (0x670, 0x670);
  (0x6d6, 0x6dd); (0x6df, 0x6e8); (0x6ea, 0x6ed); (0x70f, 0x70f); (0x711, 0x711);
  (0x730, 0x74a); (0x7a6, 0x7b0); (0x7eb, 0x7f5); (0x7fa, 0x7fa); (0x7fd, 0x7fd);
  (0x816, 0x82d); (0x859, 0x85b); (0x888, 0x888); (0x890, 0x891); (0x898, 0x89f);
  (0x8c9, 0x902); (0x93a, 0x93a); (0x93c, 0x93c); (0x941, 0x948); (0x94d, 0x94d);
  (0x951, 0x957); (0x962, 0x963); (0x971, 0x971); (0x981, 0x981); (0x9bc, 0x9bc);
  (0x9c1, 0x9c4); (0x9cd, 0x9cd); (0x9e2, 0x9e3); (0x9fe, 0x9fe); (0xa01, 0xa02);
  (0xa3c, 0xa3c); (0xa41, 0xa42); (0xa47, 0xa48); (0xa4b, 0xa4d); (0xa51, 0xa51);
  (0xa70, 0xa71); (0xa75, 0xa75); (0xa81, 0xa82); (0xabc, 0xabc); (0xac1, 0xac5);
  (0xac7, 0xac8); (0xacd, 0xacd); (0xae2, 0xae3); (0xafa, 0xaff); (0xb01, 0xb01);
  (0xb3c, 0xb3c); (0xb3f, 0xb3f); (0xb41, 0xb44); (0xb4d, 0xb4d); (0xb55, 0xb56);
  (0xb62, 0xb63); (0xb82, 0xb82); (0xbc0, 0xbc0); (0xbcd, 0xbcd); (0xc00, 0xc00);
  (0xc04, 0xc04); (0xc3c, 0xc3c); (0xc3e, 0xc40); (0xc46, 0xc48); (0xc4a, 0xc4d);
  (0xc55, 0xc56); (0xc62, 0xc63); (0xc81, 0xc81); (0xcbc, 0xcbc); (0xcbf, 0xcbf);
  (0xcc6, 0xcc6); (0xccc, 0xccd); (0xce2, 0xce3); (0xd00, 0xd01); (0xd3b, 0xd3c);
  (0xd41, 0xd44); (0xd4d, 0xd4d); (0xd62, 0xd63); (0xd81, 0xd81); (0xdca, 0xdca);
  (0xdd2, 0xdd4); (0xdd6, 0xdd6); (0xe31, 0xe31); (0xe34, 0xe3a); (0xe46, 0xe4e);
  (0xeb1, 0xeb1); (0xeb4, 0xebc); (0xec6, 0xec6); (0xec8, 0xecd); (0xf18, 0xf19);
  (0xf35, 0xf35); (0xf37, 0xf37); (0xf39, 0xf39); (0xf71, 0xf7e); (0xf80, 0xf84);
  (0xf86, 0xf87); (0xf8d, 0xf97); (0xf99, 0xfbc); (0xfc6, 0xfc6); (0x102d, 0x1030);
  (0x1032, 0x1037); (0x1039, 0x103a); (0x103d, 0x103e); (0x1058, 0x1059); (0x105e, 0x1060);
  (0x1071, 0x1074); (0x1082, 0x1082); (0x1085, 0x1086); (0x108d, 0x108d); (0x109d, 0x109d);
  (0x10fc, 0x10fc); (0x135d, 0x135f); (0x1712, 0x1714); (0x1732, 0x1733); (0x1752, 0x1753);
  (0x1772, 0x1773); (0x17b4, 0x17b5); (0x17b7, 0x17bd); (0x17c6, 0x17c6); (0x17c9, 0x17d3);
  (0x17d7, 0x17d7); (0x17dd, 0x17dd); (0x180b, 0x180f); (0x1843, 0x1843); (0x1885, 0x1886);
  (0x18a9, 0x18a9); (0x1920, 0x1922); (0x1927, 0x1928); (0x1932, 0x1932); (0x1939, 0x193b);
  (0x1a17, 0x1a18); (0x1a1b, 0x1a1b); (0x1a56, 0x1a56); (0x1a58, 0x1a5e); (0x1a60, 0x1a60);
  (0x1a62, 0x1a62); (0x1a65, 0x1a6c); (0x1a73, 0x1a7c); (0x1a7f, 0x1a7f); (0x1aa7, 0x1aa7);
  (0x1ab0, 0x1ace); (0x1b00, 0x1b03); (0x1b34, 0x1b34); (0x1b36, 0x1b3a); (0x1b3c, 0x1b3c);
  (0x1b42, 0x1b42); (0x1b6b, 0x1b73); (0x1b80, 0x1b81); (0x1ba2, 0x1ba5); (0x1ba8, 0x1ba9);
  (0x1bab, 0x1bad); (0x1be6, 0x1be6); (0x1be8, 0x1be9); (0x1bed, 0x1bed); (0x1bef, 0x1bf1);
  (0x1c2c, 0x1c33); (0x1c36, 0x1c37); (0x1c78, 0x1c7d); (0x1cd0, 0x1cd2); (0x1cd4, 0x1ce0);
  (0x1ce2, 0x1ce8); (0x1ced, 0x1ced); (0x1cf4, 0x1cf4); (0x1cf8, 0x1cf9); (0x1d2c, 0x1d6a);
  (0x1d78, 0x1d78); (0x1d9b, 0x1dff); (0x1fbd, 0x1fbd); (0x1fbf, 0x1fc1); (0x1fcd, 0x1fcf);
  (0x1fdd, 0x1fdf); (0x1fed, 0x1fef); (0x1ffd, 0x1ffe); (0x200b, 0x200f); (0x2018, 0x2019);
  (0x2024, 0x2024); (0x2027, 0x2027); (0x202a, 0x202e); (0x2060, 0x2064); (0x2066, 0x206f);
  (0x2071, 0x2071); (0x207f, 0x207f); (0x2090, 0x209c); (0x20d0, 0x20f0); (0x2c7c, 0x2c7d);
  (0x2cef, 0x2cf1); (0x2d6f, 0x2d6f); (0x2d7f, 0x2d7f); (0x2de0, 0x2dff); (0x2e2f, 0x2e2f);
  (0x3005, 0x3005); (0x302a, 0x302d); (0x3031, 0x3035); (0x303b, 0x303b); (0x3099, 0x309e);
  (0x30fc, 0x30fe); (0xa015, 0xa015); (0xa4f8, 0xa4fd); (0xa60c, 0xa60c); (0xa66f, 0xa672);
  (0xa674, 0xa67d); (0xa67f, 0xa67f); (0xa69c, 0xa69f); (0xa6f0, 0xa6f1); (0xa700, 0xa721);
  (0xa770, 0xa770); (0xa788, 0xa78a); (0xa7f2, 0xa7f4); (0xa7f8, 0xa7f9); (0xa802, 0xa802);
  (0xa806, 0xa806); (0xa80b, 0xa80b); (0xa825, 0xa826); (0xa82c, 0xa82c); (0xa8c4, 0xa8c5);
  (0xa8e0, 0xa8f1); (0xa8ff, 0xa8ff); (0xa926, 0xa92d); (0xa947, 0xa951); (0xa980, 0xa982);
  (0xa9b3, 0xa9b3); (0xa9b6, 0xa9b9); (0xa9bc, 0xa9bd); (0xa9cf, 0xa9cf); (0xa9e5, 0xa9e6);
  (0xaa29, 0xaa2e); (0xaa31, 0xaa32); (0xaa35, 0xaa36); (0xaa43, 0xaa43); (0xaa4c, 0xaa4c);
  (0xaa70, 0xaa70); (0xaa7c, 0xaa7c); (0xaab0, 0xaab0); (0xaab2, 0xaab4); (0xaab7, 0xaab8);
  (0xaabe, 0xaabf); (0xaac1, 0xaac1); (0xaadd, 0xaadd); (0xaaec, 0xaaed); (0xaaf3, 0xaaf4);
  (0xaaf6, 0xaaf6); (0xab5b, 0xab5f); (0xab69, 0xab6b); (0xabe5, 0xabe5); (0xabe8, 0xabe8);
  (0xabed, 0xabed); (0xfb1e, 0xfb1e); (0xfbb2, 0xfbc2); (0xfe00, 0xfe0f); (0xfe13, 0xfe13);
  (0xfe20, 0xfe2f); (0xfe52, 0xfe52); (0xfe55, 0xfe55); (0xfeff, 0xfeff); (0xff07, 0xff07);
  (0xff0e, 0xff0e); (0xff1a, 0xff1a); (0xff3e, 0xff3e); (0xff40, 0xff40); (0xff70, 0xff70);
  (0xff9e, 0xff9f); (0xffe3, 0xffe3); (0xfff9, 0xfffb); (0x101fd, 0x101fd); (0x102e0, 0x102e0);
  (0x10376, 0x1037a); (0x10780, 0x10785); (0x10787, 0x107b0); (0x107b2, 0x107ba); (0x10a01, 0x10a03);
  (0x10a05, 0x10a06); (0x10a0c, 0x10a0f); (0x10a38, 0x10a3a); (0x10a3f, 0x10a3f); (0x10ae5, 0x10ae6);
  (0x10d24, 0x10d27); (0x10eab, 0x10eac); (0x10f46, 0x10f50); (0x10f82, 0x10f85); (0x11001, 0x11001);
  (0x11038, 0x11046); (0x11070, 0x11070); (0x11073, 0x11074); (0x1107f, 0x11081); (0x110b3, 0x110b6);
  (0x110b9, 0x110ba); (0x110bd, 0x110bd); (0x110c2, 0x110c2); (0x110cd, 0x110cd); (0x11100, 0x11102);
  (0x11127, 0x1112b); (0x1112d, 0x11134); (0x11173, 0x11173); (0x11180, 0x11181); (0x111b6, 0x111be);
  (0x111c9, 0x111cc); (0x111cf, 0x111cf); (0x1122f, 0x11231); (0x11234, 0x11234); (0x11236, 0x11237);
  (0x1123e, 0x1123e); (0x112df, 0x112df); (0x112e3, 0x112ea); (0x11300, 0x11301); (0x1133b, 0x1133c);
  (0x11340, 0x11340); (0x11366, 0x1136c); (0x11370, 0x11374); (0x11438, 0x1143f); (0x11442, 0x11444);
  (0x11446, 0x11446); (0x1145e, 0x1145e); (0x114b3, 0x114b8); (0x114ba, 0x114ba); (0x114bf, 0x114c0);
  (0x114c2, 0x114c3); (0x115b2, 0x115b5); (0x115bc, 0x115bd); (0x115bf, 0x115c0); (0x115dc, 0x115dd);
  (0x11633, 0x1163a); (0x1163d, 0x1163d); (0x1163f, 0x11640); (0x116ab, 0x116ab); (0x116ad, 0x116ad);
  (0x116b0, 0x116b5); (0x116b7, 0x116b7); (0x1171d, 0x1171f); (0x11722, 0x11725); (0x11727, 0x1172b);
  (0x1182f, 0x11837); (0x11839, 0x1183a); (0x1193b, 0x1193c); (0x1193e, 0x1193e); (0x11943, 0x11943);
  (0x119d4, 0x119d7); (0x119da, 0x119db); (0x119e0, 0x119e0); (0x11a01, 0x11a0a); (0x11a33, 0x11a38);
  (0x11a3b, 0x11a3e); (0x11a47, 0x11a47); (0x11a51, 0x11a56); (0x11a59, 0x11a5b); (0x11a8a, 0x11a96);
  (0x11a98, 0x11a99); (0x11c30, 0x11c36); (0x11c38, 0x11c3d); (0x11c3f, 0x11c3f); (0x11c92, 0x11ca7);
  (0x11caa, 0x11cb0); (0x11cb2, 0x11cb3); (0x11cb5, 0x11cb6); (0x11d31, 0x11d36); (0x11d3a, 0x11d3a);
  (0x11d3c, 0x11d3d); (0x11d3f, 0x11d45); (0x11d47, 0x11d47); (0x11d90, 0x11d91); (0x11d95, 0x11d95);
  (0x11d97, 0x11d97); (0x11ef3, 0x11ef4); (0x13430, 0x13438); (0x16af0, 0x16af4); (0x16b30, 0x16b36);
  (0x16b40, 0x16b43); (0x16f4f, 0x16f4f); (0x16f8f, 0x16f9f); (0x16fe0, 0x16fe1); (0x16fe3, 0x16fe4);
  (0x1aff0, 0x1aff3); (0x1aff5, 0x1affb); (0x1affd, 0x1affe); (0x1bc9d, 0x1bc9e); (0x1bca0, 0x1bca3);
  (0x1cf00, 0x1cf2d); (0x1cf30, 0x1cf46); (0x1d167, 0x1d169); (0x1d173, 0x1d182); (0x1d185, 0x1d18b);
  (0x1d1aa, 0x1d1ad); (0x1d242, 0x1d244); (0x1da00, 0x1da36); (0x1da3b, 0x1da6c); (0x1da75, 0x1da75);
  (0x1da84, 0x1da84); (0x1da9b, 0x1da9f); (0x1daa1, 0x1daaf); (0x1e000, 0x1e006); (0x1e008, 0x1e018);
  (0x1e01b, 0x1e021); (0x1e023, 0x1e024); (0x1e026, 0x1e02a); (0x1e130, 0x1e13d); (0x1e2ae, 0x1e2ae);
  (0x1e2ec, 0x1e2ef); (0x1e8d0, 0x1e8d6); (0x1e944, 0x1e94b); (0x1f3fb, 0x1f3ff); (0xe0001, 0xe0001);
  (0xe0020, 0xe007f); (0xe0100, 0xe01ef)
]%N.

End Unicode.

(** ** Python string operations *)

Module PyStr.

Definition nl : string := String (ascii_of_nat 10) EmptyString.

Definition is_empty (s : string) : bool :=
  match s with EmptyString => true | String _ _ => false end.

(** *** Bytes and code points *)

(** A byte above 127: part of the encoding of a code point above U+007F. *)
Definition is_high (a : ascii) : bool := (128 <=? nat_of_ascii a)%nat.

(** A continuation byte, [10xxxxxx]. *)
Definition is_cont (a : ascii) : bool :=
  let n := nat_of_ascii a in (128 <=? n)%nat && (n <=? 191)%nat.

Definition starts_cont (c : string) : bool :=
  match c with String a _ => is_cont a | EmptyString => false end.

(** The characters of a text, each as the bytes that encode it: a byte
    below 128 alone, a lead byte with the continuation bytes after it. *)
Fixpoint chars (s : string) : list string :=
  match s with
  | EmptyString => []
  | String a rest =>
      match chars rest with
      | c :: cs =>
          if is_high a && starts_cont c then String a c :: cs
          else String a EmptyString :: c :: cs
      | [] => [String a EmptyString]
      end
  end.

(** [''.join(l)] *)
Fixpoint cat (l : list string) : string :=
  match l with
  | [] => EmptyString
  | x :: l' => x ++ cat l'
  end.

Fixpoint cont_bits (acc : N) (s : string) : N :=
  match s with
  | EmptyString => acc
  | String b rest => cont_bits (acc * 64 + N_of_ascii b mod 64) rest
  end.

(** [ord(c)] for the bytes of one character. *)
Definition cp_of (c : string) : N :=
  match c with
  | EmptyString => 0
  | String a rest =>
      let lead := N_of_ascii a in
      cont_bits (if lead <? 0x80 then lead
                 else if lead <? 0xE0 then lead mod 32
                 else if lead <? 0xF0 then lead mod 16
                 else lead mod 8) rest
  end%N.

Definition byte (n : N) : string := String (ascii_of_N n) EmptyString.

(** [chr(n).encode()] *)
Definition encode_cp (n : N) : string :=
  if (n <? 0x80)%N then byte n
  else if (n <? 0x800)%N then
    (byte (0xC0 + n / 64) ++ byte (0x80 + n mod 64))%string
  else if (n <? 0x10000)%N then
    (byte (0xE0 + n / 4096) ++ byte (0x80 + (n / 64) mod 64)
     ++ byte (0x80 + n mod 64))%string
  else
    (byte (0xF0 + n / 262144) ++ byte (0x80 + (n / 4096) mod 64)
     ++ byte (0x80 + (n / 64) mod 64) ++ byte (0x80 + n mod 64))%string.

Definition in_ranges (n : N) (ranges : list (N * N)) : bool :=
  existsb (fun r => (fst r <=? n)%N && (n <=? snd r)%N) ranges.

Fixpoint assoc (n : N) (table : list (N * list N)) : option (list N) :=
  match table with
  | [] => None
  | (k, v) :: table' => if (k =? n)%N then Some v else assoc n table'
  end.

(** The image of a character under a case table; a character the table
    does not hold is its own image. *)
Definition mapped (table : list (N * list N)) (c : string) : string :=
  match assoc (cp_of c) table with
  | Some cps => cat (map encode_cp cps)
  | None => c
  end.

(** *** [s.strip()] *)

(** [c.isspace()] for one character *)
Definition isspace (c : string) : bool :=
  existsb (N.eqb (cp_of c)) Unicode.whitespace.

Fixpoint drop_spaces (cs : list string) : list string :=
  match cs with
  | [] => []
  | c :: cs' => if isspace c then drop_spaces cs' else cs
  end.

Fixpoint rdrop_spaces (cs : list string) : list string :=
  match cs with
  | [] => []
  | c :: cs' =>
      match rdrop_spaces cs' with
      | [] => if isspace c then [] else [c]
      | r => c :: r
      end
  end.

(** [s.strip()]: the white space of both ends is cut, character by
    character. *)
Definition strip (s : string) : string :=
  cat (rdrop_spaces (drop_spaces (chars s))).

(** [s.rstrip(c)] for a one-character ASCII argument works on the bytes. *)
Fixpoint rstrip_by (p : ascii -> bool) (s : string) : string :=
  match s with
  | EmptyString => EmptyString
  | String a s' =>
      match rstrip_by p s' with
      | EmptyString => if p a then EmptyString else String a EmptyString
      | r => String a r
      end
  end.

Definition rstrip_char (c : ascii) (s : string) : string :=
  rstrip_by (Ascii.eqb c) s.

(** *** Case *)

Definition upper_ascii (a : ascii) : ascii :=
  let n := nat_of_ascii a in
  if (97 <=? n)%nat && (n <=? 122)%nat then ascii_of_nat (n - 32) else a.

Definition lower_ascii (a : ascii) : ascii :=
  let n := nat_of_ascii a in
  if (65 <=? n)%nat && (n <=? 90)%nat then ascii_of_nat (n + 32) else a.

Fixpoint map_chars (f : ascii -> ascii) (s : string) : string :=
  match s with
  | EmptyString => EmptyString
  | String a s' => String (f a) (map_chars f s')
  end.

(** The ASCII case maps on the bytes of a text (what [bytes.upper] and
    [bytes.lower] do): the letters [a]-[z] and [A]-[Z] change, every other
    byte stays.  They serve to state what a change of case in the typed
    text does; the program itself calls [str.upper] and [str.lower], which
    are [str_upper] and [str_lower] below. *)
Definition upper : string -> string := map_chars upper_ascii.
Definition lower : string -> string := map_chars lower_ascii.

Definition upper_char (c : string) : string :=
  match c with
  | String a EmptyString =>
      if is_high a then mapped Unicode.upper_table c
      else String (upper_ascii a) EmptyString
  | _ => mapped Unicode.upper_table c
  end.

(** [s.upper()]: character by character, by the full case mapping. *)
Definition str_upper (s : string) : string := cat (map upper_char (chars s)).

Definition lower_char (c : string) : string :=
  match c with
  | String a EmptyString =>
      if is_high a then mapped Unicode.lower_table c
      else String (lower_ascii a) EmptyString
  | _ => mapped Unicode.lower_table c
  end.

Definition is_cased (c : string) : bool := in_ranges (cp_of c) Unicode.cased.

Definition is_case_ignorable (c : string) : bool :=
  in_ranges (cp_of c) Unicode.case_ignorable.

(** The first character that is not case-ignorable. *)
Fixpoint first_solid (cs : list string) : option string :=
  match cs with
  | [] => None
  | c :: cs' => if is_case_ignorable c then first_solid cs' else Some c
  end.

(** A capital sigma is final when a cased letter comes before it and none
    comes after it, case-ignorable characters skipped on both sides. *)
Definition final_sigma (before_rev after : list string) : bool :=
  match first_solid before_rev with
  | Some c =>
      is_cased c
      && match first_solid after with
         | Some d => negb (is_cased d)
         | None => true
         end
  | None => false
  end.

Definition capital_sigma : string := encode_cp 0x3A3.

Fixpoint lower_chars (before_rev cs : list string) : list string :=
  match cs with
  | [] => []
  | c :: after =>
      (if String.eqb c capital_sigma
       then encode_cp (if final_sigma before_rev after then 0x3C2 else 0x3C3)
       else lower_char c)
      :: lower_chars (c :: before_rev) after
  end.

(** [s.lower()] *)
Definition str_lower (s : string) : string := cat (lower_chars [] (chars s)).

(** *** [split], [join] and the rest *)

(** [s.split(sep)] for a one-character ASCII separator: never the empty
    list, empty fields are kept. *)
Fixpoint split (sep : ascii) (s : string) : list string :=
  match s with
  | EmptyString => [EmptyString]
  | String a s' =>
      if Ascii.eqb a sep then EmptyString :: split sep s'
      else match split sep s' with
           | h :: t => String a h :: t
           | [] => [String a EmptyString]
           end
  end.

(** [sep.join(l)] *)
Fixpoint join (sep : string) (l : list string) : string :=
  match l with
  | [] => EmptyString
  | [x] => x
  | x :: l' => x ++ sep ++ join sep l'
  end.

(** [c * n] *)
Fixpoint times (c : string) (n : nat) : string :=
  match n with O => EmptyString | S n' => c ++ times c n' end.

Fixpoint has_char (c : ascii) (s : string) : bool :=
  match s with
  | EmptyString => false
  | String a s' => Ascii.eqb a c || has_char c s'
  end.

(** Whether the text holds a NUL character. *)
Definition has_nul (s : string) : bool := has_char (ascii_of_nat 0) s.

Fixpoint starts_with (p s : string) : bool :=
  match p, s with
  | EmptyString, _ => true
  | String a p', String b s' => Ascii.eqb a b && starts_with p' s'
  | String _ _, EmptyString => false
  end.

Definition ends_with (suffix s : string) : bool :=
  starts_with (String.rev suffix) (String.rev s).

Fixpoint drop_prefix (p s : string) : option string :=
  match p, s with
  | EmptyString, _ => Some s
  | String a p', String b s' =>
      if Ascii.eqb a b then drop_prefix p' s' else None
  | String _ _, EmptyString => None
  end.

(** [str(n)] for an [int] *)
Definition of_nat (n : nat) : string := pretty n.
Definition of_Z (z : Z) : string := pretty z.
Definition of_N (n : N) : string := pretty n.

(** [f"{n:2d}"]: right-aligned in a field of width two *)
Definition fmt_2d (n : nat) : string :=
  let d := of_nat n in
  if (String.length d <? 2)%nat then " " ++ d else d.

End PyStr.

(** ** [os.path] on POSIX *)

Module OsPath.

Definition slash : ascii := "/"%char.

(** [posixpath.basename]: [p[p.rfind('/') + 1:]] *)
Fixpoint basename (p : string) : string :=
  match p with
  | EmptyString => EmptyString
  | String a p' => if PyStr.has_char slash p then basename p' else p
  end.

(** [posixpath.join(a, b)] *)
Definition join (a b : string) : string :=
  if PyStr.starts_with "/" b then b
  else if PyStr.is_empty a || PyStr.ends_with "/" a then a ++ b
  else a ++ "/" ++ b.

End OsPath.

(** ** The world: filesystem, console, external tools *)

Record node := Node { is_dir : bool; nbytes : N }.

Inductive input_event :=
| Line (s : string)      (* a line typed by the user, without its newline *)
| CtrlC                  (* the interrupt key, pressed while a prompt waits *)
| Garbled (why : string). (* a line whose bytes are no text in the console's
                            encoding; [why] is what the decoder says *)

Inductive event :=
| Print (s : string)              (* [print(s)] *)
| Prompt (s : string)             (* the prompt written by [input(s)] *)
| Exec (cmd : string) (code : Z)  (* a shell command and its exit status *)
| Killed (cmd : string).          (* a shell command that was started and
                                     cut short by the interrupt key *)

(** What becomes of a command line handed to the shell. *)
Inductive outcome :=
| Exited (returncode : Z)  (* the shell ran it and ended with this status *)
| Interrupted              (* the interrupt key was pressed while it ran *)
| NotStarted (errno : N).  (* the system could not start the shell *)

(** The exceptions the program can meet.  [KeyboardInterrupt] and
    [SystemExit] derive from [BaseException] only, the others from
    [Exception]; [UnicodeDecodeError] is a [ValueError].  An [OSError]
    carries its error number and the path names the failed call was
    given. *)
Inductive exn :=
| EOFError
| KeyboardInterrupt
| SystemExit (code : Z)
| ValueError (msg : string)
| UnicodeDecodeError (msg : string)
| UnboundLocalError (name : string)
| TypeError (msg : string)
| OSError (errno : N) (paths : list string).

#[global] Instance node_eq_dec : EqDecision node.
Proof. solve_decision. Defined.

#[global] Instance input_event_eq_dec : EqDecision input_event.
Proof. solve_decision. Defined.

#[global] Instance event_eq_dec : EqDecision event.
Proof. solve_decision. Defined.

#[global] Instance outcome_eq_dec : EqDecision outcome.
Proof. solve_decision. Defined.

#[global] Instance exn_eq_dec : EqDecision exn.
Proof. solve_decision. Defined.

Definition is_Exception (e : exn) : bool :=
  match e with
  | KeyboardInterrupt | SystemExit _ => false
  | _ => true
  end.

Record State := mkState {
  fs : gmap string node;
  stdin : list input_event;
  trace : list event
}.

Definition result (A : Type) : Type := (exn + A)%type.

(** State survives an exception: what was printed or written to disk before
    the raise stays printed and written. *)
Definition M (A : Type) : Type := State -> result A * State.

Definition ret {A} (x : A) : M A := fun s => (inr x, s).

Definition bind {A B} (c : M A) (k : A -> M B) : M B :=
  fun s => match c s with
           | (inr x, s') => k x s'
           | (inl e, s') => (inl e, s')
           end.

Definition raise {A} (e : exn) : M A := fun s => (inl e, s).

(** [try: c  except ...: h e]; the handler answers [None] for an exception
    that no clause matches. *)
Definition try_except {A} (c : M A) (h : exn -> option (M A)) : M A :=
  fun s => match c s with
           | (inr x, s') => (inr x, s')
           | (inl e, s') =>
               match h e with
               | Some k => k s'
               | None => (inl e, s')
               end
           end.

Declare Scope py_scope.
Delimit Scope py_scope with py.
Notation "x <- c ;; k" := (bind c (fun x => k))
  (at level 100, c at next level, right associativity) : py_scope.
Notation "c ;; k" := (bind c (fun _ => k))
  (at level 100, right associativity) : py_scope.
Local Open Scope py_scope.

Definition emit (e : event) : M unit :=
  fun s => (inr tt, mkState (fs s) (stdin s) (trace s ++ [e])).

Definition print (s : string) : M unit := emit (Print s).

(** [input(prompt)]: the prompt is written, then a line is read; the end
    of the input raises [EOFError], the interrupt key
    [KeyboardInterrupt], and a line that cannot be decoded
    [UnicodeDecodeError]. *)
Definition input (prompt : string) : M string :=
  fun s =>
    let tr := trace s ++ [Prompt prompt] in
    match stdin s with
    | [] => (inl EOFError, mkState (fs s) [] tr)
    | CtrlC :: rest => (inl KeyboardInterrupt, mkState (fs s) rest tr)
    | Garbled why :: rest =>
        (inl (UnicodeDecodeError why), mkState (fs s) rest tr)
    | Line l :: rest => (inr l, mkState (fs s) rest tr)
    end.

Definition get_fs : M (gmap string node) := fun s => (inr (fs s), s).

Definition put_fs (f : gmap string node) : M unit :=
  fun s => (inr tt, mkState f (stdin s) (trace s)).

Fixpoint for_each {A} (l : list A) (body : A -> M unit) : M unit :=
  match l with
  | [] => ret tt
  | x :: l' => body x ;; for_each l' body
  end.

(** *** [os] and [os.path] on the modelled filesystem *)

Module Os.

Definition ENOENT : N := 2.
Definition EBUSY : N := 16.
Definition EEXIST : N := 17.
Definition ENOTDIR : N := 20.
Definition EISDIR : N := 21.
Definition EINVAL : N := 22.
Definition ENOTEMPTY : N := 39.

(** What every [os] call raises for a path name that holds a NUL. *)
Definition null_byte : exn := ValueError "embedded null byte".

(** A place in the tree: the names that lead to it, the last one first,
    from the root or from the working directory.  Above the working
    directory the names are [..]. *)
Record place := Place { from_root : bool; steps : list string }.

(** The root, the working directory and the directories above it are
    there without an entry in the map. *)
Definition implicit (pl : place) : bool := forallb (String.eqb "..") (steps pl).

(** The key under which the map holds a place. *)
Definition key (pl : place) : string :=
  match steps pl with
  | [] => if from_root pl then "/" else "."
  | _ :: _ =>
      ((if from_root pl then "/" else EmptyString)
       ++ PyStr.join "/" (rev (steps pl)))%string
  end.

Definition node_at (f : gmap string node) (pl : place) : option node :=
  if implicit pl then Some (Node true 0) else f !! key pl.

(** The directory above a place; the root is its own parent. *)
Definition up (pl : place) : place :=
  match steps pl with
  | [] => if from_root pl then pl else Place false [".."]
  | c :: rest =>
      if String.eqb c ".." then Place false (".." :: steps pl)
      else Place (from_root pl) rest
  end.

(** An empty component (two slashes in a row, or a slash at the end) and
    [.] stay where they are. *)
Definition stays (c : string) : bool := PyStr.is_empty c || String.eqb c ".".

Definition step (pl : place) (c : string) : place :=
  if stays c then pl
  else if String.eqb c ".." then up pl
  else Place (from_root pl) (c :: steps pl).

(** Path resolution: every component, the empty ones and the dots
    included, is looked up in a place that has to be a directory. *)
Fixpoint walk (f : gmap string node) (pl : place) (names : list string)
  : N + place :=
  match names with
  | [] => inr pl
  | c :: rest =>
      match node_at f pl with
      | Some n => if is_dir n then walk f (step pl c) rest else inl ENOTDIR
      | None => inl ENOENT
      end
  end.

Definition origin (p : string) : place := Place (PyStr.starts_with "/" p) [].

Definition locate (f : gmap string node) (p : string) : N + place :=
  if PyStr.is_empty p then inl ENOENT
  else walk f (origin p) (PyStr.split OsPath.slash p).

(** [os.stat(p)], as far as the model goes: the key and the node of the
    entry the path leads to. *)
Definition stat (f : gmap string node) (p : string) : exn + string * node :=
  if PyStr.has_nul p then inl null_byte
  else match locate f p with
       | inl errno => inl (OSError errno [p])
       | inr pl =>
           match node_at f pl with
           | Some n => inr (key pl, n)
           | None => inl (OSError ENOENT [p])
           end
       end.

(** [os.path.exists(p)] answers [False] for every failure of [os.stat]. *)
Definition exists_in (f : gmap string node) (p : string) : bool :=
  match stat f p with inr _ => true | inl _ => false end.

Definition path_exists (p : string) : M bool :=
  f <- get_fs ;; ret (exists_in f p).

(** [os.path.getsize(p)] *)
Definition getsize (p : string) : M N :=
  f <- get_fs ;;
  match stat f p with
  | inr (_, n) => ret (nbytes n)
  | inl e => raise e
  end.

(** The directories [os.makedirs(p, exist_ok=True)] makes on its way:
    each missing one is created, a file in the way is an error, and what
    was created before the error stays. *)
Fixpoint make_along (f : gmap string node) (pl : place) (names : list string)
  : option N * gmap string node :=
  match names with
  | [] => (None, f)
  | c :: rest =>
      let pl' := step pl c in
      match node_at f pl' with
      | Some n =>
          if is_dir n then make_along f pl' rest
          else (Some (if forallb PyStr.is_empty rest then EEXIST else ENOTDIR),
                f)
      | None => make_along (<[key pl' := Node true 0]> f) pl' rest
      end
  end.

(** [os.makedirs(p, exist_ok=True)] *)
Definition makedirs (p : string) : M unit :=
  if PyStr.has_nul p then raise null_byte
  else if PyStr.is_empty p then raise (OSError ENOENT [p])
  else
    f <- get_fs ;;
    match make_along f (origin p) (PyStr.split OsPath.slash p) with
    | (None, f') => put_fs f'
    | (Some errno, f') => put_fs f' ;; raise (OSError errno [p])
    end.

(** The keys below a directory start with its key and a slash. *)
Definition below (k : string) : string :=
  if String.eqb k "." then EmptyString
  else if String.eqb k "/" then k
  else (k ++ "/")%string.

Definition is_below (k entry : string) : bool :=
  match PyStr.drop_prefix (below k) entry with
  | Some name => negb (PyStr.is_empty name)
  | None => false
  end.

Definition has_entries (f : gmap string node) (k : string) : bool :=
  existsb (fun kv => is_below k (fst kv)) (map_to_list f).

(** Moving a directory takes along everything below it. *)
Definition moved_key (src dst entry : string) : string :=
  if String.eqb entry src then dst
  else match PyStr.drop_prefix (src ++ "/") entry with
       | Some name => (dst ++ "/" ++ name)%string
       | None => entry
       end.

Definition move_tree (src dst : string) (f : gmap string node)
  : gmap string node :=
  list_to_map (map (fun kv => (moved_key src dst (fst kv), snd kv))
                   (map_to_list (delete dst f))).

(** The last name of a path, the slashes at its end not counted. *)
Definition last_name (p : string) : string :=
  OsPath.basename (PyStr.rstrip_char OsPath.slash p).

(** A path that names no entry of its own: the root, or one that ends in
    a dot or two. *)
Definition unnamed (p : string) : bool :=
  let name := last_name p in
  PyStr.is_empty name || String.eqb name "." || String.eqb name "..".

(** The place a path leads to, the slashes at its end not counted and
    whether anything is there not asked. *)
Definition locate_entry (f : gmap string node) (p : string) : N + place :=
  let stem := PyStr.rstrip_char OsPath.slash p in
  if PyStr.is_empty stem then inr (origin p)
  else walk f (origin p) (PyStr.split OsPath.slash stem).

(** [rename(2)]: both paths are walked first; nothing moves below
    itself or onto what it is below; a file replaces a file, a directory
    replaces an empty directory and takes along what is below it. *)
Definition renamed (f : gmap string node) (src dst : string)
  : N + gmap string node :=
  if PyStr.is_empty src || PyStr.is_empty dst then inl ENOENT
  else
    match locate_entry f src with
    | inl errno => inl errno
    | inr from =>
        match locate_entry f dst with
        | inl errno => inl errno
        | inr to =>
            if unnamed src || unnamed dst then inl EBUSY
            else
              match node_at f from with
              | None => inl ENOENT
              | Some n =>
                  if (PyStr.ends_with "/" src || PyStr.ends_with "/" dst)
                     && negb (is_dir n)
                  then inl ENOTDIR
                  else if is_below (key from) (key to) then inl EINVAL
                  else if is_below (key to) (key from) then inl ENOTEMPTY
                  else if String.eqb (key from) (key to) then inr f
                  else
                    match node_at f to with
                    | Some old =>
                        if is_dir n then
                          if negb (is_dir old) then inl ENOTDIR
                          else if has_entries f (key to) then inl ENOTEMPTY
                          else inr (move_tree (key from) (key to) f)
                        else if is_dir old then inl EISDIR
                        else inr (<[key to := n]> (delete (key from) f))
                    | None =>
                        if is_dir n
                        then inr (move_tree (key from) (key to) f)
                        else inr (<[key to := n]> (delete (key from) f))
                    end
              end
        end
    end.

(** [os.rename(src, dst)] *)
Definition rename (src dst : string) : M unit :=
  if PyStr.has_nul src || PyStr.has_nul dst then raise null_byte
  else
    f <- get_fs ;;
    match renamed f src dst with
    | inr f' => put_fs f'
    | inl errno => raise (OSError errno [src; dst])
    end.

(** [os.remove(p)] *)
Definition remove (p : string) : M unit :=
  f <- get_fs ;;
  match stat f p with
  | inr (k, n) =>
      if is_dir n then raise (OSError EISDIR [p]) else put_fs (delete k f)
  | inl e => raise e
  end.

Definition entry_of (k : string) (entry : string) : option string :=
  match PyStr.drop_prefix (below k) entry with
  | Some name =>
      if PyStr.is_empty name || PyStr.has_char OsPath.slash name
         || String.eqb name "." || String.eqb name ".."
      then None else Some name
  | None => None
  end.

(** [os.listdir(d)], in no particular order *)
Definition listdir (d : string) : M (list string) :=
  f <- get_fs ;;
  match stat f d with
  | inr (k, n) =>
      if is_dir n
      then ret (omap (fun kv => entry_of k (fst kv)) (map_to_list f))
      else raise (OSError ENOTDIR [d])
  | inl e => raise e
  end.

End Os.

(** [sorted(l)] on strings *)
Definition sorted (l : list string) : list string :=
  merge_sort (fun a b => Is_true (String.leb a b)) l.

(** ** The program *)

(** [QUANTIZATION_TYPES] *)
Definition QUANTIZATION_TYPES : list string :=
  [ "Q2_K"; "Q3_K_S"; "Q3_K_M"; "Q3_K_L"; "Q4_K_S"; "Q4_0";
    "Q4_1"; "Q4_K_M"; "Q5_K_S"; "Q5_K_M"; "Q6_K"; "Q8_0" ].

(** [t in l] on a list of strings *)
Definition str_in (t : string) (l : list string) : bool :=
  existsb (String.eqb t) l.

(** [enumerate(l, start)] *)
Fixpoint enumerate {A} (l : list A) (start : nat) : list (nat * A) :=
  match l with
  | [] => []
  | x :: l' => (start, x) :: enumerate l' (S start)
  end.

(** What a stretch of console dialogue yields: the value or the exception,
    the input that is left, and the events it produced in order. *)
Definition reading (A : Type) : Type :=
  (result A * list input_event * list event)%type.

Definition said {A} (evs : list event) (r : reading A) : reading A :=
  match r with (v, rest, evs') => (v, rest, evs ++ evs') end.

Definition converse {A} (f : gmap string node -> list input_event -> reading A)
  : M A :=
  fun s => match f (fs s) (stdin s) with
           | (v, rest, evs) => (v, mkState (fs s) rest (trace s ++ evs))
           end.

Module Text.
Import PyStr.

Definition model_path_prompt : string :=
  nl ++ "Enter the model directory path (e.g., 'my-model'): ".
Definition confirm_prompt : string := "Continue anyway? (y/n): ".
Definition missing_dir (model_path : string) : string :=
  "Warning: Directory '" ++ model_path ++ "' does not exist".
Definition output_prompt (model_name : string) : string :=
  nl ++ "Enter output filename prefix (default: '" ++ model_name ++ "'): ".
Definition option_prompt : string :=
  nl ++ "Select option (1-2, or press Enter for default): ".
Definition selected_all (n : nat) : string :=
  "✅ Selected: ALL quantization types (" ++ of_nat n ++ " types)".
Definition listing_line (i : nat) (q_type : string) : string :=
  fmt_2d i ++ ". " ++ q_type.
Definition types_help : string :=
  nl ++ "Enter quantization types (comma-separated, e.g., 'Q4_K_M,Q5_K_M'):".
Definition types_prompt : string := "Types: ".
Definition none_selected : string := "❌ No types selected, using all types".
Definition invalid_types_msg (invalid_types : list string) : string :=
  "❌ Invalid quantization types: " ++ join ", " invalid_types.
Definition valid_types_msg : string :=
  "Valid types: " ++ join ", " QUANTIZATION_TYPES.
Definition selected_msg (selected_quants : list string) : string :=
  "✅ Selected: " ++ join ", " selected_quants.
Definition bad_option : string :=
  "❌ Please enter 1 or 2 (or press Enter for default)".
Definition invalid_option : string := "❌ Please enter a valid option".

End Text.

(** *** [get_user_input], lines 42-126 *)

(** The first loop (lines 48-63): ask until a non-empty path is given that
    exists or is confirmed.  No [try] surrounds it: whatever [input] raises
    leaves the function. *)
Fixpoint ask_model_path (f : gmap string node) (inp : list input_event)
  : reading string :=
  match inp with
  | [] => (inl EOFError, [], [Prompt Text.model_path_prompt])
  | CtrlC :: rest => (inl KeyboardInterrupt, rest, [Prompt Text.model_path_prompt])
  | Garbled why :: rest =>
      (inl (UnicodeDecodeError why), rest, [Prompt Text.model_path_prompt])
  | Line l :: rest =>
      let model_path := PyStr.strip l in
      if PyStr.is_empty model_path then
        said [Prompt Text.model_path_prompt; Print "Model path cannot be empty"]
             (ask_model_path f rest)
      else if negb (Os.exists_in f model_path) then
        let asked := [Prompt Text.model_path_prompt;
                      Print (Text.missing_dir model_path);
                      Prompt Text.confirm_prompt] in
        match rest with
        | [] => (inl EOFError, [], asked)
        | CtrlC :: rest' => (inl KeyboardInterrupt, rest', asked)
        | Garbled why :: rest' => (inl (UnicodeDecodeError why), rest', asked)
        | Line c :: rest' =>
            let confirm := PyStr.str_lower (PyStr.strip c) in
            if negb (String.eqb confirm "y")
            then said asked (ask_model_path f rest')
            else (inr model_path, rest', asked)
        end
      else (inr model_path, rest, [Prompt Text.model_path_prompt])
  end.

(** Line 66. *)
Definition model_name_of (model_path : string) : string :=
  OsPath.basename (PyStr.rstrip_char OsPath.slash model_path).

(** Lines 66-71. *)
Definition ask_output_name (model_path : string) : M string :=
  let model_name := model_name_of model_path in
  l <- input (Text.output_prompt model_name) ;;
  let output_name := PyStr.strip l in
  if PyStr.is_empty output_name then ret model_name else ret output_name.

(** Line 109. *)
Definition custom_types_of (custom_input : string) : list string :=
  map (fun t => PyStr.str_upper (PyStr.strip t))
      (PyStr.split ","%char custom_input).

(** Line 112. *)
Definition invalid_types_of (custom_types : list string) : list string :=
  List.filter (fun t => negb (str_in t QUANTIZATION_TYPES)) custom_types.

Definition listing : list event :=
  Print (PyStr.nl ++ "Available quantization types:")
  :: map (fun iq => Print (Text.listing_line (fst iq) (snd iq)))
         (enumerate QUANTIZATION_TYPES 1)
  ++ [Print Text.types_help; Prompt Text.types_prompt].

(** The second loop (lines 81-124).  Inside its [try] only [input] can
    raise.  [EOFError] and [KeyboardInterrupt] are no [ValueError] and
    leave the loop; the [UnicodeDecodeError] of a line that cannot be
    decoded is one, at either prompt: the clause of lines 123-124 prints
    its message and the loop starts over. *)
Fixpoint ask_quants (inp : list input_event) : reading (list string) :=
  match inp with
  | [] => (inl EOFError, [], [Prompt Text.option_prompt])
  | CtrlC :: rest => (inl KeyboardInterrupt, rest, [Prompt Text.option_prompt])
  | Garbled _ :: rest =>
      said [Prompt Text.option_prompt; Print Text.invalid_option]
           (ask_quants rest)
  | Line l :: rest =>
      let choice := PyStr.strip l in
      if PyStr.is_empty choice || String.eqb choice "1" then
        let selected_quants := QUANTIZATION_TYPES in
        (inr selected_quants, rest,
         [Prompt Text.option_prompt;
          Print (Text.selected_all (length selected_quants))])
      else if String.eqb choice "2" then
        let asked := Prompt Text.option_prompt :: listing in
        match rest with
        | [] => (inl EOFError, [], asked)
        | CtrlC :: rest' => (inl KeyboardInterrupt, rest', asked)
        | Garbled _ :: rest' =>
            said (asked ++ [Print Text.invalid_option]) (ask_quants rest')
        | Line l2 :: rest' =>
            let custom_input := PyStr.strip l2 in
            if PyStr.is_empty custom_input then
              (inr QUANTIZATION_TYPES, rest', asked ++ [Print Text.none_selected])
            else
              let custom_types := custom_types_of custom_input in
              let invalid_types := invalid_types_of custom_types in
              match invalid_types with
              | _ :: _ =>
                  said (asked ++ [Print (Text.invalid_types_msg invalid_types);
                                  Print Text.valid_types_msg])
                       (ask_quants rest')
              | [] =>
                  let selected_quants := custom_types in
                  (inr selected_quants, rest',
                   asked ++ [Print (Text.selected_msg selected_quants)])
              end
        end
      else
        said [Prompt Text.option_prompt; Print Text.bad_option] (ask_quants rest)
  end.

Definition get_user_input : M (string * string * list string) :=
  print "Llama.cpp Model Converter and Quantizer" ;;
  print (PyStr.times "=" 50) ;;
  model_path <- converse ask_model_path ;;
  output_name <- ask_output_name model_path ;;
  print (PyStr.nl ++ "Quantization options:") ;;
  print ("Available types: " ++ PyStr.join ", " QUANTIZATION_TYPES) ;;
  print (PyStr.nl ++ "Options:") ;;
  print "1. Convert to ALL quantization types (default)" ;;
  print "2. Select specific quantization types" ;;
  selected_quants <- converse (fun _ => ask_quants) ;;
  ret (model_path, output_name, selected_quants).

Section Pipeline.

(** The shell: what becomes of a command line, and what running it does
    to the filesystem.  The converter and the quantizer are reached only
    through it. *)
Variable sh : string -> gmap string node -> outcome * gmap string node.

(** [f"{n / (1024 * 1024):.1f}"] for a size of [n] bytes; the floating
    point rendering is left to the platform. *)
Variable fmt_mb : N -> string.

(** [str(e)] for a caught exception. *)
Variable exn_str : exn -> string.

(** [subprocess.run(command, shell=True, check=True, ...)].  A command
    line that holds a NUL is refused with [ValueError] before anything is
    started, and so is, with [OSError], one for which the system cannot
    start the shell.  The interrupt key, pressed while the command runs,
    ends it and raises [KeyboardInterrupt]; what the command had written by
    then stays written.  Otherwise the command runs to its exit status:
    the value returned here is that status, and [check=True] turns a status
    other than zero into the [CalledProcessError] that [run_command]
    catches. *)
Definition subprocess_run (command : string) : M Z :=
  if PyStr.has_nul command then raise (ValueError "embedded null byte")
  else
    f <- get_fs ;;
    match sh command f with
    | (Exited returncode, f') =>
        put_fs f' ;; emit (Exec command returncode) ;; ret returncode
    | (Interrupted, f') =>
        put_fs f' ;; emit (Killed command) ;; raise KeyboardInterrupt
    | (NotStarted errno, _) => raise (OSError errno ["/bin/sh"])
    end.

(** *** [run_command], lines 24-39; its [except] clause catches
    [CalledProcessError] and nothing else *)
Definition run_command (command description : string) : M bool :=
  print (PyStr.nl ++ description) ;;
  print ("Running: " ++ command) ;;
  print (PyStr.times "-" 50) ;;
  returncode <- subprocess_run command ;;
  if (returncode =? 0)%Z then
    print (description ++ " completed successfully") ;;
    ret true
  else
    print ("Error during " ++ description) ;;
    print ("Command failed with return code: " ++ PyStr.of_Z returncode) ;;
    ret false.

Definition convert_script : string := "./llama/convert_hf_to_gguf.py".

Definition f16_file_of (output_name : string) : string :=
  output_name ++ "-f16.gguf".

Definition convert_command (model_path output_name : string) : string :=
  "python3 " ++ convert_script ++ " ./" ++ model_path ++ " --outfile "
  ++ f16_file_of output_name ++ " --outtype f16".

(** *** [convert_to_gguf], lines 129-150; [None] is Python's [None] *)
Definition convert_to_gguf (model_path output_name : string)
  : M (option string) :=
  let f16_file := f16_file_of output_name in
  script_there <- Os.path_exists convert_script ;;
  if negb script_there then
    print ("❌ Conversion script not found: " ++ convert_script) ;;
    print "Make sure you're running this from the llama.cpp directory" ;;
    ret None
  else
    let command := convert_command model_path output_name in
    success <- run_command command
                 ("Converting " ++ model_path ++ " to GGUF format") ;;
    produced <- Os.path_exists f16_file ;;
    if success && produced then ret (Some f16_file)
    else
      print ("❌ Failed to create " ++ f16_file) ;;
      ret None.

Definition quantizer : string := "./llama/bin/llama-quantize".

Definition quant_file_of (output_name quant_type : string) : string :=
  output_name ++ "-" ++ quant_type ++ ".gguf".

Definition quantize_command (f16_file output_name quant_type : string)
  : string :=
  quantizer ++ " " ++ f16_file ++ " " ++ quant_file_of output_name quant_type
  ++ " " ++ quant_type.

(** The [for] loop of lines 166-178, with the two lists it appends to. *)
Fixpoint quantize_each (f16_file output_name : string)
    (quant_types successful_quants failed_quants : list string)
  : M (list string * list string) :=
  match quant_types with
  | [] => ret (successful_quants, failed_quants)
  | quant_type :: others =>
      let output_file := quant_file_of output_name quant_type in
      let command := quantize_command f16_file output_name quant_type in
      success <- run_command command ("Quantizing to " ++ quant_type) ;;
      produced <- Os.path_exists output_file ;;
      if success && produced then
        file_size <- Os.getsize output_file ;;
        print ("📦 Created " ++ output_file ++ " (" ++ fmt_mb file_size ++ " MB)") ;;
        quantize_each f16_file output_name others
                      (successful_quants ++ [quant_type]) failed_quants
      else
        quantize_each f16_file output_name others
                      successful_quants (failed_quants ++ [quant_type])
  end.

(** What [quantize_model] hands back: the constant [False], or a pair of
    lists. *)
Inductive quantize_result :=
| PyFalse
| PyPair (successful_quants failed_quants : list string).

(** *** [quantize_model], lines 153-180 *)
Definition quantize_model (f16_file output_name : string)
    (quant_types : list string) : M quantize_result :=
  quantizer_there <- Os.path_exists quantizer ;;
  if negb quantizer_there then
    print ("❌ Quantizer not found: " ++ quantizer) ;;
    print "Make sure you have the llama.cpp release binary" ;;
    ret PyFalse
  else
    lists <- quantize_each f16_file output_name quant_types [] [] ;;
    ret (PyPair (fst lists) (snd lists)).

(** [a, b = v]: unpacking a value that is no sequence raises. *)
Definition unpack_pair (v : quantize_result) : M (list string * list string) :=
  match v with
  | PyPair a b => ret (a, b)
  | PyFalse => raise (TypeError "cannot unpack non-iterable bool object")
  end.

(** Reading a local variable: unbound until its first assignment. *)
Definition read_local (name : string) (slot : option string) : M string :=
  match slot with
  | Some v => ret v
  | None => raise (UnboundLocalError name)
  end.

(** [sys.exit(code)] *)
Definition sys_exit {A} (code : Z) : M A := raise (SystemExit code).

(** The loop of lines 249-255, with the list it appends to. *)
Fixpoint move_each (gguf_folder output_name : string)
    (quants moved_files : list string) : M (list string) :=
  match quants with
  | [] => ret moved_files
  | quant :: others =>
      let quant_file := quant_file_of output_name quant in
      there <- Os.path_exists quant_file ;;
      if there then
        let new_quant_path := OsPath.join gguf_folder quant_file in
        Os.rename quant_file new_quant_path ;;
        print ("Moved " ++ quant_file) ;;
        move_each gguf_folder output_name others (moved_files ++ [quant_file])
      else move_each gguf_folder output_name others moved_files
  end.

Definition except_Exception {A} (h : exn -> M A) (e : exn) : option (M A) :=
  if is_Exception e then Some (h e) else None.

(** The inner [try] of lines 234-274. *)
Definition organize (gguf_folder f16_file output_name : string)
    (successful_quants : list string) : M unit :=
  try_except
    (Os.makedirs gguf_folder ;;
     print ("Created folder: " ++ gguf_folder ++ "/") ;;
     f16_there <- Os.path_exists f16_file ;;
     moved_files <-
       (if f16_there then
          let new_f16_path := OsPath.join gguf_folder f16_file in
          Os.rename f16_file new_f16_path ;;
          print ("Moved " ++ f16_file) ;;
          ret [f16_file]
        else ret []) ;;
     moved_files <- move_each gguf_folder output_name successful_quants
                              moved_files ;;
     print (PyStr.nl ++ "Successfully moved " ++ PyStr.of_nat (length moved_files)
            ++ " GGUF files to " ++ gguf_folder ++ "/") ;;
     print (PyStr.nl ++ "Final contents of " ++ gguf_folder ++ "/:") ;;
     try_except
       (names <- Os.listdir gguf_folder ;;
        for_each (sorted names) (fun filename =>
          if PyStr.ends_with ".gguf" filename then
            let filepath := OsPath.join gguf_folder filename in
            sz <- Os.getsize filepath ;;
            print ("   " ++ filename ++ " (" ++ fmt_mb sz ++ " MB)")
          else ret tt))
       (except_Exception (fun e =>
          print ("   Could not list folder contents: " ++ exn_str e))))
    (except_Exception (fun e =>
       print ("Failed to create/move files to " ++ gguf_folder ++ "/: "
              ++ exn_str e) ;;
       print "Files remain in current directory")).

(** Lines 277-291. *)
Definition offer_cleanup (gguf_folder f16_file : string)
    (successful_quants : list string) : M unit :=
  let f16_in_folder := OsPath.join gguf_folder f16_file in
  there <- Os.path_exists f16_in_folder ;;
  if there && negb (Nat.eqb (length successful_quants) 0) then
    answer <- input (PyStr.nl ++ "Remove the f16 base file (" ++ f16_file
                     ++ ") from " ++ gguf_folder ++ "/? (y/n): ") ;;
    let cleanup := PyStr.str_lower (PyStr.strip answer) in
    if String.eqb cleanup "y" then
      try_except
        (Os.remove f16_in_folder ;;
         print ("Removed " ++ f16_file ++ " from " ++ gguf_folder ++ "/"))
        (except_Exception (fun e =>
           print ("Failed to remove " ++ f16_file ++ ": " ++ exn_str e)))
    else ret tt
  else ret tt.

Definition summary_of (mark : string) (output_name : string)
    (quants : list string) : M unit :=
  match quants with
  | [] => ret tt
  | _ :: _ =>
      print (mark ++ PyStr.of_nat (length quants) ++ " quantized models:") ;;
      for_each quants (fun quant =>
        print ("   - " ++ quant_file_of output_name quant))
  end.

(** Lines 202-291: what [main] does once the conversion has produced
    [f16_file]. *)
Definition after_conversion (f16_file output_name : string)
    (selected_quants : list string) : M unit :=
  f16_size <- Os.getsize f16_file ;;
  print ("📦 Created " ++ f16_file ++ " (" ++ fmt_mb f16_size ++ " MB)") ;;
  print (PyStr.nl ++ "Step 2: Quantizing model") ;;
  returned <- quantize_model f16_file output_name selected_quants ;;
  lists <- unpack_pair returned ;;
  let successful_quants := fst lists in
  let failed_quants := snd lists in
  print (PyStr.nl ++ "Process completed!") ;;
  print (PyStr.times "=" 50) ;;
  summary_of "✅ Successfully created " output_name successful_quants ;;
  summary_of "❌ Failed to create " output_name failed_quants ;;
  print (PyStr.nl ++ "📁 Processing completed successfully!") ;;
  (* line 228 reads [gguf_folder], which line 232 is the first to assign *)
  let gguf_folder_slot : option string := None in
  shown <- read_local "gguf_folder" gguf_folder_slot ;;
  print ("All GGUF files have been moved to: " ++ shown ++ "/") ;;
  print (PyStr.nl ++ "Moving GGUF files to separate folder...") ;;
  let gguf_folder : string := (output_name ++ "-GGUF")%string in
  organize gguf_folder f16_file output_name successful_quants ;;
  offer_cleanup gguf_folder f16_file successful_quants.

(** The [try] block of [main], lines 186-291. *)
Definition main_body : M unit :=
  config <- get_user_input ;;
  let model_path := fst (fst config) in
  let output_name := snd (fst config) in
  let selected_quants := snd config in
  print (PyStr.nl ++ "Starting conversion process...") ;;
  print ("Model path: " ++ model_path) ;;
  print ("Output name: " ++ output_name) ;;
  print ("Quantization types: " ++ PyStr.join ", " selected_quants) ;;
  print (PyStr.nl ++ "Step 1: Converting to GGUF format") ;;
  converted <- convert_to_gguf model_path output_name ;;
  match converted with
  | Some f16_file =>
      if PyStr.is_empty f16_file then  (* [not ''] holds as [not None] does *)
        print "❌ Conversion failed. Exiting." ;; sys_exit 1
      else after_conversion f16_file output_name selected_quants
  | None =>
      print "❌ Conversion failed. Exiting." ;; sys_exit 1
  end.

(** The two [except] clauses of lines 293-298. *)
Definition main_handlers (e : exn) : option (M unit) :=
  match e with
  | KeyboardInterrupt =>
      Some (print (PyStr.nl ++ PyStr.nl ++ "Process interrupted by user") ;;
            sys_exit 1)
  | _ =>
      except_Exception (fun e =>
        print ("Unexpected error: " ++ exn_str e) ;; sys_exit 1) e
  end.

(** *** [main], lines 183-298 *)
Definition main : M unit := try_except main_body main_handlers.

(** The exit status of the interpreter running [main()]: 0 when [main]
    returns, the code of a [SystemExit], 1 for any other exception that
    reaches the top. *)
Definition exit_status (r : result unit) : Z :=
  match r with
  | inr _ => 0
  | inl (SystemExit code) => code
  | inl _ => 1
  end.

Definition run (s : State) : Z * State :=
  match main s with (r, s') => (exit_status r, s') end.

End Pipeline.

(** ** Specification-side definitions *)

(** The external commands of a trace: those that ran to an exit status
    and those the interrupt key cut short. *)
Definition execs (tr : list event) : list event :=
  List.filter (fun e => match e with
                        | Exec _ _ | Killed _ => true
                        | _ => false
                        end) tr.

(** The command lines that were started, in the order they were started. *)
Definition commands (tr : list event) : list string :=
  omap (fun e => match e with
                 | Exec cmd _ | Killed cmd => Some cmd
                 | _ => None
                 end) tr.

(** A result that can only end the process with status 1 when it is an
    exception: any exception but a [SystemExit] with another code. *)
Definition sane {A} (r : result A) : Prop :=
  match r with
  | inl (SystemExit code) => code = 1%Z
  | _ => True
  end.

(** A result that is such an exception. *)
Definition fatal {A} (r : result A) : Prop :=
  match r with
  | inl (SystemExit code) => code = 1%Z
  | inl _ => True
  | inr _ => False
  end.

(** What the first loop and the question for the output name can raise. *)
Definition input_exn (e : exn) : Prop :=
  e = EOFError \/ e = KeyboardInterrupt \/ exists why, e = UnicodeDecodeError why.

(** A computation that leaves the disk alone, starts no command and only
    takes lines off the front of the input. *)
Definition Quiet {A} (c : M A) : Prop :=
  forall s, fs (snd (c s)) = fs s
            /\ stdin (snd (c s)) `suffix_of` stdin s
            /\ exists evs, trace (snd (c s)) = trace s ++ evs
                           /\ commands evs = [].

Definition Sane {A} (c : M A) : Prop := forall s, sane (fst (c s)).
Definition Fatal {A} (c : M A) : Prop := forall s, fatal (fst (c s)).

(** The quantization attempts as the specification tells them: one after
    the other on the filesystem the previous one left, each succeeded when
    its command exits with 0 and its output file is there afterwards.  The
    log ends with the selection, or before a command that does not run to
    an exit status. *)
Fixpoint attempt_log
    (sh : string -> gmap string node -> outcome * gmap string node)
    (f16_file output_name : string) (f : gmap string node)
    (quant_types : list string) : list (string * bool) :=
  match quant_types with
  | [] => []
  | q :: others =>
      if PyStr.has_nul (quantize_command f16_file output_name q) then []
      else
        match sh (quantize_command f16_file output_name q) f with
        | (Exited code, f') =>
            (q, (code =? 0)%Z && Os.exists_in f' (quant_file_of output_name q))
            :: attempt_log sh f16_file output_name f' others
        | _ => []
        end
  end.

(** Every attempt runs to an exit status: no command line holds a NUL,
    the shell is started for each, and none is interrupted. *)
Fixpoint all_exit
    (sh : string -> gmap string node -> outcome * gmap string node)
    (f16_file output_name : string) (f : gmap string node)
    (quant_types : list string) : bool :=
  match quant_types with
  | [] => true
  | q :: others =>
      negb (PyStr.has_nul (quantize_command f16_file output_name q))
      && match sh (quantize_command f16_file output_name q) f with
         | (Exited _, f') => all_exit sh f16_file output_name f' others
         | _ => false
         end
  end.

Definition succeeded_of (log : list (string * bool)) : list string :=
  map fst (List.filter snd log).

Definition failed_of (log : list (string * bool)) : list string :=
  map fst (List.filter (fun qb => negb (snd qb)) log).

(** The last path segment as the specification words it: cut the trailing
    slashes, cut at every slash, take the last piece. *)
Definition last_segment (path : string) : string :=
  List.last (PyStr.split OsPath.slash (PyStr.rstrip_char OsPath.slash path))
            EmptyString.

(** The disk a command line leaves: the one its run leaves, or the one it
    found when it was not started. *)
Definition disk_after
    (sh : string -> gmap string node -> outcome * gmap string node)
    (cmd : string) (f : gmap string node) : gmap string node :=
  if PyStr.has_nul cmd then f
  else match sh cmd f with
       | (NotStarted _, _) => f
       | (_, f') => f'
       end.

(** The disk after command lines one after the other, each on the disk
    the previous one left. *)
Definition replay
    (sh : string -> gmap string node -> outcome * gmap string node)
    (cmds : list string) (f : gmap string node) : gmap string node :=
  fold_left (fun d cmd => disk_after sh cmd d) cmds f.

(** The quantization loop, read off the disk it starts on: the command
    lines it starts, and the exception that ends it early, if any. *)
Fixpoint quantize_run
    (sh : string -> gmap string node -> outcome * gmap string node)
    (f16_file output_name : string) (f : gmap string node)
    (quant_types : list string) : list string * option exn :=
  match quant_types with
  | [] => ([], None)
  | q :: others =>
      let cmd := quantize_command f16_file output_name q in
      if PyStr.has_nul cmd then ([], Some (ValueError "embedded null byte"))
      else
        match sh cmd f with
        | (Exited _, f') =>
            (cmd :: fst (quantize_run sh f16_file output_name f' others),
             snd (quantize_run sh f16_file output_name f' others))
        | (Interrupted, _) => ([cmd], Some KeyboardInterrupt)
        | (NotStarted errno, _) => ([], Some (OSError errno ["/bin/sh"]))
        end
  end.

(** The command lines a run is expected to start, read off the start
    state: none when the input collector raises, the conversion script is
    missing or the conversion command cannot be started; otherwise the
    conversion command, followed, when it delivered its file and the
    quantizer is there, by the quantize commands of the selected entries,
    one after the other for as long as each runs to an exit status. *)
Definition planned_commands
    (sh : string -> gmap string node -> outcome * gmap string node) (s : State)
  : list string :=
  match fst (get_user_input s) with
  | inl _ => []
  | inr (model_path, output_name, selected_quants) =>
      if Os.exists_in (fs s) convert_script then
        if PyStr.has_nul (convert_command model_path output_name) then []
        else
          match sh (convert_command model_path output_name) (fs s) with
          | (Exited code, f') =>
              convert_command model_path output_name
              :: (if (code =? 0)%Z
                     && Os.exists_in f' (f16_file_of output_name)
                     && Os.exists_in f' quantizer
                  then fst (quantize_run sh (f16_file_of output_name)
                                         output_name f' selected_quants)
                  else [])
          | (Interrupted, _) => [convert_command model_path output_name]
          | (NotStarted _, _) => []
          end
      else []
  end.

(** A computation that, started in [s], starts exactly the command lines
    [cmds] and leaves the disk those commands leave. *)
Definition Effect
    (sh : string -> gmap string node -> outcome * gmap string node)
    {A} (c : M A) (s : State) (cmds : list string) : Prop :=
  fs (snd (c s)) = replay sh cmds (fs s)
  /\ exists evs, trace (snd (c s)) = trace s ++ evs /\ commands evs = cmds.

(** A computation that, started in [s], ends with the result [r] having
    started exactly the command lines [cmds]. *)
Definition Ends
    (sh : string -> gmap string node -> outcome * gmap string node)
    {A} (c : M A) (s : State) (r : result A) (cmds : list string) : Prop :=
  fst (c s) = r /\ Effect sh c s cmds.

(** A computation that never raises. *)
Definition Returns {A} (c : M A) : Prop :=
  forall s, exists x, fst (c s) = inr x.

(** The exception the [try] block of [main] ends with, read off the start
    state: the one the input collector raised; [SystemExit(1)] when the
    conversion does not deliver its file; the [ValueError], the [OSError]
    or the [KeyboardInterrupt] of a command that does not run to an exit
    status; the [TypeError] of the unpacking when the quantizer is missing;
    the [UnboundLocalError] of line 228 otherwise. *)
Definition verdict
    (sh : string -> gmap string node -> outcome * gmap string node)
    (s : State) : exn :=
  match fst (get_user_input s) with
  | inl e => e
  | inr (model_path, output_name, selected_quants) =>
      if Os.exists_in (fs s) convert_script then
        if PyStr.has_nul (convert_command model_path output_name)
        then ValueError "embedded null byte"
        else
          match sh (convert_command model_path output_name) (fs s) with
          | (Exited code, f') =>
              if (code =? 0)%Z && Os.exists_in f' (f16_file_of output_name) then
                if Os.exists_in f' quantizer then
                  match snd (quantize_run sh (f16_file_of output_name)
                                          output_name f' selected_quants) with
                  | Some e => e
                  | None => UnboundLocalError "gguf_folder"
                  end
                else TypeError "cannot unpack non-iterable bool object"
              else SystemExit 1
          | (Interrupted, _) => KeyboardInterrupt
          | (NotStarted errno, _) => OSError errno ["/bin/sh"]
          end
      else SystemExit 1
  end.

(** The line the handlers of [main] print for an exception; [SystemExit]
    passes them by. *)
Definition farewell (exn_str : exn -> string) (e : exn) : list event :=
  match e with
  | KeyboardInterrupt =>
      [Print (PyStr.nl ++ PyStr.nl ++ "Process interrupted by user")]
  | SystemExit _ => []
  | _ => [Print ("Unexpected error: " ++ exn_str e)]
  end.

(** A computation whose exceptions all derive from [Exception]. *)
Definition Tame {A} (c : M A) : Prop :=
  forall s e, fst (c s) = inl e -> is_Exception e = true.

(** A computation that raises only for what it reads: [EOFError] with the
    input used up, [KeyboardInterrupt] with an interrupt in the input,
    [UnicodeDecodeError] with a line in the input that cannot be decoded. *)
Definition InputOnly {A} (c : M A) : Prop :=
  forall s e, fst (c s) = inl e ->
    (e = EOFError /\ stdin (snd (c s)) = [])
    \/ (e = KeyboardInterrupt /\ CtrlC ∈ stdin s)
    \/ (exists why, e = UnicodeDecodeError why /\ Garbled why ∈ stdin s).

(** A profile name as the program prints it: no comma in it, and it is
    what [strip] and [upper] make of it, a blank before it or not. *)
Definition plain_name (t : string) : Prop :=
  PyStr.has_char ","%char t = false
  /\ PyStr.str_upper (PyStr.strip t) = t
  /\ PyStr.str_upper (PyStr.strip (" " ++ t)) = t.

(** Bytes that are all above 127. *)
Fixpoint all_high (s : string) : bool :=
  match s with
  | EmptyString => true
  | String a s' => PyStr.is_high a && all_high s'
  end.

(** The bytes of one character: a single byte, or several that are all
    above 127. *)
Definition whole_char (c : string) : Prop :=
  match c with
  | EmptyString => False
  | String _ EmptyString => True
  | String _ (String _ _) => all_high c = true
  end.

(** ** A concrete world for running the program *)

Module Scenario.

(** A scripted shell: a command line found in the table exits with the
    given status after writing the given files; any other command line is
    not found (status 127).  With [careful] set, a tool refuses to write
    over a file that is already there and exits with status 1. *)
Definition scripted (careful : bool)
    (table : list (string * (Z * list (string * N))))
    (cmd : string) (f : gmap string node) : outcome * gmap string node :=
  match List.find (fun row => String.eqb (fst row) cmd) table with
  | Some (_, (code, files)) =>
      if careful && existsb (fun pn => Os.exists_in f (fst pn)) files
      then (Exited 1, f)
      else (Exited code,
            foldr (fun pn acc => <[fst pn := Node false (snd pn)]> acc) f files)
  | None => (Exited 127, f)
  end.

(** The nearest integer to [n / d], the even one of two that are equally
    near. *)
Definition div_half_even (n d : N) : N :=
  let q := (n / d)%N in
  let r := (n mod d)%N in
  if (2 * r <? d)%N then q
  else if (d <? 2 * r)%N then (q + 1)%N
  else if N.even q then q else (q + 1)%N.

(** The integer as [float(n)] holds it: the nearest one with 53
    significant bits. *)
Definition to_float (n : N) : N :=
  let spare := (N.size n - 53)%N in
  (div_half_even n (2 ^ spare) * 2 ^ spare)%N.

(** [f"{n / (1024 * 1024):.1f}"]: the quotient is a float, exact but for
    the rounding of [n] itself, and the format rounds it to one decimal. *)
Definition fmt_mb (n : N) : string :=
  let tenths := div_half_even (to_float n * 10) 1048576 in
  PyStr.of_N (tenths / 10) ++ "." ++ PyStr.of_N (tenths mod 10).

Definition strerror (errno : N) : string :=
  if (errno =? Os.ENOENT)%N then "No such file or directory"
  else if (errno =? Os.EBUSY)%N then "Device or resource busy"
  else if (errno =? Os.EEXIST)%N then "File exists"
  else if (errno =? Os.ENOTDIR)%N then "Not a directory"
  else if (errno =? Os.EISDIR)%N then "Is a directory"
  else if (errno =? Os.EINVAL)%N then "Invalid argument"
  else if (errno =? Os.ENOTEMPTY)%N then "Directory not empty"
  else if (errno =? 7)%N then "Argument list too long"
  else if (errno =? 12)%N then "Cannot allocate memory"
  else "Unknown error " ++ PyStr.of_N errno.

(** [str(e)] on CPython 3.11, a path name being shown in quotes as
    [repr] shows a name that holds no quote, backslash or control
    character. *)
Definition exn_str (e : exn) : string :=
  match e with
  | EOFError => "EOF when reading a line"
  | KeyboardInterrupt => EmptyString
  | SystemExit code => PyStr.of_Z code
  | ValueError msg => msg
  | UnicodeDecodeError msg => msg
  | UnboundLocalError name =>
      "cannot access local variable '" ++ name
      ++ "' where it is not associated with a value"
  | TypeError msg => msg
  | OSError errno paths =>
      "[Errno " ++ PyStr.of_N errno ++ "] " ++ strerror errno ++ ": "
      ++ PyStr.join " -> " (map (fun p => ("'" ++ p ++ "'")%string) paths)
  end.

(** The two tools, in their directories. *)
Definition tools : gmap string node :=
  <["llama" := Node true 0]>
    (<["llama/convert_hf_to_gguf.py" := Node false 4096]>
       (<["llama/bin" := Node true 0]>
          (<["llama/bin/llama-quantize" := Node false 4096]> ∅))).

(** A working directory with the model directory [m] and both tools. *)
Definition disk : gmap string node := <["m" := Node true 0]> tools.

(** The same without the quantizer. *)
Definition disk_without_quantizer : gmap string node :=
  <["m" := Node true 0]>
    (<["llama" := Node true 0]>
       (<["llama/convert_hf_to_gguf.py" := Node false 4096]>
          (<["llama/bin" := Node true 0]> ∅))).

Definition convert_m : string :=
  "python3 ./llama/convert_hf_to_gguf.py ./m --outfile m-f16.gguf --outtype f16".

Definition quantize_m (q : string) : string :=
  "./llama/bin/llama-quantize m-f16.gguf m-" ++ q ++ ".gguf " ++ q.

(** Every tool works. *)
Definition all_fine : list (string * (Z * list (string * N))) :=
  [ (convert_m, (0%Z, [("m-f16.gguf", 14000000%N)]));
    (quantize_m "Q4_0", (0%Z, [("m-Q4_0.gguf", 4000000%N)]));
    (quantize_m "Q4_1", (0%Z, [("m-Q4_1.gguf", 4400000%N)]));
    (quantize_m "Q8_0", (0%Z, [("m-Q8_0.gguf", 7500000%N)])) ].

(** The quantizer fails on [Q4_1] and on nothing else. *)
Definition q4_1_fails : list (string * (Z * list (string * N))) :=
  [ (convert_m, (0%Z, [("m-f16.gguf", 14000000%N)]));
    (quantize_m "Q4_0", (0%Z, [("m-Q4_0.gguf", 4000000%N)]));
    (quantize_m "Q4_1", (1%Z, []));
    (quantize_m "Q8_0", (0%Z, [("m-Q8_0.gguf", 7500000%N)])) ].

(** The converter exits with 0 and writes nothing. *)
Definition silent_converter : list (string * (Z * list (string * N))) :=
  [ (convert_m, (0%Z, [])) ].

(** A shell that works as [all_fine] tells until the interrupt key is
    pressed while the quantization to [Q4_1] runs, half of its file
    written. *)
Definition interrupted_at_q4_1 (cmd : string) (f : gmap string node)
  : outcome * gmap string node :=
  if String.eqb cmd (quantize_m "Q4_1")
  then (Interrupted, <["m-Q4_1.gguf" := Node false 2200000]> f)
  else scripted false all_fine cmd f.

(** What the decoder says of a line that starts with the byte 255. *)
Definition undecodable : string :=
  "'utf-8' codec can't decode byte 0xff in position 0: invalid start byte".

Definition typed (lines : list string) : list input_event := map Line lines.

Definition start (f : gmap string node) (lines : list string) : State :=
  mkState f (typed lines) [].

Definition go (careful : bool) (table : list (string * (Z * list (string * N))))
    (s : State) : Z * State :=
  run (scripted careful table) fmt_mb exn_str s.

(** Three profiles are chosen by name and every tool works. *)
Definition run_all_fine : Z * State :=
  go false all_fine (start disk ["m"; EmptyString; "2"; "Q4_0,Q4_1,Q8_0"]).

(** The same choice with a quantizer that fails on [Q4_1]. *)
Definition run_one_fails : Z * State :=
  go false q4_1_fails (start disk ["m"; EmptyString; "2"; "Q4_0,Q4_1,Q8_0"]).

(** All profiles are chosen and the quantizer is not installed. *)
Definition run_without_quantizer : Z * State :=
  go false all_fine (start disk_without_quantizer ["m"; EmptyString; "1"]).

(** The working directory once the conversion and the three quantizations
    of [run_all_fine] have written their files. *)
Definition disk_all_fine : gmap string node :=
  <["m-Q8_0.gguf" := Node false 7500000]>
    (<["m-Q4_1.gguf" := Node false 4400000]>
       (<["m-Q4_0.gguf" := Node false 4000000]>
          (<["m-f16.gguf" := Node false 14000000]> disk))).

(** The working directory once the tools of [run_one_fails] have run. *)
Definition disk_one_fails : gmap string node :=
  <["m-Q8_0.gguf" := Node false 7500000]>
    (<["m-Q4_0.gguf" := Node false 4000000]>
       (<["m-f16.gguf" := Node false 14000000]> disk)).

(** The working directory once the conversion has written its file. *)
Definition disk_converted : gmap string node :=
  <["m-f16.gguf" := Node false 14000000]> disk.

Definition unbound_gguf_folder : string :=
  "Unexpected error: cannot access local variable 'gguf_folder' where it is not associated with a value".

End Scenario.

(** ** Running the model on examples *)

Example strip_ex : PyStr.strip "  q4_k_m " = "q4_k_m".
Proof. vm_compute. reflexivity. Qed.

(** [strip] cuts the white space of Unicode, here a no-break space before
    and an ideographic space after. *)
Example strip_unicode_ex :
  PyStr.strip (PyStr.encode_cp 0xA0 ++ "m" ++ PyStr.encode_cp 0x3000) = "m".
Proof. vm_compute. reflexivity. Qed.

Example upper_ex : PyStr.str_upper "q4_k_m" = "Q4_K_M".
Proof. vm_compute. reflexivity. Qed.

(** [upper] follows the case mapping of Unicode: the long s becomes [S],
    the sharp s becomes [SS]. *)
Example upper_unicode_ex :
  PyStr.str_upper ("q3_k_" ++ PyStr.encode_cp 0x17F) = "Q3_K_S"
  /\ PyStr.str_upper (PyStr.encode_cp 0xDF) = "SS".
Proof. split; vm_compute; reflexivity. Qed.

(** [lower] does: the Kelvin sign becomes [k]; a capital sigma at the end
    of a word becomes the final sigma. *)
Example lower_unicode_ex :
  PyStr.str_lower (PyStr.encode_cp 0x212A) = "k"
  /\ PyStr.str_lower (PyStr.encode_cp 0x391 ++ PyStr.encode_cp 0x3A3)
     = (PyStr.encode_cp 0x3B1 ++ PyStr.encode_cp 0x3C2)%string
  /\ PyStr.str_lower (PyStr.encode_cp 0x3A3 ++ PyStr.encode_cp 0x391)
     = (PyStr.encode_cp 0x3C3 ++ PyStr.encode_cp 0x3B1)%string.
Proof. repeat split; vm_compute; reflexivity. Qed.

Example split_ex :
  PyStr.split ","%char "a,,b," = ["a"; EmptyString; "b"; EmptyString].
Proof. reflexivity. Qed.

Example join_ex : PyStr.join ", " ["a"; "b"; "c"] = "a, b, c".
Proof. reflexivity. Qed.

Example basename_ex : OsPath.basename "models/my-model" = "my-model".
Proof. reflexivity. Qed.

Example fmt_2d_ex : PyStr.fmt_2d 7 = " 7" /\ PyStr.fmt_2d 12 = "12".
Proof. split; reflexivity. Qed.

(** 14000000 bytes are 13.35 MB and a little more; a quarter of a MB is a
    tie and goes to the even digit. *)
Example fmt_mb_ex :
  Scenario.fmt_mb 14000000 = "13.4" /\ Scenario.fmt_mb 262144 = "0.2"
  /\ Scenario.fmt_mb 786432 = "0.8" /\ Scenario.fmt_mb 0 = "0.0".
Proof. repeat split; vm_compute; reflexivity. Qed.

Example custom_types_ex :
  custom_types_of "q4_k_m, Q8_0" = ["Q4_K_M"; "Q8_0"].
Proof. vm_compute. reflexivity. Qed.

(** Path names are resolved as the system resolves them. *)
Example exists_ex :
  Os.exists_in Scenario.disk "m/" = true
  /\ Os.exists_in Scenario.disk "./m/." = true
  /\ Os.exists_in Scenario.disk "llama/../m" = true
  /\ Os.exists_in Scenario.disk "./llama/bin/llama-quantize" = true
  /\ Os.exists_in Scenario.disk "llama/bin/llama-quantize/" = false
  /\ Os.exists_in Scenario.disk "absent/../m" = false
  /\ Os.exists_in Scenario.disk ".." = true
  /\ Os.exists_in Scenario.disk EmptyString = false.
Proof. repeat split; vm_compute; reflexivity. Qed.

(** ** Reasoning about the monad *)

Lemma bind_inr {A B} (c : M A) (k : A -> M B) s y s' :
  bind c k s = (inr y, s') ->
  exists x s1, c s = (inr x, s1) /\ k x s1 = (inr y, s').
Proof.
  unfold bind. destruct (c s) as [[e|x] s1]; intros H.
  - discriminate.
  - exists x, s1. split; [reflexivity | exact H].
Qed.

Lemma Sane_ret {A} (x : A) : Sane (ret x).
Proof. intros s. exact I. Qed.

Lemma Sane_bind {A B} (c : M A) (k : A -> M B) :
  Sane c -> (forall x, Sane (k x)) -> Sane (bind c k).
Proof.
  intros Hc Hk s. unfold bind. specialize (Hc s).
  destruct (c s) as [[e|x] s1]; simpl in *.
  - exact Hc.
  - apply Hk.
Qed.

Lemma Sane_emit e : Sane (emit e).
Proof. intros s. exact I. Qed.

Lemma Sane_print t : Sane (print t).
Proof. apply Sane_emit. Qed.

Lemma Sane_input p : Sane (input p).
Proof. intros s. unfold input. destruct (stdin s) as [|[l| |why] rest]; exact I. Qed.

Lemma Sane_get_fs : Sane get_fs.
Proof. intros s. exact I. Qed.

Lemma Sane_put_fs f : Sane (put_fs f).
Proof. intros s. exact I. Qed.

Lemma Sane_raise {A} e :
  (forall code, e = SystemExit code -> code = 1%Z) -> Sane (@raise A e).
Proof. intros H s. simpl. destruct e; try exact I. apply H. reflexivity. Qed.

Lemma Sane_if {A} (b : bool) (c1 c2 : M A) :
  Sane c1 -> Sane c2 -> Sane (if b then c1 else c2).
Proof. destruct b; auto. Qed.

Lemma Fatal_bind_l {A B} (c : M A) (k : A -> M B) :
  Fatal c -> Fatal (bind c k).
Proof.
  intros Hc s. unfold bind. specialize (Hc s).
  destruct (c s) as [[e|x] s1]; simpl in *; [exact Hc | contradiction].
Qed.

Lemma Fatal_bind_r {A B} (c : M A) (k : A -> M B) :
  Sane c -> (forall x, Fatal (k x)) -> Fatal (bind c k).
Proof.
  intros Hc Hk s. unfold bind. specialize (Hc s).
  destruct (c s) as [[e|x] s1]; simpl in *.
  - destruct e; auto.
  - apply Hk.
Qed.

Lemma Fatal_raise {A} e :
  (forall code, e = SystemExit code -> code = 1%Z) -> Fatal (@raise A e).
Proof. intros H s. simpl. destruct e; try exact I. apply H. reflexivity. Qed.

Lemma Sane_for_each {A} (l : list A) (body : A -> M unit) :
  (forall x, Sane (body x)) -> Sane (for_each l body).
Proof.
  intros Hb. induction l as [|x l IH]; simpl.
  - apply Sane_ret.
  - apply Sane_bind; auto.
Qed.

Create HintDb sane.
#[local] Hint Resolve Sane_ret Sane_emit Sane_print Sane_input Sane_get_fs
  Sane_put_fs Sane_for_each : sane.

Ltac sane_step :=
  lazymatch goal with
  | |- Sane (bind _ _) => apply Sane_bind; [| intros ? ]
  | |- Sane (if _ then _ else _) => apply Sane_if
  | |- Sane (raise _) => apply Sane_raise; discriminate
  | |- Sane (match ?x with _ => _ end) => destruct x
  | |- _ => solve [ auto with sane ]
  end.

Ltac sane := repeat sane_step.

(** ** The input collector *)

(** Both loops of [get_user_input] read one or two lines in a turn, so
    facts about them go by induction on the number of lines left. *)
Lemma input_ind (P : list input_event -> Prop) :
  (forall inp, (forall inp', length inp' < length inp -> P inp') -> P inp) ->
  forall inp, P inp.
Proof.
  intros step.
  assert (H : forall n inp, length inp < n -> P inp).
  { induction n as [|n IH]; intros inp Hlt; [lia|].
    apply step. intros inp' Hlt'. apply IH. lia. }
  intros inp. apply (H (S (length inp))). lia.
Qed.

Lemma said_result {A} evs (r : reading A) : fst (fst (said evs r)) = fst (fst r).
Proof. destruct r as [[v rest] evs']. reflexivity. Qed.

Lemma said_unfold {A} evs (r : reading A) :
  said evs r = (fst (fst r), snd (fst r), evs ++ snd r).
Proof. destruct r as [[v rest] evs']. reflexivity. Qed.

Lemma ask_model_path_raises f inp e :
  fst (fst (ask_model_path f inp)) = inl e -> input_exn e.
Proof.
  revert e. induction inp as [inp IH] using input_ind. intros e.
  destruct inp as [|[l| |why] rest]; simpl.
  - intros [= <-]. left; reflexivity.
  - destruct (PyStr.is_empty (PyStr.strip l)).
    + rewrite said_result. apply IH. simpl. lia.
    + destruct (negb (Os.exists_in f (PyStr.strip l))); [|discriminate].
      destruct rest as [|[c| |why] rest']; simpl.
      * intros [= <-]. left; reflexivity.
      * destruct (negb _); [|discriminate].
        rewrite said_result. apply IH. simpl. lia.
      * intros [= <-]. right; left; reflexivity.
      * intros [= <-]. right; right; eauto.
  - intros [= <-]. right; left; reflexivity.
  - intros [= <-]. right; right; eauto.
Qed.

(** The second loop lets no [ValueError] out. *)
Lemma ask_quants_raises inp e :
  fst (fst (ask_quants inp)) = inl e -> e = EOFError \/ e = KeyboardInterrupt.
Proof.
  revert e. induction inp as [inp IH] using input_ind. intros e.
  destruct inp as [|[l| |why] rest]; simpl.
  - intros [= <-]. left; reflexivity.
  - destruct (PyStr.is_empty (PyStr.strip l) || String.eqb (PyStr.strip l) "1");
      [discriminate|].
    destruct (String.eqb (PyStr.strip l) "2").
    + destruct rest as [|[l2| |why] rest']; simpl.
      * intros [= <-]. left; reflexivity.
      * destruct (PyStr.is_empty (PyStr.strip l2)); [discriminate|].
        destruct (invalid_types_of _); [discriminate|].
        rewrite said_result. apply IH. simpl. lia.
      * intros [= <-]. right; reflexivity.
      * rewrite said_result. apply IH. simpl. lia.
    + rewrite said_result. apply IH. simpl. lia.
  - intros [= <-]. right; reflexivity.
  - rewrite said_result. apply IH. simpl. lia.
Qed.

Lemma Sane_converse {A} (f : gmap string node -> list input_event -> reading A) :
  (forall d inp e, fst (fst (f d inp)) = inl e -> input_exn e) ->
  Sane (converse f).
Proof.
  intros H s. unfold converse.
  destruct (f (fs s) (stdin s)) as [[v rest] evs] eqn:E. simpl.
  destruct v as [e|x]; [|exact I].
  assert (He : input_exn e) by (apply (H (fs s) (stdin s)); rewrite E; reflexivity).
  destruct He as [-> | [-> | [why ->]]]; exact I.
Qed.

Lemma Sane_ask_output_name model_path : Sane (ask_output_name model_path).
Proof. unfold ask_output_name. sane. Qed.

Lemma Sane_get_user_input : Sane get_user_input.
Proof.
  unfold get_user_input. sane.
  - apply Sane_converse. apply ask_model_path_raises.
  - apply Sane_ask_output_name.
  - apply Sane_converse. intros _ inp e He.
    destruct (ask_quants_raises inp e He) as [-> | ->];
      [left | right; left]; reflexivity.
Qed.

#[local] Hint Resolve Sane_ask_output_name Sane_get_user_input : sane.

(** ** The pipeline ends every run with status 1 *)

(** What [os.stat] raises is a [ValueError] or an [OSError]. *)
Lemma stat_error f p e : Os.stat f p = inl e -> is_Exception e = true.
Proof.
  unfold Os.stat. destruct (PyStr.has_nul p); [intros [= <-]; reflexivity|].
  destruct (Os.locate f p) as [errno|pl]; [intros [= <-]; reflexivity|].
  destruct (Os.node_at f pl); [discriminate|]. intros [= <-]. reflexivity.
Qed.

Section PipelineFacts.

Variable sh : string -> gmap string node -> outcome * gmap string node.
Variable fmt_mb : N -> string.
Variable exn_str : exn -> string.

Lemma Sane_path_exists p : Sane (Os.path_exists p).
Proof. unfold Os.path_exists. sane. Qed.

Lemma Sane_getsize p : Sane (Os.getsize p).
Proof.
  intros s. unfold Os.getsize, bind, get_fs.
  destruct (Os.stat (fs s) p) as [e|[k n]] eqn:E; [|exact I].
  apply stat_error in E. destruct e; try exact I; discriminate E.
Qed.

Lemma Sane_subprocess_run command : Sane (subprocess_run sh command).
Proof.
  unfold subprocess_run. sane.
Qed.

Hint Resolve Sane_path_exists Sane_getsize Sane_subprocess_run : sane.

Lemma Sane_run_command command description :
  Sane (run_command sh command description).
Proof. unfold run_command. sane. Qed.

Hint Resolve Sane_run_command : sane.

Lemma Sane_convert_to_gguf model_path output_name :
  Sane (convert_to_gguf sh model_path output_name).
Proof. unfold convert_to_gguf. sane. Qed.

Lemma Sane_quantize_each f16_file output_name quant_types :
  forall successful_quants failed_quants,
    Sane (quantize_each sh fmt_mb f16_file output_name quant_types
                        successful_quants failed_quants).
Proof.
  induction quant_types as [|q others IH]; intros succ failed; simpl.
  - sane.
  - sane; apply IH.
Qed.

Hint Resolve Sane_convert_to_gguf Sane_quantize_each : sane.

Lemma Sane_quantize_model f16_file output_name quant_types :
  Sane (quantize_model sh fmt_mb f16_file output_name quant_types).
Proof. unfold quantize_model. sane. Qed.

Lemma Sane_unpack_pair v : Sane (unpack_pair v).
Proof. unfold unpack_pair. sane. Qed.

Lemma Sane_summary_of mark output_name quants :
  Sane (summary_of mark output_name quants).
Proof.
  unfold summary_of. destruct quants as [|q others]; sane.
Qed.

Hint Resolve Sane_quantize_model Sane_unpack_pair Sane_summary_of : sane.

(** Line 228 reads a local that nothing has assigned yet. *)
Lemma Fatal_read_unbound name : Fatal (read_local name None).
Proof. intros s. exact I. Qed.

Ltac fatal_step :=
  lazymatch goal with
  | |- Fatal (bind (read_local _ None) _) =>
      apply Fatal_bind_l, Fatal_read_unbound
  | |- Fatal (bind (sys_exit _) _) => apply Fatal_bind_l
  | |- Fatal (sys_exit 1) => apply Fatal_raise; intros ? [= <-]; reflexivity
  | |- Fatal (bind _ _) => apply Fatal_bind_r; [solve [sane] | intros ? ]
  end.

Lemma Fatal_after_conversion f16_file output_name selected_quants :
  Fatal (after_conversion sh fmt_mb exn_str f16_file output_name
                          selected_quants).
Proof. unfold after_conversion. repeat fatal_step. Qed.

Lemma Fatal_main_body : Fatal (main_body sh fmt_mb exn_str).
Proof.
  unfold main_body. repeat fatal_step.
  match goal with |- Fatal (match ?c with _ => _ end) => destruct c as [f|] end.
  - destruct (PyStr.is_empty f).
    + repeat fatal_step.
    + apply Fatal_after_conversion.
  - repeat fatal_step.
Qed.

(** Whatever is typed and whatever the tools do, [main] ends by raising
    [SystemExit(1)]. *)
Lemma main_raises_exit_1 s :
  fst (main sh fmt_mb exn_str s) = inl (SystemExit 1).
Proof.
  unfold main, try_except.
  pose proof (Fatal_main_body s) as H.
  destruct (main_body sh fmt_mb exn_str s) as [[e|x] s1]; simpl in H;
    [|contradiction].
  destruct e; try reflexivity. simpl in *. subst. reflexivity.
Qed.

Lemma run_status_1 s : fst (run sh fmt_mb exn_str s) = 1%Z.
Proof.
  unfold run. pose proof (main_raises_exit_1 s) as H.
  destruct (main sh fmt_mb exn_str s) as [r s']. simpl in *. subst r.
  reflexivity.
Qed.

End PipelineFacts.

(** ** The exit status (C1, C2, C3) *)

Ltac by_running := apply (bool_decide_unpack _); vm_compute; exact I.

(** C1.  The claim: a run whose conversion succeeds ends with exit status 0,
    whatever the quantization attempts do.  The program does otherwise: on
    every input and with any tools the run ends with status 1; in the run
    [run_all_fine], where the conversion and all three quantizations
    succeed, the summary is printed, then line 228 reads [gguf_folder]
    before its assignment and the run ends in the handler of line 296. *)
Theorem C1_successful_run_exits_1 :
  (forall sh fmt_mb exn_str s, fst (run sh fmt_mb exn_str s) = 1%Z)
  /\ fst Scenario.run_all_fine = 1%Z
  /\ Exec Scenario.convert_m 0 ∈ trace (snd Scenario.run_all_fine)
  /\ fs (snd Scenario.run_all_fine) = Scenario.disk_all_fine
  /\ Print "✅ Successfully created 3 quantized models:"
       ∈ trace (snd Scenario.run_all_fine)
  /\ List.last (trace (snd Scenario.run_all_fine)) (Print EmptyString)
     = Print Scenario.unbound_gguf_folder.
Proof.
  split; [exact run_status_1|].
  repeat split; by_running.
Qed.

(** Without the quantizer, [quantize_model] reports it and returns [False],
    leaving the disk as it was; unpacking [False] then raises. *)
Lemma quantize_model_without_quantizer sh fmt_mb f16_file output_name
    quant_types s :
  Os.exists_in (fs s) quantizer = false ->
  quantize_model sh fmt_mb f16_file output_name quant_types s
  = (inr PyFalse,
     mkState (fs s) (stdin s)
       ((trace s ++ [Print ("❌ Quantizer not found: " ++ quantizer)])
        ++ [Print "Make sure you have the llama.cpp release binary"])).
Proof.
  intros H. unfold quantize_model, bind, Os.path_exists, get_fs, ret. simpl.
  rewrite H. reflexivity.
Qed.

Lemma unpack_False_raises s :
  fst (unpack_pair PyFalse s)
  = inl (TypeError "cannot unpack non-iterable bool object").
Proof. reflexivity. Qed.

(** C2.  The claim: without the quantizer only the quantization step fails
    and the run goes on to the summary with no successful profile.  The
    program does otherwise: in the run [run_without_quantizer] the missing
    quantizer is reported, [quantize_model] returns [False], the unpacking
    of line 208 raises, the summary is never printed and the run ends with
    status 1 in the handler of line 296. *)
Theorem C2_missing_quantizer_aborts_run :
  fst Scenario.run_without_quantizer = 1%Z
  /\ Print "❌ Quantizer not found: ./llama/bin/llama-quantize"
       ∈ trace (snd Scenario.run_without_quantizer)
  /\ (Print (PyStr.nl ++ "Process completed!")
       ∉ trace (snd Scenario.run_without_quantizer))
  /\ commands (trace (snd Scenario.run_without_quantizer))
     = [Scenario.convert_m]
  /\ List.last (trace (snd Scenario.run_without_quantizer)) (Print EmptyString)
     = Print "Unexpected error: cannot unpack non-iterable bool object".
Proof. repeat split; by_running. Qed.

(** C3.  The claim: with three profiles of which one fails, the run ends
    with status 0, reports 2 successes and 1 failure, and moves the two
    produced files and the f16 file into the destination directory.  The
    program prints that summary and then stops at line 228: in the run
    [run_one_fails] the status is 1, no destination directory is made and
    the three files stay where the tools wrote them. *)
Theorem C3_partial_failure_moves_nothing :
  fst Scenario.run_one_fails = 1%Z
  /\ commands (trace (snd Scenario.run_one_fails))
     = [Scenario.convert_m; Scenario.quantize_m "Q4_0";
        Scenario.quantize_m "Q4_1"; Scenario.quantize_m "Q8_0"]
  /\ Print "✅ Successfully created 2 quantized models:"
       ∈ trace (snd Scenario.run_one_fails)
  /\ Print "❌ Failed to create 1 quantized models:"
       ∈ trace (snd Scenario.run_one_fails)
  /\ Print "   - m-Q4_1.gguf" ∈ trace (snd Scenario.run_one_fails)
  /\ fs (snd Scenario.run_one_fails) = Scenario.disk_one_fails
  /\ fs (snd Scenario.run_one_fails) !! "m-GGUF" = None
  /\ fs (snd Scenario.run_one_fails) !! "m-GGUF/m-f16.gguf" = None
  /\ fs (snd Scenario.run_one_fails) !! "m-GGUF/m-Q4_0.gguf" = None
  /\ fs (snd Scenario.run_one_fails) !! "m-GGUF/m-Q8_0.gguf" = None
  /\ List.last (trace (snd Scenario.run_one_fails)) (Print EmptyString)
     = Print Scenario.unbound_gguf_folder.
Proof. repeat split; by_running. Qed.

(** ** What the input collector does to the world *)

Lemma commands_app tr1 tr2 : commands (tr1 ++ tr2) = commands tr1 ++ commands tr2.
Proof. unfold commands. apply omap_app. Qed.

Lemma said_commands {A} evs (r : reading A) :
  commands evs = [] -> commands (snd (said evs r)) = commands (snd r).
Proof.
  destruct r as [[v rest] evs']. simpl. intros H.
  rewrite commands_app, H. reflexivity.
Qed.

Lemma ask_model_path_quiet f inp : commands (snd (ask_model_path f inp)) = [].
Proof.
  induction inp as [inp IH] using input_ind.
  destruct inp as [|[l| |why] rest]; simpl; try reflexivity.
  destruct (PyStr.is_empty (PyStr.strip l)).
  - rewrite said_commands by reflexivity. apply IH. simpl. lia.
  - destruct (negb (Os.exists_in f (PyStr.strip l))); [|reflexivity].
    destruct rest as [|[c| |why] rest']; simpl; try reflexivity.
    destruct (negb _); [|reflexivity].
    rewrite said_commands by reflexivity. apply IH. simpl. lia.
Qed.

Lemma listing_quiet : commands listing = [].
Proof. reflexivity. Qed.

Lemma ask_quants_quiet inp : commands (snd (ask_quants inp)) = [].
Proof.
  induction inp as [inp IH] using input_ind.
  destruct inp as [|[l| |why] rest]; simpl; try reflexivity.
  - destruct (PyStr.is_empty (PyStr.strip l) || String.eqb (PyStr.strip l) "1");
      [reflexivity|].
    destruct (String.eqb (PyStr.strip l) "2").
    + destruct rest as [|[l2| |why] rest']; simpl; try reflexivity.
      * destruct (PyStr.is_empty (PyStr.strip l2)); [reflexivity|].
        destruct (invalid_types_of _); [reflexivity|].
        rewrite said_commands by reflexivity. apply IH. simpl. lia.
      * rewrite said_commands by reflexivity. apply IH. simpl. lia.
    + rewrite said_commands by reflexivity. apply IH. simpl. lia.
  - rewrite said_commands by reflexivity. apply IH. simpl. lia.
Qed.

Lemma said_rest {A} evs (r : reading A) : snd (fst (said evs r)) = snd (fst r).
Proof. destruct r as [[v rest] evs']. reflexivity. Qed.

Lemma ask_model_path_rest f inp :
  snd (fst (ask_model_path f inp)) `suffix_of` inp.
Proof.
  induction inp as [inp IH] using input_ind.
  destruct inp as [|[l| |why] rest]; simpl.
  - reflexivity.
  - destruct (PyStr.is_empty (PyStr.strip l)).
    + rewrite said_rest. apply suffix_cons_r, IH. simpl. lia.
    + destruct (negb (Os.exists_in f (PyStr.strip l)));
        [|apply suffix_cons_r; reflexivity].
      destruct rest as [|[c| |why] rest']; simpl.
      * apply suffix_nil.
      * destruct (negb _).
        -- rewrite said_rest. do 2 apply suffix_cons_r. apply IH. simpl. lia.
        -- do 2 apply suffix_cons_r. reflexivity.
      * do 2 apply suffix_cons_r. reflexivity.
      * do 2 apply suffix_cons_r. reflexivity.
  - apply suffix_cons_r. reflexivity.
  - apply suffix_cons_r. reflexivity.
Qed.

Lemma ask_quants_rest inp : snd (fst (ask_quants inp)) `suffix_of` inp.
Proof.
  induction inp as [inp IH] using input_ind.
  destruct inp as [|[l| |why] rest]; simpl.
  - reflexivity.
  - destruct (PyStr.is_empty (PyStr.strip l) || String.eqb (PyStr.strip l) "1");
      [apply suffix_cons_r; reflexivity|].
    destruct (String.eqb (PyStr.strip l) "2").
    + destruct rest as [|[l2| |why] rest']; simpl.
      * apply suffix_nil.
      * destruct (PyStr.is_empty (PyStr.strip l2));
          [do 2 apply suffix_cons_r; reflexivity|].
        destruct (invalid_types_of _);
          [do 2 apply suffix_cons_r; reflexivity|].
        rewrite said_rest. do 2 apply suffix_cons_r. apply IH. simpl. lia.
      * do 2 apply suffix_cons_r. reflexivity.
      * rewrite said_rest. do 2 apply suffix_cons_r. apply IH. simpl. lia.
    + rewrite said_rest. apply suffix_cons_r, IH. simpl. lia.
  - apply suffix_cons_r. reflexivity.
  - rewrite said_rest. apply suffix_cons_r, IH. simpl. lia.
Qed.

Lemma Quiet_ret {A} (x : A) : Quiet (ret x).
Proof.
  intros s. split; [reflexivity|]. split; [reflexivity|].
  exists []. rewrite app_nil_r. auto.
Qed.

Lemma Quiet_bind {A B} (c : M A) (k : A -> M B) :
  Quiet c -> (forall x, Quiet (k x)) -> Quiet (bind c k).
Proof.
  intros Hc Hk s. unfold bind. destruct (Hc s) as [Hf [Hin [evs [Ht Hq]]]].
  destruct (c s) as [[e|x] s1]; simpl in *.
  - split; [exact Hf|]. split; [exact Hin|]. exists evs. auto.
  - destruct (Hk x s1) as [Hf' [Hin' [evs' [Ht' Hq']]]].
    split; [congruence|]. split; [etrans; eassumption|].
    exists (evs ++ evs').
    rewrite Ht', Ht, app_assoc, commands_app, Hq, Hq'. auto.
Qed.

Lemma Quiet_print t : Quiet (print t).
Proof.
  intros s. split; [reflexivity|]. split; [reflexivity|].
  exists [Print t]. auto.
Qed.

Lemma Quiet_input p : Quiet (input p).
Proof.
  intros s. unfold input.
  destruct (stdin s) as [|[l| |why] rest]; (split; [reflexivity|]); simpl;
    (split; [first [reflexivity | apply suffix_cons_r; reflexivity]|]);
    exists [Prompt p]; auto.
Qed.

Lemma Quiet_converse {A} (f : gmap string node -> list input_event -> reading A) :
  (forall d inp, commands (snd (f d inp)) = []) ->
  (forall d inp, snd (fst (f d inp)) `suffix_of` inp) ->
  Quiet (converse f).
Proof.
  intros H Hrest s. unfold converse.
  specialize (H (fs s) (stdin s)). specialize (Hrest (fs s) (stdin s)).
  destruct (f (fs s) (stdin s)) as [[v rest] evs]. simpl in *.
  split; [reflexivity|]. split; [exact Hrest|]. exists evs. auto.
Qed.

Lemma Quiet_ask_model_path : Quiet (converse ask_model_path).
Proof.
  apply Quiet_converse; [apply ask_model_path_quiet | apply ask_model_path_rest].
Qed.

Lemma Quiet_ask_quants : Quiet (converse (fun _ => ask_quants)).
Proof.
  apply Quiet_converse; intros _; [apply ask_quants_quiet | apply ask_quants_rest].
Qed.

Create HintDb quiet.
#[local] Hint Resolve Quiet_ret Quiet_print Quiet_input Quiet_ask_model_path
  Quiet_ask_quants : quiet.

Ltac quiet_step :=
  lazymatch goal with
  | |- Quiet (bind _ _) => apply Quiet_bind; [| intros ? ]
  | |- Quiet (if ?b then _ else _) => destruct b
  | |- Quiet (let _ := _ in _) => cbv zeta
  | |- _ => solve [ auto with quiet ]
  end.

Ltac quiet := repeat quiet_step.

Lemma Quiet_ask_output_name model_path : Quiet (ask_output_name model_path).
Proof. unfold ask_output_name. quiet. Qed.

#[local] Hint Resolve Quiet_ask_output_name : quiet.

Lemma Quiet_get_user_input : Quiet get_user_input.
Proof. unfold get_user_input. quiet. Qed.

(** Stepping over a quiet computation that returned. *)
Lemma Quiet_bind_inr {A B} (c : M A) (k : A -> M B) s y s' :
  Quiet c ->
  bind c k s = (inr y, s') ->
  exists x s1, c s = (inr x, s1) /\ k x s1 = (inr y, s')
               /\ fs s1 = fs s /\ stdin s1 `suffix_of` stdin s.
Proof.
  intros Hq H. apply bind_inr in H. destruct H as [x [s1 [Hc Hk]]].
  exists x, s1. destruct (Hq s) as [Hf [Hin _]]. rewrite Hc in Hf, Hin.
  auto.
Qed.


(** ** The command runner *)

Section Runner.

Variable sh : string -> gmap string node -> outcome * gmap string node.

(** A command that runs to its exit status: [run_command] answers whether
    the status was 0. *)
Lemma run_command_exited command description s code f' :
  PyStr.has_nul command = false ->
  sh command (fs s) = (Exited code, f') ->
  exists evs,
    run_command sh command description s
    = (inr (code =? 0)%Z, mkState f' (stdin s) (trace s ++ evs))
    /\ commands evs = [command]
    /\ execs evs = [Exec command code]
    /\ List.last evs (Print EmptyString)
       = Print (if (code =? 0)%Z
                then description ++ " completed successfully"
                else "Command failed with return code: " ++ PyStr.of_Z code).
Proof.
  intros Hnul Hsh.
  unfold run_command, subprocess_run, bind, print, emit, get_fs, put_fs, ret.
  cbn [fs stdin trace]. rewrite Hnul. cbn [fs stdin trace]. rewrite Hsh.
  cbn [fs stdin trace].
  destruct (code =? 0)%Z; cbn [fs stdin trace]; rewrite <- !app_assoc;
    cbn [app]; eexists; (split; [reflexivity|]); repeat split; reflexivity.
Qed.

(** A command cut short by the interrupt key: [KeyboardInterrupt] goes
    through [run_command]. *)
Lemma run_command_interrupted command description s f' :
  PyStr.has_nul command = false ->
  sh command (fs s) = (Interrupted, f') ->
  exists evs,
    run_command sh command description s
    = (inl KeyboardInterrupt, mkState f' (stdin s) (trace s ++ evs))
    /\ commands evs = [command]
    /\ execs evs = [Killed command].
Proof.
  intros Hnul Hsh.
  unfold run_command, subprocess_run, bind, print, emit, get_fs, put_fs, ret,
    raise.
  cbn [fs stdin trace]. rewrite Hnul. cbn [fs stdin trace]. rewrite Hsh.
  cbn [fs stdin trace]. rewrite <- !app_assoc. cbn [app].
  eexists. split; [reflexivity|]. split; reflexivity.
Qed.

(** A command for which no shell could be started. *)
Lemma run_command_not_started command description s errno f' :
  PyStr.has_nul command = false ->
  sh command (fs s) = (NotStarted errno, f') ->
  exists evs,
    run_command sh command description s
    = (inl (OSError errno ["/bin/sh"]),
       mkState (fs s) (stdin s) (trace s ++ evs))
    /\ commands evs = []
    /\ execs evs = [].
Proof.
  intros Hnul Hsh.
  unfold run_command, subprocess_run, bind, print, emit, get_fs, put_fs, ret,
    raise.
  cbn [fs stdin trace]. rewrite Hnul. cbn [fs stdin trace]. rewrite Hsh.
  cbn [fs stdin trace]. rewrite <- !app_assoc. cbn [app].
  eexists. split; [reflexivity|]. split; reflexivity.
Qed.

(** A command line that holds a NUL. *)
Lemma run_command_nul command description s :
  PyStr.has_nul command = true ->
  exists evs,
    run_command sh command description s
    = (inl (ValueError "embedded null byte"),
       mkState (fs s) (stdin s) (trace s ++ evs))
    /\ commands evs = []
    /\ execs evs = [].
Proof.
  intros Hnul.
  unfold run_command, subprocess_run, bind, print, emit, get_fs, put_fs, ret,
    raise.
  cbn [fs stdin trace]. rewrite Hnul. cbn [fs stdin trace].
  rewrite <- !app_assoc. cbn [app].
  eexists. split; [reflexivity|]. split; reflexivity.
Qed.

End Runner.

(** ** What a whole run does *)

Lemma replay_app sh cmds1 cmds2 f :
  replay sh (cmds1 ++ cmds2) f = replay sh cmds2 (replay sh cmds1 f).
Proof. unfold replay. apply fold_left_app. Qed.

Lemma Returns_ret {A} (x : A) : Returns (ret x).
Proof. intros s. exists x. reflexivity. Qed.

Lemma Returns_print t : Returns (print t).
Proof. intros s. exists tt. reflexivity. Qed.

Lemma Returns_bind {A B} (c : M A) (k : A -> M B) :
  Returns c -> (forall x, Returns (k x)) -> Returns (bind c k).
Proof.
  intros Hc Hk s. unfold bind. destruct (Hc s) as [x Hx].
  destruct (c s) as [[e|x'] s1]; simpl in Hx; [discriminate|].
  apply Hk.
Qed.

Lemma Returns_for_each {A} (l : list A) (body : A -> M unit) :
  (forall x, Returns (body x)) -> Returns (for_each l body).
Proof.
  intros Hb. induction l as [|x l IH]; simpl.
  - apply Returns_ret.
  - apply Returns_bind; auto.
Qed.

Lemma Quiet_for_each {A} (l : list A) (body : A -> M unit) :
  (forall x, Quiet (body x)) -> Quiet (for_each l body).
Proof.
  intros Hb. induction l as [|x l IH]; simpl.
  - apply Quiet_ret.
  - apply Quiet_bind; auto.
Qed.

Lemma Quiet_summary_of mark output_name quants :
  Quiet (summary_of mark output_name quants).
Proof.
  unfold summary_of. destruct quants as [|q others]; [apply Quiet_ret|].
  apply Quiet_bind; [apply Quiet_print|]. intros _.
  apply Quiet_for_each. intros x. apply Quiet_print.
Qed.

Lemma Returns_summary_of mark output_name quants :
  Returns (summary_of mark output_name quants).
Proof.
  unfold summary_of. destruct quants as [|q others]; [apply Returns_ret|].
  apply Returns_bind; [apply Returns_print|]. intros _.
  apply Returns_for_each. intros x. apply Returns_print.
Qed.

(** A file that exists has a size. *)
Lemma exists_in_stat f p :
  Os.exists_in f p = true -> exists k n, Os.stat f p = inr (k, n).
Proof.
  unfold Os.exists_in. destruct (Os.stat f p) as [e|[k n]]; [discriminate|].
  eauto.
Qed.

Lemma getsize_exists p s :
  Os.exists_in (fs s) p = true -> exists n, Os.getsize p s = (inr n, s).
Proof.
  intros H. destruct (exists_in_stat _ _ H) as [k [n Hn]].
  exists (nbytes n). unfold Os.getsize, bind, get_fs. rewrite Hn. reflexivity.
Qed.

Section WholeRun.

Variable sh : string -> gmap string node -> outcome * gmap string node.
Variable fmt_mb : N -> string.
Variable exn_str : exn -> string.

Lemma replay_one command f :
  replay sh [command] f = disk_after sh command f.
Proof. reflexivity. Qed.

Lemma Ends_same {A} (c : M A) s r cmds cmds' :
  Ends sh c s r cmds' -> cmds' = cmds -> Ends sh c s r cmds.
Proof. intros H <-. exact H. Qed.

(** Stepping over a computation whose outcome and effect are known. *)
Lemma Ends_bind {A B} (c : M A) (k : A -> M B) s x s1 r cmds1 cmds2 :
  c s = (inr x, s1) ->
  Effect sh c s cmds1 ->
  Ends sh (k x) s1 r cmds2 ->
  Ends sh (bind c k) s r (cmds1 ++ cmds2).
Proof.
  intros Hc [Hf [evs1 [Ht Hq]]] [Hr [Hf2 [evs2 [Ht2 Hq2]]]].
  rewrite Hc in Hf, Ht. simpl in Hf, Ht.
  unfold Ends, Effect, bind. rewrite Hc.
  split; [exact Hr|]. split.
  - rewrite Hf2, Hf, replay_app. reflexivity.
  - exists (evs1 ++ evs2). rewrite Ht2, Ht, app_assoc, commands_app, Hq, Hq2.
    auto.
Qed.

(** Stepping into a computation that raises. *)
Lemma Ends_bind_inl {A B} (c : M A) (k : A -> M B) s e s1 cmds :
  c s = (inl e, s1) ->
  Effect sh c s cmds ->
  Ends sh (bind c k) s (inl e) cmds.
Proof.
  intros Hc [Hf Ht]. rewrite Hc in Hf, Ht.
  unfold Ends, Effect, bind. rewrite Hc. auto.
Qed.

(** Stepping over a computation that only talks and never raises. *)
Lemma Ends_talk {A B} (c : M A) (k : A -> M B) s r cmds :
  Quiet c -> Returns c ->
  (forall x s1, fs s1 = fs s -> Ends sh (k x) s1 r cmds) ->
  Ends sh (bind c k) s r cmds.
Proof.
  intros Hq Hret Hk. destruct (Hret s) as [x Hx].
  destruct (Hq s) as [Hf [_ [evs [Ht Hc]]]].
  destruct (c s) as [v s1] eqn:E. simpl in *. subst v.
  change cmds with ([] ++ cmds).
  eapply Ends_bind; [exact E | | apply Hk; exact Hf].
  unfold Effect. rewrite E. simpl. split; [exact Hf|]. exists evs. auto.
Qed.

(** A computation that raises at once ends what it is bound to. *)
Lemma Ends_raise {A B} (e : exn) (k : A -> M B) s :
  Ends sh (bind (raise e) k) s (inl e) [].
Proof.
  unfold Ends, Effect, bind, raise. simpl.
  split; [reflexivity|]. split; [reflexivity|].
  exists []. rewrite app_nil_r. auto.
Qed.

Lemma Ends_raise_last {A} (e : exn) s : Ends sh (@raise A e) s (inl e) [].
Proof.
  unfold Ends, Effect, raise. simpl.
  split; [reflexivity|]. split; [reflexivity|].
  exists []. rewrite app_nil_r. auto.
Qed.

(** A step that answers without touching the state. *)
Lemma Ends_pure {A B} (c : M A) (k : A -> M B) s x r cmds :
  c s = (inr x, s) ->
  Ends sh (k x) s r cmds ->
  Ends sh (bind c k) s r cmds.
Proof.
  intros Hc Hk. change cmds with ([] ++ cmds).
  eapply Ends_bind; [exact Hc | | exact Hk].
  unfold Effect. rewrite Hc. simpl. split; [reflexivity|].
  exists []. rewrite app_nil_r. auto.
Qed.

(** A [bind] under a [bind] reads as one sequence. *)
Lemma Ends_assoc {A B C} (c : M A) (k1 : A -> M B) (k2 : B -> M C) s r cmds :
  Ends sh (bind c (fun x => bind (k1 x) k2)) s r cmds ->
  Ends sh (bind (bind c k1) k2) s r cmds.
Proof.
  assert (Heq : bind (bind c k1) k2 s = bind c (fun x => bind (k1 x) k2) s).
  { unfold bind. destruct (c s) as [[e|x] s1]; reflexivity. }
  unfold Ends, Effect. rewrite Heq. auto.
Qed.

(** Stepping over [run_command], by what becomes of the command. *)
Lemma Ends_run_exited {B} command description (k : bool -> M B)
    s f code f' r cmds :
  fs s = f ->
  PyStr.has_nul command = false ->
  sh command f = (Exited code, f') ->
  (forall s1, fs s1 = f' -> Ends sh (k (code =? 0)%Z) s1 r cmds) ->
  Ends sh (bind (run_command sh command description) k) s r (command :: cmds).
Proof.
  intros <- Hnul Hsh Hk.
  destruct (run_command_exited sh command description s code f' Hnul Hsh)
    as [evs [Hrun [Hc _]]].
  change (command :: cmds) with ([command] ++ cmds).
  eapply Ends_bind; [exact Hrun | | apply Hk; reflexivity].
  unfold Effect. rewrite Hrun. cbn [snd fs trace]. split.
  - rewrite replay_one. unfold disk_after. rewrite Hnul, Hsh. reflexivity.
  - exists evs. auto.
Qed.

Lemma Ends_run_interrupted {B} command description (k : bool -> M B) s f f' :
  fs s = f ->
  PyStr.has_nul command = false ->
  sh command f = (Interrupted, f') ->
  Ends sh (bind (run_command sh command description) k) s
       (inl KeyboardInterrupt) [command].
Proof.
  intros <- Hnul Hsh.
  destruct (run_command_interrupted sh command description s f' Hnul Hsh)
    as [evs [Hrun [Hc _]]].
  eapply Ends_bind_inl; [exact Hrun|].
  unfold Effect. rewrite Hrun. cbn [snd fs trace]. split.
  - rewrite replay_one. unfold disk_after. rewrite Hnul, Hsh. reflexivity.
  - exists evs. auto.
Qed.

Lemma Ends_run_not_started {B} command description (k : bool -> M B)
    s f errno f' :
  fs s = f ->
  PyStr.has_nul command = false ->
  sh command f = (NotStarted errno, f') ->
  Ends sh (bind (run_command sh command description) k) s
       (inl (OSError errno ["/bin/sh"])) [].
Proof.
  intros <- Hnul Hsh.
  destruct (run_command_not_started sh command description s errno f' Hnul Hsh)
    as [evs [Hrun [Hc _]]].
  eapply Ends_bind_inl; [exact Hrun|].
  unfold Effect. rewrite Hrun. cbn [snd fs trace]. split; [reflexivity|].
  exists evs. auto.
Qed.

Lemma Ends_run_nul {B} command description (k : bool -> M B) s :
  PyStr.has_nul command = true ->
  Ends sh (bind (run_command sh command description) k) s
       (inl (ValueError "embedded null byte")) [].
Proof.
  intros Hnul.
  destruct (run_command_nul sh command description s Hnul)
    as [evs [Hrun [Hc _]]].
  eapply Ends_bind_inl; [exact Hrun|].
  unfold Effect. rewrite Hrun. cbn [snd fs trace]. split; [reflexivity|].
  exists evs. auto.
Qed.

Ltac talk :=
  lazymatch goal with
  | |- Ends _ (bind (print _) _) _ _ _ =>
      apply Ends_talk; [apply Quiet_print | apply Returns_print | intros ? ? ?]
  | |- Ends _ (bind (summary_of _ _ _) _) _ _ _ =>
      apply Ends_talk;
      [apply Quiet_summary_of | apply Returns_summary_of | intros ? ? ?]
  end.

(** Stepping over a test for a file. *)
Lemma Ends_path_exists {B} p (k : bool -> M B) s f r cmds :
  fs s = f ->
  Ends sh (k (Os.exists_in f p)) s r cmds ->
  Ends sh (bind (Os.path_exists p) k) s r cmds.
Proof.
  intros <- Hk. eapply Ends_pure; [|exact Hk]. reflexivity.
Qed.

(** The loop of [quantize_model] starts the commands [quantize_run] lists
    and ends as it tells. *)
Lemma quantize_each_ends {B} f16_file output_name quant_types
    (k : list string * list string -> M B) r cmds :
  forall s f successful_quants failed_quants,
    fs s = f ->
    match snd (quantize_run sh f16_file output_name f quant_types) with
    | None =>
        forall lists s1,
          fs s1 = replay sh (fst (quantize_run sh f16_file output_name f
                                               quant_types)) f ->
          Ends sh (k lists) s1 r cmds
    | Some e => r = inl e /\ cmds = []
    end ->
    Ends sh (bind (quantize_each sh fmt_mb f16_file output_name quant_types
                                 successful_quants failed_quants) k)
         s r
         (fst (quantize_run sh f16_file output_name f quant_types) ++ cmds).
Proof.
  induction quant_types as [|q others IH]; intros s f succ failed Hf Hk.
  - cbn [quantize_each quantize_run fst snd app] in *.
    eapply Ends_pure; [reflexivity|]. apply Hk. exact Hf.
  - cbn [quantize_each quantize_run] in *.
    apply Ends_assoc.
    destruct (PyStr.has_nul (quantize_command f16_file output_name q)) eqn:Hnul.
    { cbn [fst snd app] in *. destruct Hk as [-> ->].
      apply Ends_run_nul. exact Hnul. }
    destruct (sh (quantize_command f16_file output_name q) f)
      as [[code| |errno] f'] eqn:Hsh; cbn [fst snd app] in *.
    + apply (Ends_run_exited _ _ _ s f code f'); [exact Hf | exact Hnul | exact Hsh |].
      intros s1 Hf1.
      apply Ends_assoc.
      apply (Ends_path_exists _ _ _ f'); [exact Hf1|].
      assert (Hstep : replay sh (quantize_command f16_file output_name q
                                 :: fst (quantize_run sh f16_file output_name f'
                                                       others)) f
                      = replay sh (fst (quantize_run sh f16_file output_name f'
                                                     others)) f').
      { unfold replay. cbn [fold_left]. unfold disk_after.
        rewrite Hnul, Hsh. reflexivity. }
      rewrite Hstep in Hk.
      destruct ((code =? 0)%Z
                && Os.exists_in f' (quant_file_of output_name q)) eqn:Hok.
      * apply andb_prop in Hok. destruct Hok as [_ Hex].
        rewrite <- Hf1 in Hex.
        destruct (getsize_exists _ _ Hex) as [n Hn].
        apply Ends_assoc.
        eapply Ends_pure; [exact Hn|].
        apply Ends_assoc.
        apply Ends_talk; [apply Quiet_print | apply Returns_print |].
        intros _ s2 Hf2. apply (IH s2 f'); [congruence | exact Hk].
      * apply (IH s1 f'); [exact Hf1 | exact Hk].
    + destruct Hk as [-> ->].
      apply (Ends_run_interrupted _ _ _ s f f'); assumption.
    + destruct Hk as [-> ->].
      apply (Ends_run_not_started _ _ _ s f errno f'); assumption.
Qed.

End WholeRun.

Section WholeRunMain.

Variable sh : string -> gmap string node -> outcome * gmap string node.
Variable fmt_mb : N -> string.
Variable exn_str : exn -> string.

Ltac talk :=
  lazymatch goal with
  | |- Ends _ (bind (print _) _) _ _ _ =>
      apply Ends_talk; [apply Quiet_print | apply Returns_print | intros ? ? ?]
  | |- Ends _ (bind (summary_of _ _ _) _) _ _ _ =>
      apply Ends_talk;
      [apply Quiet_summary_of | apply Returns_summary_of | intros ? ? ?]
  | |- Ends _ (bind (bind _ _) _) _ _ _ => apply Ends_assoc
  end.

Lemma f16_file_not_empty output_name :
  PyStr.is_empty (f16_file_of output_name) = false.
Proof.
  unfold f16_file_of. destruct output_name; reflexivity.
Qed.

(** Once the f16 file is there, the rest of [main] runs the quantizations
    (when the quantizer is there) and then raises. *)
Lemma after_conversion_ends f16_file output_name selected_quants s f :
  fs s = f ->
  Os.exists_in f f16_file = true ->
  Ends sh (after_conversion sh fmt_mb exn_str f16_file output_name
                            selected_quants) s
       (inl (if Os.exists_in f quantizer
             then match snd (quantize_run sh f16_file output_name f
                                          selected_quants) with
                  | Some e => e
                  | None => UnboundLocalError "gguf_folder"
                  end
             else TypeError "cannot unpack non-iterable bool object"))
       (if Os.exists_in f quantizer
        then fst (quantize_run sh f16_file output_name f selected_quants)
        else []).
Proof.
  intros Hf Hthere. unfold after_conversion.
  rewrite <- Hf in Hthere. destruct (getsize_exists _ _ Hthere) as [n Hn].
  eapply Ends_pure; [exact Hn|].
  talk. talk. unfold quantize_model. talk.
  apply (Ends_path_exists sh _ _ _ f); [congruence|].
  destruct (Os.exists_in f quantizer) eqn:Hq; cbn [negb].
  - talk. eapply Ends_same; [|apply app_nil_r].
    apply (quantize_each_ends sh fmt_mb); [congruence|].
    destruct (snd (quantize_run sh f16_file output_name f selected_quants));
      [split; reflexivity|].
    intros lists s3 Hf3.
    eapply Ends_pure; [reflexivity|].
    eapply Ends_pure; [reflexivity|]. cbv zeta. cbn [fst snd].
    repeat talk. apply Ends_raise.
  - repeat talk. eapply Ends_pure; [reflexivity|]. apply Ends_raise.
Qed.

(** The [try] block of [main] always ends with the exception [verdict]
    names, having started the commands [planned_commands] lists. *)
Lemma main_body_ends s :
  Ends sh (main_body sh fmt_mb exn_str) s (inl (verdict sh s))
       (planned_commands sh s).
Proof.
  unfold main_body, verdict, planned_commands.
  destruct (Quiet_get_user_input s) as [Hfs [_ [evs0 [Htr Hq0]]]].
  destruct (get_user_input s) as [[e|[[model_path output_name] selected_quants]] s1]
    eqn:Eg; cbn [fst snd] in *.
  { eapply Ends_bind_inl; [exact Eg|].
    unfold Effect. rewrite Eg. cbn [snd]. split; [exact Hfs|]. eauto. }
  assert (He : Effect sh get_user_input s []).
  { unfold Effect. rewrite Eg. cbn [snd]. split; [exact Hfs|]. eauto. }
  assert (Hgo : forall r cmds,
             (forall s6, fs s6 = fs s ->
                Ends sh (bind (convert_to_gguf sh model_path output_name)
                           (fun converted =>
                              match converted with
                              | Some f16_file =>
                                  if PyStr.is_empty f16_file
                                  then bind (print "❌ Conversion failed. Exiting.")
                                            (fun _ => sys_exit 1)
                                  else after_conversion sh fmt_mb exn_str
                                         f16_file output_name selected_quants
                              | None =>
                                  bind (print "❌ Conversion failed. Exiting.")
                                       (fun _ => sys_exit 1)
                              end)) s6 r cmds) ->
             Ends sh
               (bind get_user_input
                  (fun config =>
                     bind (print (PyStr.nl ++ "Starting conversion process..."))
                       (fun _ =>
                     bind (print ("Model path: " ++ fst (fst config)))
                       (fun _ =>
                     bind (print ("Output name: " ++ snd (fst config)))
                       (fun _ =>
                     bind (print ("Quantization types: "
                                  ++ PyStr.join ", " (snd config)))
                       (fun _ =>
                     bind (print (PyStr.nl
                                  ++ "Step 1: Converting to GGUF format"))
                       (fun _ =>
                     bind (convert_to_gguf sh (fst (fst config))
                                           (snd (fst config)))
                       (fun converted =>
                          match converted with
                          | Some f16_file =>
                              if PyStr.is_empty f16_file
                              then bind (print "❌ Conversion failed. Exiting.")
                                        (fun _ => sys_exit 1)
                              else after_conversion sh fmt_mb exn_str
                                     f16_file (snd (fst config)) (snd config)
                          | None =>
                              bind (print "❌ Conversion failed. Exiting.")
                                   (fun _ => sys_exit 1)
                          end)))))))) s r cmds).
  { intros r cmds H. change cmds with ([] ++ cmds).
    eapply Ends_bind; [exact Eg | exact He |].
    cbn [fst snd]. do 5 talk. apply H. congruence. }
  apply Hgo. intros s6 Hf6. unfold convert_to_gguf. talk.
  apply (Ends_path_exists sh _ _ _ (fs s)); [exact Hf6|].
  destruct (Os.exists_in (fs s) convert_script) eqn:Hscript; cbn [negb].
  2:{ repeat talk. eapply Ends_pure; [reflexivity|]. cbv beta iota.
      talk. apply Ends_raise_last. }
  talk.
  destruct (PyStr.has_nul (convert_command model_path output_name)) eqn:Hnul.
  { apply Ends_run_nul. exact Hnul. }
  destruct (sh (convert_command model_path output_name) (fs s))
    as [[code| |errno] f'] eqn:Hsh.
  - apply (Ends_run_exited sh _ _ _ s6 (fs s) code f');
      [exact Hf6 | exact Hnul | exact Hsh |].
    intros s7 Hf7. talk.
    apply (Ends_path_exists sh _ _ _ f'); [exact Hf7|].
    destruct ((code =? 0)%Z && Os.exists_in f' (f16_file_of output_name))
      eqn:Hok; cbn [andb].
    + eapply Ends_pure; [reflexivity|]. cbv beta iota.
      rewrite f16_file_not_empty.
      apply andb_prop in Hok. destruct Hok as [_ Hex].
      apply (after_conversion_ends _ _ _ _ f' Hf7 Hex).
    + repeat talk. eapply Ends_pure; [reflexivity|]. cbv beta iota.
      talk. apply Ends_raise_last.
  - apply (Ends_run_interrupted sh _ _ _ s6 (fs s) f'); assumption.
  - apply (Ends_run_not_started sh _ _ _ s6 (fs s) errno f'); assumption.
Qed.

(** The handlers of [main] add their line and nothing else. *)
Lemma main_after_body s :
  fs (snd (main sh fmt_mb exn_str s))
  = fs (snd (main_body sh fmt_mb exn_str s))
  /\ trace (snd (main sh fmt_mb exn_str s))
     = trace (snd (main_body sh fmt_mb exn_str s))
       ++ farewell exn_str (verdict sh s).
Proof.
  destruct (main_body_ends s) as [Hr _].
  unfold main, try_except.
  destruct (main_body sh fmt_mb exn_str s) as [r sb]. cbn [fst snd] in *.
  subst r.
  destruct (verdict sh s); cbn; rewrite ?app_nil_r; split; reflexivity.
Qed.

Lemma commands_farewell e : commands (farewell exn_str e) = [].
Proof. destruct e; reflexivity. Qed.

(** What [main] has started and left on disk when it ends. *)
Lemma main_effect s :
  fs (snd (main sh fmt_mb exn_str s)) = replay sh (planned_commands sh s) (fs s)
  /\ commands (trace (snd (main sh fmt_mb exn_str s)))
     = commands (trace s) ++ planned_commands sh s.
Proof.
  destruct (main_after_body s) as [Hf Ht].
  destruct (main_body_ends s) as [_ [Hd [evs [Hb Hc]]]].
  split; [rewrite Hf; exact Hd|].
  rewrite Ht, Hb, !commands_app, Hc, commands_farewell, app_nil_r.
  reflexivity.
Qed.

Lemma run_effect s :
  fst (run sh fmt_mb exn_str s) = 1%Z
  /\ fs (snd (run sh fmt_mb exn_str s)) = replay sh (planned_commands sh s) (fs s)
  /\ commands (trace (snd (run sh fmt_mb exn_str s)))
     = commands (trace s) ++ planned_commands sh s.
Proof.
  split; [apply run_status_1|].
  pose proof (main_effect s) as H. unfold run.
  destruct (main sh fmt_mb exn_str s) as [r sf]. exact H.
Qed.

End WholeRunMain.

(** ** The conversion step (C4) *)

(** With the script in place, [convert_to_gguf] runs its command once and
    ends as the command and the test for the f16 file tell. *)
Lemma convert_to_gguf_result sh model_path output_name s :
  Os.exists_in (fs s) convert_script = true ->
  exists s',
    convert_to_gguf sh model_path output_name s
    = (if PyStr.has_nul (convert_command model_path output_name)
       then inl (ValueError "embedded null byte")
       else match sh (convert_command model_path output_name) (fs s) with
            | (Exited code, f') =>
                inr (if (code =? 0)%Z
                        && Os.exists_in f' (f16_file_of output_name)
                     then Some (f16_file_of output_name) else None)
            | (Interrupted, _) => inl KeyboardInterrupt
            | (NotStarted errno, _) => inl (OSError errno ["/bin/sh"])
            end, s')
    /\ fs s'
       = disk_after sh (convert_command model_path output_name) (fs s).
Proof.
  intros Hscript. unfold convert_to_gguf, disk_after.
  unfold bind at 1. unfold Os.path_exists at 1, bind at 1, get_fs, ret.
  rewrite Hscript. cbn [negb]. unfold bind at 1.
  destruct (PyStr.has_nul (convert_command model_path output_name)) eqn:Hnul.
  { destruct (run_command_nul sh (convert_command model_path output_name)
                ("Converting " ++ model_path ++ " to GGUF format") s Hnul)
      as [evs [-> _]]. eexists. split; reflexivity. }
  destruct (sh (convert_command model_path output_name) (fs s))
    as [[code| |errno] f'] eqn:Hsh.
  - destruct (run_command_exited sh _
                ("Converting " ++ model_path ++ " to GGUF format") s code f'
                Hnul Hsh) as [evs [-> _]].
    unfold Os.path_exists, bind, print, emit, get_fs, ret. cbv beta iota.
    cbn [fs].
    destruct ((code =? 0)%Z && Os.exists_in f' (f16_file_of output_name));
      eexists; split; reflexivity.
  - destruct (run_command_interrupted sh _
                ("Converting " ++ model_path ++ " to GGUF format") s f'
                Hnul Hsh) as [evs [-> _]]. eexists. split; reflexivity.
  - destruct (run_command_not_started sh _
                ("Converting " ++ model_path ++ " to GGUF format") s errno f'
                Hnul Hsh) as [evs [-> _]]. eexists. split; reflexivity.
Qed.

(** C4.  The conversion step succeeds exactly when its command is started,
    runs to exit status 0 and the file [<output-name>-f16.gguf] is on disk
    afterwards.  A command that exits, with 0 or not, without the file being
    there makes the step answer [None].  Whenever the step does not
    succeed, the process ends with status 1 and no quantization is
    attempted: the conversion command is the only command that was started,
    if it was started at all (it is not when it holds a NUL or the shell
    cannot be started), and the disk is as that command left it. *)
Theorem C4_conversion_needs_exit_0_and_file
    sh fmt_mb exn_str s model_path output_name selected_quants :
  fst (get_user_input s) = inr (model_path, output_name, selected_quants) ->
  Os.exists_in (fs s) convert_script = true ->
  let command := convert_command model_path output_name in
  let f16_file := f16_file_of output_name in
  let delivered :=
    PyStr.has_nul command = false
    /\ exists f', sh command (fs s) = (Exited 0, f')
                  /\ Os.exists_in f' f16_file = true in
  let started :=
    negb (PyStr.has_nul command)
    && match fst (sh command (fs s)) with
       | NotStarted _ => false
       | _ => true
       end in
  (forall s2, fs s2 = fs s ->
     fst (convert_to_gguf sh model_path output_name s2) = inr (Some f16_file)
     <-> delivered)
  /\ (forall s2 code f',
        fs s2 = fs s ->
        PyStr.has_nul command = false ->
        sh command (fs s) = (Exited code, f') ->
        ~ (code = 0%Z /\ Os.exists_in f' f16_file = true) ->
        fst (convert_to_gguf sh model_path output_name s2) = inr None
        /\ fs (snd (convert_to_gguf sh model_path output_name s2)) = f')
  /\ (~ delivered ->
      fst (run sh fmt_mb exn_str s) = 1%Z
      /\ fs (snd (run sh fmt_mb exn_str s)) = disk_after sh command (fs s)
      /\ commands (trace (snd (run sh fmt_mb exn_str s)))
         = commands (trace s) ++ (if started then [command] else [])).
Proof.
  intros Hcfg Hscript command f16_file delivered started.
  split; [|split].
  - intros s2 Hfs.
    destruct (convert_to_gguf_result sh model_path output_name s2)
      as [s' [Hr _]]; [rewrite Hfs; exact Hscript|].
    rewrite Hr, Hfs. cbn [fst]. fold command f16_file. unfold delivered.
    destruct (PyStr.has_nul command).
    { split; [discriminate | intros [H _]; discriminate H]. }
    destruct (sh command (fs s)) as [[code| |errno] f'].
    + destruct (Z.eqb_spec code 0) as [-> | Hne]; cbn [andb].
      * destruct (Os.exists_in f' f16_file) eqn:Hex.
        -- split; [|reflexivity]. intros _. split; [reflexivity|].
           exists f'. split; [reflexivity | exact Hex].
        -- split; [discriminate|]. intros [_ [f2 [[= <-] Hex2]]]. congruence.
      * split; [discriminate|]. intros [_ [f2 [[= H0 _] _]]]. congruence.
    + split; [discriminate|]. intros [_ [f2 [H _]]]. discriminate H.
    + split; [discriminate|]. intros [_ [f2 [H _]]]. discriminate H.
  - intros s2 code f' Hfs Hnul Hsh Hno.
    destruct (convert_to_gguf_result sh model_path output_name s2)
      as [s' [Hr Hd]]; [rewrite Hfs; exact Hscript|].
    rewrite Hr. cbn [fst snd]. rewrite Hd, Hfs. fold command f16_file.
    unfold disk_after. rewrite Hnul, Hsh. split; [|reflexivity].
    destruct (Z.eqb_spec code 0) as [-> | Hne]; cbn [andb]; [|reflexivity].
    destruct (Os.exists_in f' f16_file); [|reflexivity].
    exfalso. apply Hno. split; reflexivity.
  - intros Hno.
    destruct (run_effect sh fmt_mb exn_str s) as [H1 [Hd Hc]].
    assert (Hplan : planned_commands sh s = if started then [command] else []).
    { unfold planned_commands, started. rewrite Hcfg, Hscript.
      fold command f16_file.
      destruct (PyStr.has_nul command) eqn:Hnul; [reflexivity|].
      destruct (sh command (fs s)) as [[code| |errno] f'] eqn:Hsh;
        cbn [fst negb andb]; try reflexivity.
      destruct ((code =? 0)%Z && Os.exists_in f' f16_file) eqn:Hok;
        [|reflexivity].
      exfalso. apply Hno. split; [reflexivity|].
      apply andb_prop in Hok. destruct Hok as [Hc0 Hex].
      apply Z.eqb_eq in Hc0. subst code. exists f'. auto. }
    split; [exact H1|]. split.
    + rewrite Hd, Hplan. unfold started, replay, disk_after.
      destruct (PyStr.has_nul command) eqn:Hnul; [reflexivity|].
      destruct (sh command (fs s)) as [[code| |errno] f'] eqn:Hsh;
        cbn [fst negb andb fold_left]; unfold disk_after;
        rewrite ?Hnul, ?Hsh; reflexivity.
    + rewrite Hc, Hplan. reflexivity.
Qed.

(** The theorem at a converter that exits with 0 and writes nothing. *)
Lemma C4_conversion_witness :
  fst (Scenario.go false Scenario.silent_converter
         (Scenario.start Scenario.disk ["m"; EmptyString; "1"])) = 1%Z
  /\ commands (trace (snd (Scenario.go false Scenario.silent_converter
         (Scenario.start Scenario.disk ["m"; EmptyString; "1"]))))
     = [Scenario.convert_m].
Proof.
  pose proof (C4_conversion_needs_exit_0_and_file
                (Scenario.scripted false Scenario.silent_converter)
                Scenario.fmt_mb Scenario.exn_str
                (Scenario.start Scenario.disk ["m"; EmptyString; "1"])
                "m" "m" QUANTIZATION_TYPES) as H.
  cbv zeta in H. destruct H as [_ [_ H]].
  - vm_compute. reflexivity.
  - vm_compute. reflexivity.
  - destruct H as [H1 [_ H3]].
    + intros [_ [f' [Hsh Hex]]].
      assert (Hrun : Scenario.scripted false Scenario.silent_converter
                       (convert_command "m" "m")
                       (fs (Scenario.start Scenario.disk
                              ["m"; EmptyString; "1"]))
                     = (Exited 0, Scenario.disk))
        by by_running.
      assert (Hno : Os.exists_in Scenario.disk (f16_file_of "m") = false)
        by (vm_compute; reflexivity).
      rewrite Hrun in Hsh. injection Hsh as <-.
      rewrite Hno in Hex. discriminate Hex.
    + split; [exact H1 | exact H3].
Defined.

(** ** Further properties of the command runner *)

(** X1.  [run_command] starts its command line at most once, on the disk
    as it is, and does not read the input.  A command line that holds a NUL
    is not started: [ValueError] leaves [run_command], the disk untouched.
    Otherwise, a command that runs to its exit status leaves the disk it
    left, the answer is [True] exactly when the status is 0, and the last
    line printed tells the success or the return code; a command cut short
    by the interrupt key leaves the disk it left and [KeyboardInterrupt]
    leaves [run_command]; and when the shell cannot be started, [OSError]
    leaves it, the disk untouched. *)
Theorem X1_run_command_contract sh command description s :
  exists evs,
    trace (snd (run_command sh command description s)) = trace s ++ evs
    /\ stdin (snd (run_command sh command description s)) = stdin s
    /\ if PyStr.has_nul command then
         fst (run_command sh command description s)
         = inl (ValueError "embedded null byte")
         /\ fs (snd (run_command sh command description s)) = fs s
         /\ execs evs = []
       else
         match sh command (fs s) with
         | (Exited code, f') =>
             fst (run_command sh command description s) = inr (code =? 0)%Z
             /\ fs (snd (run_command sh command description s)) = f'
             /\ execs evs = [Exec command code]
             /\ List.last evs (Print EmptyString)
                = Print (if (code =? 0)%Z
                         then description ++ " completed successfully"
                         else "Command failed with return code: "
                              ++ PyStr.of_Z code)
         | (Interrupted, f') =>
             fst (run_command sh command description s) = inl KeyboardInterrupt
             /\ fs (snd (run_command sh command description s)) = f'
             /\ execs evs = [Killed command]
         | (NotStarted errno, _) =>
             fst (run_command sh command description s)
             = inl (OSError errno ["/bin/sh"])
             /\ fs (snd (run_command sh command description s)) = fs s
             /\ execs evs = []
         end.
Proof.
  destruct (PyStr.has_nul command) eqn:Hnul.
  { destruct (run_command_nul sh command description s Hnul)
      as [evs [-> [_ He]]]. exists evs. cbn [fst snd fs stdin trace]. repeat split; assumption. }
  destruct (sh command (fs s)) as [[code| |errno] f'] eqn:Hsh.
  - destruct (run_command_exited sh command description s code f' Hnul Hsh)
      as [evs [-> [_ [He Hl]]]]. exists evs. cbn [fst snd fs stdin trace]. repeat split; assumption.
  - destruct (run_command_interrupted sh command description s f' Hnul Hsh)
      as [evs [-> [_ He]]]. exists evs. cbn [fst snd fs stdin trace]. repeat split; assumption.
  - destruct (run_command_not_started sh command description s errno f'
                Hnul Hsh) as [evs [-> [_ He]]]. exists evs. cbn [fst snd fs stdin trace]. repeat split; assumption.
Qed.

(** ** Further properties of the conversion and quantization steps *)

(** X8.  Without the conversion script, [convert_to_gguf] fails at once and
    without side effects: it prints its two lines and returns [None]; no
    command is run, the disk and the input are left as they were. *)
Theorem X8_missing_script_no_side_effect sh model_path output_name s :
  Os.exists_in (fs s) convert_script = false ->
  convert_to_gguf sh model_path output_name s
  = (inr None,
     mkState (fs s) (stdin s)
       (trace s
        ++ [Print "❌ Conversion script not found: ./llama/convert_hf_to_gguf.py";
            Print "Make sure you're running this from the llama.cpp directory"])).
Proof.
  intros H. unfold convert_to_gguf, bind, Os.path_exists, get_fs, ret, print,
    emit. simpl. rewrite H. simpl. rewrite <- app_assoc. reflexivity.
Qed.

(** The theorem in a directory that holds the model and nothing else. *)
Lemma X8_missing_script_witness :
  fst (convert_to_gguf (Scenario.scripted false Scenario.all_fine) "m" "m"
         (mkState (<["m" := Node true 0]> ∅) [] []))
  = inr None.
Proof.
  rewrite (X8_missing_script_no_side_effect
             (Scenario.scripted false Scenario.all_fine) "m" "m"
             (mkState (<["m" := Node true 0]> ∅) [] [])).
  - reflexivity.
  - vm_compute. reflexivity.
Defined.

(** ** The quantization step (C5) *)

Lemma attempt_log_names sh f16_file output_name quant_types :
  forall f, all_exit sh f16_file output_name f quant_types = true ->
            map fst (attempt_log sh f16_file output_name f quant_types)
            = quant_types.
Proof.
  induction quant_types as [|q others IH]; intros f; cbn [all_exit attempt_log].
  - reflexivity.
  - destruct (PyStr.has_nul (quantize_command f16_file output_name q));
      [discriminate|].
    destruct (sh _ f) as [[code| |errno] f']; cbn [negb andb];
      try discriminate.
    intros H. cbn [map fst]. rewrite (IH f' H). reflexivity.
Qed.

Lemma partition_permutation {A} (p : A -> bool) (l : list A) :
  Permutation (List.filter p l ++ List.filter (fun x => negb (p x)) l) l.
Proof.
  induction l as [|x l IH]; simpl.
  - constructor.
  - destruct (p x); simpl.
    + constructor. exact IH.
    + rewrite <- Permutation_middle. constructor. exact IH.
Qed.

Lemma outcome_lists_permutation (log : list (string * bool)) :
  Permutation (succeeded_of log ++ failed_of log) (map fst log).
Proof.
  unfold succeeded_of, failed_of. rewrite <- map_app.
  apply Permutation_map, partition_permutation.
Qed.

Lemma succeeded_of_spec (log : list (string * bool)) q :
  q ∈ succeeded_of log <-> (q, true) ∈ log.
Proof.
  unfold succeeded_of. rewrite list_elem_of_fmap. split.
  - intros [[q' b] [-> Hin]]. apply list_elem_of_In, filter_In in Hin.
    destruct Hin as [Hin Hb]. simpl in *. subst b.
    apply list_elem_of_In. exact Hin.
  - intros Hin. exists (q, true). split; [reflexivity|].
    apply list_elem_of_In, filter_In. split; [|reflexivity].
    apply list_elem_of_In. exact Hin.
Qed.

Lemma failed_of_spec (log : list (string * bool)) q :
  q ∈ failed_of log <-> (q, false) ∈ log.
Proof.
  unfold failed_of. rewrite list_elem_of_fmap. split.
  - intros [[q' b] [-> Hin]]. apply list_elem_of_In, filter_In in Hin.
    destruct Hin as [Hin Hb]. simpl in *. destruct b; [discriminate|].
    apply list_elem_of_In. exact Hin.
  - intros Hin. exists (q, false). split; [reflexivity|].
    apply list_elem_of_In, filter_In. split; [|reflexivity].
    apply list_elem_of_In. exact Hin.
Qed.

Lemma outcome_lists_disjoint (log : list (string * bool)) :
  NoDup (map fst log) ->
  NoDup (succeeded_of log ++ failed_of log)
  /\ forall q, ~ (q ∈ succeeded_of log /\ q ∈ failed_of log).
Proof.
  intros Hnd.
  assert (H : NoDup (succeeded_of log ++ failed_of log)).
  { rewrite outcome_lists_permutation. exact Hnd. }
  split; [exact H|].
  intros q [Hs Hf]. apply NoDup_app in H. destruct H as [_ [Hdis _]].
  exact (Hdis q Hs Hf).
Qed.

Section Quantization.

Variable sh : string -> gmap string node -> outcome * gmap string node.
Variable fmt_mb : N -> string.

(** One turn of the loop whose command runs to an exit status. *)
Lemma quantize_each_step f16_file output_name q others
    successful_quants failed_quants s code f' :
  PyStr.has_nul (quantize_command f16_file output_name q) = false ->
  sh (quantize_command f16_file output_name q) (fs s) = (Exited code, f') ->
  exists s2,
    quantize_each sh fmt_mb f16_file output_name (q :: others)
                  successful_quants failed_quants s
    = quantize_each sh fmt_mb f16_file output_name others
        (if (code =? 0)%Z && Os.exists_in f' (quant_file_of output_name q)
         then successful_quants ++ [q] else successful_quants)
        (if (code =? 0)%Z && Os.exists_in f' (quant_file_of output_name q)
         then failed_quants else failed_quants ++ [q])
        s2
    /\ fs s2 = f'
    /\ stdin s2 = stdin s
    /\ exists evs, trace s2 = trace s ++ evs
                   /\ commands evs = [quantize_command f16_file output_name q].
Proof.
  intros Hnul Hsh. cbn [quantize_each].
  destruct (run_command_exited sh (quantize_command f16_file output_name q)
              ("Quantizing to " ++ q) s code f' Hnul Hsh)
    as [evs1 [Hrun [Hc1 _]]].
  unfold bind at 1. rewrite Hrun.
  unfold bind at 1, Os.path_exists, bind at 1, get_fs, ret. cbn [fs].
  destruct ((code =? 0)%Z
            && Os.exists_in f' (quant_file_of output_name q)) eqn:Hok.
  - assert (Hthere : Os.exists_in
                       (fs (mkState f' (stdin s) (trace s ++ evs1)))
                       (quant_file_of output_name q) = true).
    { apply andb_prop in Hok. destruct Hok as [_ He]. exact He. }
    destruct (getsize_exists _ _ Hthere) as [n Hn].
    unfold bind at 1. rewrite Hn. unfold bind at 1, print, emit.
    cbn [fs stdin trace].
    eexists. split; [reflexivity|]. cbn [fs stdin trace].
    split; [reflexivity|]. split; [reflexivity|].
    eexists. split; [rewrite <- app_assoc; reflexivity|].
    rewrite commands_app, Hc1. reflexivity.
  - eexists. split; [reflexivity|]. cbn [fs stdin trace].
    split; [reflexivity|]. split; [reflexivity|].
    exists evs1. auto.
Qed.

(** When every command runs to an exit status, the loop returns: it has
    run one command per entry, in order, and sorted the entries into the
    two lists by the outcome of each attempt.  Otherwise it raises. *)
Lemma quantize_each_result f16_file output_name quant_types :
  forall s successful_quants failed_quants,
    if all_exit sh f16_file output_name (fs s) quant_types then
      exists s',
        quantize_each sh fmt_mb f16_file output_name quant_types
                      successful_quants failed_quants s
        = (inr (successful_quants
                ++ succeeded_of (attempt_log sh f16_file output_name (fs s)
                                             quant_types),
                failed_quants
                ++ failed_of (attempt_log sh f16_file output_name (fs s)
                                          quant_types)), s')
        /\ stdin s' = stdin s
        /\ exists evs, trace s' = trace s ++ evs
                       /\ commands evs
                          = map (quantize_command f16_file output_name)
                                quant_types
    else
      exists e, fst (quantize_each sh fmt_mb f16_file output_name quant_types
                                   successful_quants failed_quants s) = inl e.
Proof.
  induction quant_types as [|q others IH]; intros s succ failed.
  - cbn. exists s. rewrite !app_nil_r. split; [reflexivity|].
    split; [reflexivity|]. exists []. rewrite app_nil_r. auto.
  - cbn [attempt_log all_exit].
    destruct (PyStr.has_nul (quantize_command f16_file output_name q)) eqn:Hnul;
      cbn [negb andb].
    { cbn [quantize_each].
      destruct (run_command_nul sh (quantize_command f16_file output_name q)
                  ("Quantizing to " ++ q) s Hnul) as [evs [Hrun _]].
      unfold bind at 1. rewrite Hrun. eexists. reflexivity. }
    destruct (sh (quantize_command f16_file output_name q) (fs s))
      as [[code| |errno] f'] eqn:Hsh.
    + destruct (quantize_each_step f16_file output_name q others succ failed
                  s code f' Hnul Hsh)
        as [s2 [Hstep [Hf2 [Hin2 [evs1 [Htr1 Hc1]]]]]].
      rewrite Hstep.
      match goal with
      | |- context [quantize_each _ _ _ _ _ ?a ?b s2] =>
          specialize (IH s2 a b)
      end.
      rewrite Hf2 in IH.
      destruct (all_exit sh f16_file output_name f' others); [|exact IH].
      destruct IH as [s' [Heq [Hin [evs2 [Htr Hc2]]]]].
      exists s'. rewrite Heq. unfold succeeded_of, failed_of in *.
      cbn [List.filter snd map negb fst].
      destruct ((code =? 0)%Z
                && Os.exists_in f' (quant_file_of output_name q));
        cbn [List.filter snd map negb fst]; rewrite <- ?app_assoc;
        (split; [reflexivity|]); (split; [congruence|]);
        exists (evs1 ++ evs2);
        (split; [rewrite Htr, Htr1, app_assoc; reflexivity|]);
        rewrite commands_app, Hc1, Hc2; reflexivity.
    + cbn [quantize_each].
      destruct (run_command_interrupted sh
                  (quantize_command f16_file output_name q)
                  ("Quantizing to " ++ q) s f' Hnul Hsh) as [evs [Hrun _]].
      unfold bind at 1. rewrite Hrun. eexists. reflexivity.
    + cbn [quantize_each].
      destruct (run_command_not_started sh
                  (quantize_command f16_file output_name q)
                  ("Quantizing to " ++ q) s errno f' Hnul Hsh)
        as [evs [Hrun _]].
      unfold bind at 1. rewrite Hrun. eexists. reflexivity.
Qed.

(** With the quantizer, [quantize_model] returns what its loop returns. *)
Lemma quantize_model_with_quantizer f16_file output_name quant_types s :
  Os.exists_in (fs s) quantizer = true ->
  quantize_model sh fmt_mb f16_file output_name quant_types s
  = match quantize_each sh fmt_mb f16_file output_name quant_types [] [] s with
    | (inr lists, s') => (inr (PyPair (fst lists) (snd lists)), s')
    | (inl e, s') => (inl e, s')
    end.
Proof.
  intros Hq.
  unfold quantize_model, bind at 1, Os.path_exists, bind at 1, get_fs, ret.
  rewrite Hq. cbn [negb]. unfold bind.
  destruct (quantize_each sh fmt_mb f16_file output_name quant_types [] [] s)
    as [[e|lists] s']; reflexivity.
Qed.

Lemma quantize_model_run f16_file output_name quant_types s :
  Os.exists_in (fs s) quantizer = true ->
  all_exit sh f16_file output_name (fs s) quant_types = true ->
  exists s',
    quantize_model sh fmt_mb f16_file output_name quant_types s
    = (inr (PyPair
              (succeeded_of (attempt_log sh f16_file output_name (fs s)
                                         quant_types))
              (failed_of (attempt_log sh f16_file output_name (fs s)
                                      quant_types))), s')
    /\ exists evs, trace s' = trace s ++ evs
                   /\ commands evs
                      = map (quantize_command f16_file output_name) quant_types.
Proof.
  intros Hq Hall.
  pose proof (quantize_each_result f16_file output_name quant_types s [] [])
    as H.
  rewrite Hall in H. destruct H as [s' [Heq [_ Htr]]].
  exists s'. split; [|exact Htr].
  rewrite (quantize_model_with_quantizer _ _ _ _ Hq), Heq. reflexivity.
Qed.

(** [quantize_model] returns its two lists only when the quantizer is
    there and every command has run to an exit status. *)
Lemma quantize_model_returned f16_file output_name quant_types s
    successful_quants failed_quants :
  fst (quantize_model sh fmt_mb f16_file output_name quant_types s)
  = inr (PyPair successful_quants failed_quants) ->
  all_exit sh f16_file output_name (fs s) quant_types = true
  /\ successful_quants
     = succeeded_of (attempt_log sh f16_file output_name (fs s) quant_types)
  /\ failed_quants
     = failed_of (attempt_log sh f16_file output_name (fs s) quant_types).
Proof.
  intros H.
  destruct (Os.exists_in (fs s) quantizer) eqn:Hq.
  - rewrite (quantize_model_with_quantizer _ _ _ _ Hq) in H.
    pose proof (quantize_each_result f16_file output_name quant_types s [] [])
      as Hres.
    destruct (all_exit sh f16_file output_name (fs s) quant_types).
    + destruct Hres as [s' [Heq _]]. rewrite Heq in H. cbn in H.
      injection H as <- <-. auto.
    + destruct Hres as [e He].
      destruct (quantize_each sh fmt_mb f16_file output_name quant_types [] [] s)
        as [[e'|lists] s']; cbn in *; discriminate.
  - rewrite quantize_model_without_quantizer in H by exact Hq.
    discriminate H.
Qed.

End Quantization.

(** C5, as the claim words it, fails when a profile is selected twice: with
    a quantizer that does not write over an existing file, the first
    attempt at [Q4_0] succeeds and the second fails, and [Q4_0] is in both
    returned lists. *)
Lemma C5_same_profile_in_both_lists :
  Os.exists_in Scenario.disk_converted quantizer = true
  /\ fst (quantize_model (Scenario.scripted true Scenario.all_fine)
            Scenario.fmt_mb "m-f16.gguf" "m" ["Q4_0"; "Q4_0"]
            (mkState Scenario.disk_converted [] []))
     = inr (PyPair ["Q4_0"] ["Q4_0"])
  /\ ~ (forall q : string, q ∈ ["Q4_0"] -> q ∉ ["Q4_0"]).
Proof.
  split; [vm_compute; reflexivity|].
  split; [vm_compute; reflexivity|].
  intros H. apply (H "Q4_0"); constructor.
Qed.

(** C5, amended.  With the quantizer in place, and when every command is
    started and runs to an exit status (no command line holds a NUL, the
    shell can be started, the interrupt key is not pressed), the
    quantization step runs one command per selected entry, in the selected
    order and whatever the earlier outcomes; an attempt is recorded as
    succeeded when its command exits with 0 and its output file exists, as
    failed otherwise; the two returned lists together are a rearrangement
    of the selected entries; and when no profile is selected twice the
    lists are disjoint, each profile being in exactly one of them. *)
Theorem C5_quantize_model_outcomes
    sh fmt_mb f16_file output_name quant_types s :
  Os.exists_in (fs s) quantizer = true ->
  all_exit sh f16_file output_name (fs s) quant_types = true ->
  let log := attempt_log sh f16_file output_name (fs s) quant_types in
  exists s',
    quantize_model sh fmt_mb f16_file output_name quant_types s
    = (inr (PyPair (succeeded_of log) (failed_of log)), s')
    /\ map fst log = quant_types
    /\ (exists evs, trace s' = trace s ++ evs
                    /\ commands evs
                       = map (quantize_command f16_file output_name) quant_types)
    /\ (forall q, q ∈ succeeded_of log <-> (q, true) ∈ log)
    /\ (forall q, q ∈ failed_of log <-> (q, false) ∈ log)
    /\ Permutation (succeeded_of log ++ failed_of log) quant_types
    /\ (NoDup quant_types ->
        NoDup (succeeded_of log ++ failed_of log)
        /\ forall q, ~ (q ∈ succeeded_of log /\ q ∈ failed_of log)).
Proof.
  intros Hq Hall log.
  destruct (quantize_model_run sh fmt_mb f16_file output_name quant_types s
              Hq Hall) as [s' [Heq Htr]].
  exists s'. split; [exact Heq|].
  pose proof (attempt_log_names sh f16_file output_name quant_types (fs s) Hall)
    as Hnames.
  fold log in Hnames.
  split; [exact Hnames|]. split; [exact Htr|].
  split; [apply succeeded_of_spec|]. split; [apply failed_of_spec|].
  split.
  - rewrite <- Hnames. apply outcome_lists_permutation.
  - intros Hnd. apply outcome_lists_disjoint. rewrite Hnames. exact Hnd.
Qed.

(** The theorem at three distinct profiles of which the second fails. *)
Lemma C5_quantize_model_witness :
  exists s',
    quantize_model (Scenario.scripted false Scenario.q4_1_fails)
      Scenario.fmt_mb "m-f16.gguf" "m" ["Q4_0"; "Q4_1"; "Q8_0"]
      (mkState Scenario.disk_converted [] [])
    = (inr (PyPair ["Q4_0"; "Q8_0"] ["Q4_1"]), s').
Proof.
  destruct (C5_quantize_model_outcomes
              (Scenario.scripted false Scenario.q4_1_fails) Scenario.fmt_mb
              "m-f16.gguf" "m" ["Q4_0"; "Q4_1"; "Q8_0"]
              (mkState Scenario.disk_converted [] []))
    as [s' [H _]].
  - vm_compute. reflexivity.
  - vm_compute. reflexivity.
  - exists s'. rewrite H. vm_compute. reflexivity.
Defined.

(** X9.  The test for the output file cannot tell a fresh file from a
    stale one: when a file of the profile's name is on disk already and the
    quantizer, started with a command line that holds no NUL, exits with 0
    without touching the disk, the profile is recorded as succeeded. *)
Theorem X9_stale_output_counts_as_success
    sh fmt_mb f16_file output_name q s :
  Os.exists_in (fs s) quantizer = true ->
  PyStr.has_nul (quantize_command f16_file output_name q) = false ->
  sh (quantize_command f16_file output_name q) (fs s) = (Exited 0, fs s) ->
  Os.exists_in (fs s) (quant_file_of output_name q) = true ->
  fst (quantize_model sh fmt_mb f16_file output_name [q] s)
  = inr (PyPair [q] []).
Proof.
  intros Hq Hnul Hsh Hthere.
  destruct (quantize_model_run sh fmt_mb f16_file output_name [q] s Hq)
    as [s' [Heq _]].
  - cbn [all_exit]. rewrite Hnul, Hsh. reflexivity.
  - rewrite Heq. cbn [attempt_log fst]. rewrite Hnul, Hsh, Hthere. reflexivity.
Qed.

(** The theorem with a quantizer that exits with 0 and writes nothing, in
    a directory where [m-Q4_0.gguf] is left from an earlier run. *)
Lemma X9_stale_output_witness :
  fst (quantize_model
         (Scenario.scripted false [(Scenario.quantize_m "Q4_0", (0%Z, []))])
         Scenario.fmt_mb "m-f16.gguf" "m" ["Q4_0"]
         (mkState Scenario.disk_all_fine [] []))
  = inr (PyPair ["Q4_0"] []).
Proof.
  apply X9_stale_output_counts_as_success.
  - vm_compute. reflexivity.
  - vm_compute. reflexivity.
  - reflexivity.
  - vm_compute. reflexivity.
Defined.

Lemma succeeded_of_sublist (log : list (string * bool)) :
  succeeded_of log `sublist_of` map fst log.
Proof.
  unfold succeeded_of. induction log as [|[q b] log IH]; simpl.
  - constructor.
  - destruct b; simpl; [apply sublist_skip | apply sublist_cons]; exact IH.
Qed.

Lemma failed_of_sublist (log : list (string * bool)) :
  failed_of log `sublist_of` map fst log.
Proof.
  unfold failed_of. induction log as [|[q b] log IH]; simpl.
  - constructor.
  - destruct b; simpl; [apply sublist_cons | apply sublist_skip]; exact IH.
Qed.

(** X10.  Whenever [quantize_model] returns its two lists, each of them
    holds its profiles in the order they were selected, and together they
    have as many entries as the selection. *)
Theorem X10_lists_keep_selected_order
    sh fmt_mb f16_file output_name quant_types s successful_quants failed_quants :
  fst (quantize_model sh fmt_mb f16_file output_name quant_types s)
  = inr (PyPair successful_quants failed_quants) ->
  successful_quants `sublist_of` quant_types
  /\ failed_quants `sublist_of` quant_types
  /\ length successful_quants + length failed_quants = length quant_types.
Proof.
  intros H. apply quantize_model_returned in H. destruct H as [Hall [-> ->]].
  pose proof (attempt_log_names sh f16_file output_name quant_types (fs s) Hall)
    as Hnames.
  split; [rewrite <- Hnames at 2; apply succeeded_of_sublist|].
  split; [rewrite <- Hnames at 2; apply failed_of_sublist|].
  rewrite <- length_app.
  rewrite (Permutation_length (outcome_lists_permutation _)).
  rewrite Hnames. reflexivity.
Qed.

(** The theorem at three profiles of which the second fails. *)
Lemma X10_lists_witness :
  ["Q4_0"; "Q8_0"] `sublist_of` ["Q4_0"; "Q4_1"; "Q8_0"]
  /\ ["Q4_1"] `sublist_of` ["Q4_0"; "Q4_1"; "Q8_0"]
  /\ length ["Q4_0"; "Q8_0"] + length ["Q4_1"]
     = length ["Q4_0"; "Q4_1"; "Q8_0"].
Proof.
  apply (X10_lists_keep_selected_order
           (Scenario.scripted false Scenario.q4_1_fails) Scenario.fmt_mb
           "m-f16.gguf" "m" ["Q4_0"; "Q4_1"; "Q8_0"]
           (mkState Scenario.disk_converted [] [])).
  vm_compute. reflexivity.
Defined.

(** ** The selection of profiles (C6, C7, C8, C10) *)

Lemma str_in_spec t (l : list string) : str_in t l = true <-> t ∈ l.
Proof.
  unfold str_in. rewrite existsb_exists. split.
  - intros [x [Hin Heq]]. apply String.eqb_eq in Heq. subst x.
    apply list_elem_of_In. exact Hin.
  - intros Hin. exists t. split; [apply list_elem_of_In; exact Hin|].
    apply String.eqb_refl.
Qed.

Lemma split_not_nil sep s : PyStr.split sep s <> [].
Proof.
  destruct s as [|a s']; simpl; [discriminate|].
  destruct (Ascii.eqb a sep); [discriminate|].
  destruct (PyStr.split sep s'); discriminate.
Qed.

Lemma custom_types_of_not_nil custom_input : custom_types_of custom_input <> [].
Proof.
  unfold custom_types_of. intros H. apply map_eq_nil in H.
  exact (split_not_nil _ _ H).
Qed.

Lemma invalid_types_of_spec custom_types t :
  t ∈ invalid_types_of custom_types
  <-> t ∈ custom_types /\ t ∉ QUANTIZATION_TYPES.
Proof.
  unfold invalid_types_of. rewrite list_elem_of_In, filter_In.
  rewrite <- list_elem_of_In, negb_true_iff. split.
  - intros [Hin Hf]. split; [exact Hin|].
    intros Habs. apply str_in_spec in Habs. congruence.
  - intros [Hin Hn]. split; [exact Hin|].
    destruct (str_in t QUANTIZATION_TYPES) eqn:E; [|reflexivity].
    exfalso. apply Hn, str_in_spec, E.
Qed.

Lemma invalid_types_of_nil custom_types :
  invalid_types_of custom_types = [] ->
  forall t, t ∈ custom_types -> t ∈ QUANTIZATION_TYPES.
Proof.
  intros Hnil t Hin.
  destruct (str_in t QUANTIZATION_TYPES) eqn:E; [apply str_in_spec; exact E|].
  assert (Hbad : t ∈ invalid_types_of custom_types).
  { apply invalid_types_of_spec. split; [exact Hin|].
    rewrite <- str_in_spec, E. discriminate. }
  rewrite Hnil in Hbad. inversion Hbad.
Qed.

Lemma all_valid_none_invalid custom_types :
  (forall t, t ∈ custom_types -> t ∈ QUANTIZATION_TYPES) ->
  invalid_types_of custom_types = [].
Proof.
  intros Hvalid.
  destruct (invalid_types_of custom_types) as [|bad others] eqn:Hinv;
    [reflexivity|].
  assert (Hbad : bad ∈ invalid_types_of custom_types)
    by (rewrite Hinv; constructor).
  apply invalid_types_of_spec in Hbad. destruct Hbad as [Hin Hout].
  exfalso. apply Hout, Hvalid, Hin.
Qed.

Lemma is_empty_spec s : PyStr.is_empty s = true <-> s = EmptyString.
Proof. destruct s; split; intros H; try reflexivity; discriminate H. Qed.

Lemma is_empty_false s : PyStr.is_empty s = false <-> s <> EmptyString.
Proof.
  destruct s; split; intros H; try reflexivity; try discriminate H.
  - contradiction.
  - discriminate.
Qed.

(** A line of names that are all valid, typed in mode 2, is accepted. *)
Lemma ask_quants_accepts l1 l2 rest :
  PyStr.strip l1 = "2" ->
  PyStr.strip l2 <> EmptyString ->
  (forall t, t ∈ custom_types_of (PyStr.strip l2) -> t ∈ QUANTIZATION_TYPES) ->
  ask_quants (Line l1 :: Line l2 :: rest)
  = (inr (custom_types_of (PyStr.strip l2)), rest,
     (Prompt Text.option_prompt :: listing)
     ++ [Print ("✅ Selected: "
                ++ PyStr.join ", " (custom_types_of (PyStr.strip l2)))]).
Proof.
  intros H2 Hne Hvalid. cbn [ask_quants]. rewrite H2.
  cbn [PyStr.is_empty String.eqb Ascii.eqb orb Bool.eqb andb].
  apply is_empty_false in Hne. rewrite Hne.
  rewrite (all_valid_none_invalid _ Hvalid). reflexivity.
Qed.

(** What the selection loop returns it makes of the lines of its last
    turn: the whole fixed list for a line that is empty or [1], or for [2]
    followed by an empty line; the names typed, all valid, for [2]
    followed by a line of names. *)
Lemma ask_quants_last_turn inp selected_quants :
  fst (fst (ask_quants inp)) = inr selected_quants ->
  exists before turn,
    inp = before ++ turn ++ snd (fst (ask_quants inp))
    /\ ((exists l, turn = [Line l]
                   /\ (PyStr.strip l = EmptyString \/ PyStr.strip l = "1")
                   /\ selected_quants = QUANTIZATION_TYPES)
        \/ (exists l1 l2,
              turn = [Line l1; Line l2]
              /\ PyStr.strip l1 = "2"
              /\ ((PyStr.strip l2 = EmptyString
                   /\ selected_quants = QUANTIZATION_TYPES)
                  \/ (PyStr.strip l2 <> EmptyString
                      /\ selected_quants = custom_types_of (PyStr.strip l2)
                      /\ forall t, t ∈ selected_quants
                                   -> t ∈ QUANTIZATION_TYPES)))).
Proof.
  induction inp as [inp IH] using input_ind.
  assert (Hlater : forall used rest,
             inp = used ++ rest -> length rest < length inp ->
             fst (fst (ask_quants rest)) = inr selected_quants ->
             exists before turn,
               inp = before ++ turn ++ snd (fst (ask_quants rest))
               /\ ((exists l, turn = [Line l]
                      /\ (PyStr.strip l = EmptyString \/ PyStr.strip l = "1")
                      /\ selected_quants = QUANTIZATION_TYPES)
                   \/ (exists l1 l2,
                         turn = [Line l1; Line l2]
                         /\ PyStr.strip l1 = "2"
                         /\ ((PyStr.strip l2 = EmptyString
                              /\ selected_quants = QUANTIZATION_TYPES)
                             \/ (PyStr.strip l2 <> EmptyString
                                 /\ selected_quants
                                    = custom_types_of (PyStr.strip l2)
                                 /\ forall t, t ∈ selected_quants
                                              -> t ∈ QUANTIZATION_TYPES))))).
  { intros used rest -> Hlt H. apply IH in H; [|exact Hlt].
    destruct H as [before [turn [Heq H]]].
    exists (used ++ before), turn. split; [|exact H].
    rewrite <- app_assoc. f_equal. exact Heq. }
  destruct inp as [|[l| |why] rest]; cbn [ask_quants]; try discriminate.
  - destruct (PyStr.is_empty (PyStr.strip l) || String.eqb (PyStr.strip l) "1")
      eqn:H1.
    { intros [= <-]. exists [], [Line l]. split; [reflexivity|]. left.
      exists l. split; [reflexivity|]. split; [|reflexivity].
      apply orb_prop in H1. destruct H1 as [H1 | H1];
        [left; apply is_empty_spec | right; apply String.eqb_eq]; exact H1. }
    destruct (String.eqb (PyStr.strip l) "2") eqn:H2.
    + apply String.eqb_eq in H2.
      destruct rest as [|[l2| |why] rest']; try discriminate.
      * destruct (PyStr.is_empty (PyStr.strip l2)) eqn:Hempty.
        { intros [= <-]. exists [], [Line l; Line l2].
          split; [reflexivity|]. right. exists l, l2.
          split; [reflexivity|]. split; [exact H2|]. left.
          split; [apply is_empty_spec; exact Hempty | reflexivity]. }
        destruct (invalid_types_of (custom_types_of (PyStr.strip l2)))
          eqn:Hinv.
        -- intros [= <-]. exists [], [Line l; Line l2].
           split; [reflexivity|]. right. exists l, l2.
           split; [reflexivity|]. split; [exact H2|]. right.
           split; [apply is_empty_false; exact Hempty|].
           split; [reflexivity|]. apply invalid_types_of_nil. exact Hinv.
        -- rewrite said_result, said_rest.
           apply (Hlater [Line l; Line l2]); [reflexivity | simpl; lia].
      * rewrite said_result, said_rest.
        apply (Hlater [Line l; Garbled why]); [reflexivity | simpl; lia].
    + rewrite said_result, said_rest.
      apply (Hlater [Line l]); [reflexivity | simpl; lia].
  - rewrite said_result, said_rest.
    apply (Hlater [Garbled why]); [reflexivity | simpl; lia].
Qed.

(** The selection that [get_user_input] returns is the one its second loop
    made on what the first two questions left of the input, and what it
    leaves of the input is what that loop left. *)
Lemma get_user_input_selection s model_path output_name selected_quants :
  fst (get_user_input s) = inr (model_path, output_name, selected_quants) ->
  exists used inp,
    stdin s = used ++ inp
    /\ fst (fst (ask_quants inp)) = inr selected_quants
    /\ stdin (snd (get_user_input s)) = snd (fst (ask_quants inp)).
Proof.
  intros H. destruct (get_user_input s) as [r sf] eqn:E. simpl in H. subst r.
  unfold get_user_input in E.
  do 9 (apply Quiet_bind_inr in E; [|solve [quiet]];
          let x := fresh "x" in
          let s1 := fresh "s" in
          let Hsuf := fresh "Hsuf" in
          destruct E as [x [s1 [_ [E [_ Hsuf]]]]]).
  apply bind_inr in E. destruct E as [sel [s' [Hsel Hret]]].
  unfold ret in Hret. injection Hret as <- <- <- <-.
  match type of Hsel with converse _ ?before = _ =>
    assert (Hsuffix : stdin before `suffix_of` stdin s)
      by (repeat (etrans; [eassumption|]); reflexivity);
    destruct Hsuffix as [used Hused];
    exists used, (stdin before)
  end.
  split; [exact Hused|].
  unfold converse in Hsel.
  match type of Hsel with
  | context [ask_quants ?inp] => destruct (ask_quants inp) as [[v rest] evs]
  end.
  cbn [fst snd]. injection Hsel as -> <-. cbn [stdin]. auto.
Qed.

Lemma ask_quants_prompts_first inp :
  exists evs, snd (ask_quants inp) = Prompt Text.option_prompt :: evs.
Proof.
  destruct inp as [|[l| |why] rest]; cbn [ask_quants snd]; eauto.
  - destruct (PyStr.is_empty (PyStr.strip l) || String.eqb (PyStr.strip l) "1");
      [cbn [snd]; eauto|].
    destruct (String.eqb (PyStr.strip l) "2").
    + destruct rest as [|[l2| |why] rest']; cbn [snd]; eauto.
      * destruct (PyStr.is_empty (PyStr.strip l2)); [cbn [snd]; eauto|].
        destruct (invalid_types_of _); [cbn [snd]; eauto|].
        rewrite said_unfold. cbn [snd app]. eauto.
      * rewrite said_unfold. cbn [snd app]. eauto.
    + rewrite said_unfold. cbn [snd app]. eauto.
  - rewrite said_unfold. cbn [snd app]. eauto.
Qed.

(** C6.  In mode 2, a non-empty line holding at least one name that, once
    stripped and uppercased, is not one of the twelve is rejected as a
    whole: the loop prints the offending names, joined with a comma and a
    blank, after the words [Invalid quantization types], then the full
    valid list, and asks for the mode again; what it finally selects is
    what it selects from the rest of the input, whatever valid names the
    line held. *)
Theorem C6_mixed_list_rejected l1 l2 rest :
  PyStr.strip l1 = "2" ->
  PyStr.is_empty (PyStr.strip l2) = false ->
  (exists t, t ∈ custom_types_of (PyStr.strip l2) /\ t ∉ QUANTIZATION_TYPES) ->
  let invalid_types := invalid_types_of (custom_types_of (PyStr.strip l2)) in
  let rejection :=
    Prompt Text.option_prompt
    :: listing
    ++ [Print ("❌ Invalid quantization types: "
               ++ PyStr.join ", " invalid_types);
        Print "Valid types: Q2_K, Q3_K_S, Q3_K_M, Q3_K_L, Q4_K_S, Q4_0, Q4_1, Q4_K_M, Q5_K_S, Q5_K_M, Q6_K, Q8_0"] in
  ask_quants (Line l1 :: Line l2 :: rest) = said rejection (ask_quants rest)
  /\ fst (fst (ask_quants (Line l1 :: Line l2 :: rest)))
     = fst (fst (ask_quants rest))
  /\ (forall f tr,
        converse (fun _ => ask_quants) (mkState f (Line l1 :: Line l2 :: rest) tr)
        = converse (fun _ => ask_quants) (mkState f rest (tr ++ rejection)))
  /\ invalid_types <> []
  /\ (forall t, t ∈ invalid_types
                <-> t ∈ custom_types_of (PyStr.strip l2)
                    /\ t ∉ QUANTIZATION_TYPES)
  /\ (exists evs,
        snd (ask_quants rest)
        = Prompt (PyStr.nl
                  ++ "Select option (1-2, or press Enter for default): ")
          :: evs).
Proof.
  intros H2 Hne [t [Hin Hbad]] invalid_types rejection.
  assert (Hsome : invalid_types <> []).
  { intros Hnil. apply Hbad.
    apply (invalid_types_of_nil (custom_types_of (PyStr.strip l2)) Hnil t Hin). }
  assert (Heq : ask_quants (Line l1 :: Line l2 :: rest)
                = said rejection (ask_quants rest)).
  { cbn [ask_quants]. rewrite H2, Hne.
    cbn [PyStr.is_empty String.eqb Ascii.eqb orb Bool.eqb andb].
    fold invalid_types.
    destruct invalid_types as [|bad others] eqn:Hinv; [contradiction|].
    reflexivity. }
  split; [exact Heq|].
  split; [rewrite Heq; apply said_result|].
  split.
  { intros f tr. unfold converse. cbn [fs stdin trace]. rewrite Heq.
    destruct (ask_quants rest) as [[v rest'] evs]. cbn [said].
    rewrite <- app_assoc. reflexivity. }
  split; [exact Hsome|].
  split; [intros t'; apply invalid_types_of_spec|].
  apply ask_quants_prompts_first.
Qed.

(** The theorem at the line [Q4_K_M,Q9_X], typed after choosing mode 2. *)
Lemma C6_mixed_list_witness :
  fst (fst (ask_quants [Line "2"; Line "Q4_K_M,Q9_X"; Line "1"]))
  = inr QUANTIZATION_TYPES.
Proof.
  pose proof (C6_mixed_list_rejected "2" "Q4_K_M,Q9_X" [Line "1"]) as H.
  cbv zeta in H. destruct H as [_ [H _]].
  - vm_compute. reflexivity.
  - vm_compute. reflexivity.
  - exists "Q9_X". split.
    + apply (bool_decide_unpack _). vm_compute. exact I.
    + intros Hin. apply str_in_spec in Hin. vm_compute in Hin. discriminate Hin.
  - rewrite H. vm_compute. reflexivity.
Defined.

(** C8.  A line that is empty once stripped, typed at the mode prompt,
    does what the line [1] does: the selection is the fixed list, which has
    twelve entries. *)
Theorem C8_empty_choice_is_mode_1 l rest :
  PyStr.is_empty (PyStr.strip l) = true ->
  ask_quants (Line l :: rest) = ask_quants (Line "1" :: rest)
  /\ ask_quants (Line l :: rest)
     = (inr QUANTIZATION_TYPES, rest,
        [Prompt Text.option_prompt; Print (Text.selected_all 12)])
  /\ length QUANTIZATION_TYPES = 12
  /\ (forall f tr,
        converse (fun _ => ask_quants) (mkState f (Line l :: rest) tr)
        = converse (fun _ => ask_quants) (mkState f (Line "1" :: rest) tr)).
Proof.
  intros H.
  assert (Heq : ask_quants (Line l :: rest)
                = (inr QUANTIZATION_TYPES, rest,
                   [Prompt Text.option_prompt; Print (Text.selected_all 12)])).
  { cbn [ask_quants]. rewrite H. reflexivity. }
  assert (H1 : ask_quants (Line "1" :: rest)
                = (inr QUANTIZATION_TYPES, rest,
                   [Prompt Text.option_prompt; Print (Text.selected_all 12)])).
  { cbn [ask_quants].
    replace (PyStr.strip "1") with "1" by (vm_compute; reflexivity).
    reflexivity. }
  split; [rewrite Heq, H1; reflexivity|].
  split; [exact Heq|].
  split; [reflexivity|].
  intros f tr. unfold converse. cbn [fs stdin trace]. rewrite Heq, H1.
  reflexivity.
Qed.

(** The theorem at the empty line. *)
Lemma C8_empty_choice_witness :
  ask_quants [Line EmptyString] = ask_quants [Line "1"].
Proof.
  destruct (C8_empty_choice_is_mode_1 EmptyString []) as [H _].
  - reflexivity.
  - exact H.
Defined.

(** C10.  Whenever the input collector returns, the selection is not empty
    and each of its names is one of the twelve. *)
Theorem C10_selection_nonempty_and_valid
    s model_path output_name selected_quants :
  fst (get_user_input s) = inr (model_path, output_name, selected_quants) ->
  selected_quants <> []
  /\ forall q, q ∈ selected_quants -> q ∈ QUANTIZATION_TYPES.
Proof.
  intros H. apply get_user_input_selection in H.
  destruct H as [used [inp [_ [H _]]]]. apply ask_quants_last_turn in H.
  destruct H as [before [turn [_ H]]].
  destruct H as [[l [_ [_ ->]]]
                | [l1 [l2 [_ [_ [[_ ->] | [_ [-> Hvalid]]]]]]]].
  - split; [discriminate | auto].
  - split; [discriminate | auto].
  - split; [apply custom_types_of_not_nil | exact Hvalid].
Qed.

(** The theorem at a run that selects two profiles by name. *)
Lemma C10_selection_witness :
  ["Q4_K_M"; "Q8_0"] <> []
  /\ forall q, q ∈ ["Q4_K_M"; "Q8_0"] -> q ∈ QUANTIZATION_TYPES.
Proof.
  apply (C10_selection_nonempty_and_valid
           (Scenario.start Scenario.disk ["m"; EmptyString; "2"; "q4_k_m, Q8_0"])
           "m" "m").
  vm_compute. reflexivity.
Defined.

(** C7, as the claim words it, fails: a name typed twice in mode 2 is
    selected twice. *)
Lemma C7_duplicate_accepted :
  fst (get_user_input
         (Scenario.start Scenario.disk ["m"; EmptyString; "2"; "Q4_0,q4_0"]))
  = inr ("m", "m", ["Q4_0"; "Q4_0"])
  /\ ~ NoDup ["Q4_0"; "Q4_0"].
Proof.
  split; [vm_compute; reflexivity|].
  intros H. apply NoDup_cons in H. destruct H as [H _].
  apply H. constructor.
Qed.

(** C7, amended.  The selection that the input collector returns is an
    ordered list, made of the lines of the last turn of the selection loop:
    the fixed list of twelve names, which has no duplicates, when that turn
    was one line that is empty or [1], or the line [2] followed by an empty
    line; and, when it was the line [2] followed by a line of names, exactly
    the names of that line, stripped and uppercased, in the order typed and
    with every repetition kept, all of them valid.  And a line of names
    that are all valid, typed in mode 2, is accepted with exactly those
    names. *)
Theorem C7_selection_is_fixed_list_or_typed_names
    s model_path output_name selected_quants :
  fst (get_user_input s) = inr (model_path, output_name, selected_quants) ->
  NoDup QUANTIZATION_TYPES
  /\ (exists before turn,
        stdin s = before ++ turn ++ stdin (snd (get_user_input s))
        /\ ((exists l, turn = [Line l]
                       /\ (PyStr.strip l = EmptyString \/ PyStr.strip l = "1")
                       /\ selected_quants = QUANTIZATION_TYPES)
            \/ (exists l1 l2,
                  turn = [Line l1; Line l2]
                  /\ PyStr.strip l1 = "2"
                  /\ ((PyStr.strip l2 = EmptyString
                       /\ selected_quants = QUANTIZATION_TYPES)
                      \/ (PyStr.strip l2 <> EmptyString
                          /\ selected_quants = custom_types_of (PyStr.strip l2)
                          /\ forall t, t ∈ selected_quants
                                       -> t ∈ QUANTIZATION_TYPES)))))
  /\ (forall l1 l2 rest,
        PyStr.strip l1 = "2" ->
        PyStr.strip l2 <> EmptyString ->
        (forall t, t ∈ custom_types_of (PyStr.strip l2)
                   -> t ∈ QUANTIZATION_TYPES) ->
        fst (ask_quants (Line l1 :: Line l2 :: rest))
        = (inr (custom_types_of (PyStr.strip l2)), rest)).
Proof.
  intros H. split; [|split].
  - apply (bool_decide_unpack _). vm_compute. exact I.
  - apply get_user_input_selection in H.
    destruct H as [used [inp [Hused [H Hleft]]]].
    apply ask_quants_last_turn in H.
    destruct H as [before [turn [Hinp H]]].
    exists (used ++ before), turn. split; [|exact H].
    rewrite Hused, Hleft, <- app_assoc. f_equal. exact Hinp.
  - intros l1 l2 rest H2 Hne Hvalid.
    rewrite (ask_quants_accepts l1 l2 rest H2 Hne Hvalid). reflexivity.
Qed.

(** The theorem at a run in which the same name is typed twice. *)
Lemma C7_selection_witness :
  exists before turn,
    Scenario.typed ["m"; EmptyString; "2"; "Q4_0,q4_0"]
    = before ++ turn
      ++ stdin (snd (get_user_input
                       (Scenario.start Scenario.disk
                          ["m"; EmptyString; "2"; "Q4_0,q4_0"])))
    /\ ((exists l, turn = [Line l]
                   /\ (PyStr.strip l = EmptyString \/ PyStr.strip l = "1")
                   /\ ["Q4_0"; "Q4_0"] = QUANTIZATION_TYPES)
        \/ (exists l1 l2,
              turn = [Line l1; Line l2]
              /\ PyStr.strip l1 = "2"
              /\ ((PyStr.strip l2 = EmptyString
                   /\ ["Q4_0"; "Q4_0"] = QUANTIZATION_TYPES)
                  \/ (PyStr.strip l2 <> EmptyString
                      /\ ["Q4_0"; "Q4_0"] = custom_types_of (PyStr.strip l2)
                      /\ forall t, t ∈ ["Q4_0"; "Q4_0"]
                                   -> t ∈ QUANTIZATION_TYPES)))).
Proof.
  apply (C7_selection_is_fixed_list_or_typed_names
           (Scenario.start Scenario.disk ["m"; EmptyString; "2"; "Q4_0,q4_0"])
           "m" "m" ["Q4_0"; "Q4_0"]).
  vm_compute. reflexivity.
Defined.

(** ** The default output name (C9) *)

Lemma split_no_sep sep s :
  PyStr.has_char sep s = false -> PyStr.split sep s = [s].
Proof.
  induction s as [|a s' IH]; simpl; [reflexivity|].
  intros H. apply orb_false_iff in H. destruct H as [Ha Hs].
  rewrite Ha, (IH Hs). reflexivity.
Qed.

Lemma split_with_sep sep s :
  PyStr.has_char sep s = true -> exists h x t, PyStr.split sep s = h :: x :: t.
Proof.
  induction s as [|a s' IH]; simpl; [discriminate|].
  destruct (Ascii.eqb a sep); simpl.
  - intros _. pose proof (split_not_nil sep s') as Hnn.
    destruct (PyStr.split sep s') as [|x t]; [contradiction|]. eauto.
  - intros H. destruct (IH H) as [h [x [t ->]]]. eauto.
Qed.

Lemma basename_last p :
  OsPath.basename p = List.last (PyStr.split OsPath.slash p) EmptyString.
Proof.
  induction p as [|a p' IH]; [reflexivity|].
  cbn [OsPath.basename PyStr.has_char PyStr.split].
  destruct (Ascii.eqb a OsPath.slash); cbn [orb].
  - rewrite IH. pose proof (split_not_nil OsPath.slash p') as Hnn.
    destruct (PyStr.split OsPath.slash p') as [|x t]; [contradiction|].
    reflexivity.
  - destruct (PyStr.has_char OsPath.slash p') eqn:Hs.
    + rewrite IH. destruct (split_with_sep _ _ Hs) as [h [x [t ->]]].
      reflexivity.
    + rewrite (split_no_sep _ _ Hs). reflexivity.
Qed.

Lemma basename_no_slash p :
  PyStr.has_char OsPath.slash (OsPath.basename p) = false.
Proof.
  induction p as [|a p' IH]; [reflexivity|].
  cbn [OsPath.basename].
  destruct (PyStr.has_char OsPath.slash (String a p')) eqn:Hs; auto.
Qed.

Lemma rstrip_char_snoc c s :
  PyStr.rstrip_char c (s ++ String c EmptyString) = PyStr.rstrip_char c s.
Proof.
  unfold PyStr.rstrip_char. induction s as [|a s' IH]; simpl.
  - rewrite Ascii.eqb_refl. reflexivity.
  - rewrite IH. reflexivity.
Qed.

Lemma rstrip_char_absent c s :
  PyStr.has_char c s = false -> PyStr.rstrip_char c s = s.
Proof.
  unfold PyStr.rstrip_char. induction s as [|a s' IH]; simpl; [reflexivity|].
  intros H. apply orb_false_iff in H. destruct H as [Ha Hs].
  rewrite (IH Hs). rewrite Ascii.eqb_sym, Ha. destruct s'; reflexivity.
Qed.

Lemma basename_without_slash p :
  PyStr.has_char OsPath.slash p = false -> OsPath.basename p = p.
Proof. destruct p as [|a p']; [reflexivity|]. cbn [OsPath.basename]. intros ->. reflexivity. Qed.

(** C9.  The default output name is the last segment of the model path
    once its trailing slashes are cut: it is what the specification's
    wording computes, it holds no slash, one more trailing slash does not
    change it, and a path without a slash is its own default; and an
    override that is empty once stripped falls back to it. *)
Theorem C9_default_output_name model_path l rest f tr :
  PyStr.is_empty (PyStr.strip l) = true ->
  model_name_of model_path = last_segment model_path
  /\ PyStr.has_char OsPath.slash (model_name_of model_path) = false
  /\ model_name_of (model_path ++ "/") = model_name_of model_path
  /\ (PyStr.has_char OsPath.slash model_path = false ->
      model_name_of model_path = model_path)
  /\ model_name_of "my-model/" = "my-model"
  /\ model_name_of "my-model" = "my-model"
  /\ ask_output_name model_path (mkState f (Line l :: rest) tr)
     = (inr (model_name_of model_path),
        mkState f rest
          (tr ++ [Prompt (Text.output_prompt (model_name_of model_path))])).
Proof.
  intros Hempty. unfold model_name_of, last_segment.
  split; [apply basename_last|].
  split; [apply basename_no_slash|].
  split; [rewrite rstrip_char_snoc; reflexivity|].
  split.
  { intros H. rewrite (rstrip_char_absent _ _ H).
    apply basename_without_slash, H. }
  split; [reflexivity|]. split; [reflexivity|].
  unfold ask_output_name, bind, input. cbn [stdin fs trace].
  rewrite Hempty. reflexivity.
Qed.

(** The theorem at the path [models/my-model/] and an empty override. *)
Lemma C9_default_output_name_witness :
  fst (ask_output_name "models/my-model/"
         (mkState Scenario.disk [Line EmptyString] []))
  = inr "my-model".
Proof.
  destruct (C9_default_output_name "models/my-model/" EmptyString []
              Scenario.disk []) as [_ [_ [_ [_ [_ [_ H]]]]]].
  - reflexivity.
  - rewrite H. reflexivity.
Defined.

(** ** Further properties of the default output name *)

Lemma rstrip_by_idem p s :
  PyStr.rstrip_by p (PyStr.rstrip_by p s) = PyStr.rstrip_by p s.
Proof.
  induction s as [|a s' IH]; [reflexivity|].
  cbn [PyStr.rstrip_by].
  destruct (PyStr.rstrip_by p s') as [|b r] eqn:Hr.
  - destruct (p a) eqn:Hp; [reflexivity|].
    cbn [PyStr.rstrip_by]. rewrite Hp. reflexivity.
  - cbn [PyStr.rstrip_by] in *. rewrite IH. reflexivity.
Qed.

Lemma rstrip_by_length p s :
  String.length (PyStr.rstrip_by p s) <= String.length s.
Proof.
  induction s as [|a s' IH]; [reflexivity|].
  cbn [PyStr.rstrip_by].
  destruct (PyStr.rstrip_by p s') as [|b r].
  - destruct (p a); simpl; lia.
  - simpl in *. lia.
Qed.

(** A string whose part after the last slash is empty is empty or ends
    with a slash, which [rstrip] would cut. *)
Lemma basename_empty s :
  OsPath.basename s = EmptyString ->
  s = EmptyString \/ PyStr.rstrip_char OsPath.slash s <> s.
Proof.
  unfold PyStr.rstrip_char.
  induction s as [|a s' IH]; [left; reflexivity|].
  cbn [OsPath.basename].
  destruct (PyStr.has_char OsPath.slash (String a s')) eqn:Hs; [|discriminate].
  intros Hb. right. cbn [PyStr.rstrip_by].
  pose proof (rstrip_by_length (Ascii.eqb OsPath.slash) s') as Hlen.
  destruct (IH Hb) as [-> | Hcut].
  - cbn in Hs. rewrite orb_false_r in Hs. cbn [PyStr.rstrip_by].
    rewrite Ascii.eqb_sym, Hs. discriminate.
  - destruct (PyStr.rstrip_by (Ascii.eqb OsPath.slash) s') as [|b r] eqn:Hr.
    + destruct s' as [|c s'']; [contradiction|].
      destruct (Ascii.eqb OsPath.slash a); discriminate.
    + intros [= Heq]. apply Hcut. exact Heq.
Qed.

Lemma rstrip_char_empty c s :
  PyStr.rstrip_char c s = EmptyString <->
  s = PyStr.times (String c EmptyString) (String.length s).
Proof.
  unfold PyStr.rstrip_char. induction s as [|a s' IH]; [split; reflexivity|].
  cbn [PyStr.rstrip_by String.length PyStr.times].
  change (String c EmptyString ++ PyStr.times (String c EmptyString)
                                    (String.length s'))%string
    with (String c (PyStr.times (String c EmptyString) (String.length s'))).
  destruct (PyStr.rstrip_by (Ascii.eqb c) s') as [|b r] eqn:Hr.
  - destruct (Ascii.eqb_spec c a) as [<- | Hne].
    + split; [|reflexivity]. intros _. f_equal. apply IH. reflexivity.
    + split; [discriminate|]. intros [= Ha _]. congruence.
  - split; [discriminate|]. intros [= _ Hs].
    apply IH in Hs. discriminate Hs.
Qed.

(** X7.  The default output name is empty exactly when the model path is
    made of slashes only (so that the files are then named [-f16.gguf],
    [-Q4_0.gguf], ...); for any other path it is a non-empty name. *)
Theorem X7_default_name_empty_iff_only_slashes model_path :
  model_name_of model_path = EmptyString
  <-> model_path = PyStr.times "/" (String.length model_path).
Proof.
  unfold model_name_of. split.
  - intros Hb. apply (rstrip_char_empty OsPath.slash).
    destruct (basename_empty _ Hb) as [He | Hcut]; [exact He|].
    exfalso. apply Hcut. apply rstrip_by_idem.
  - intros Hall. apply (rstrip_char_empty OsPath.slash) in Hall.
    rewrite Hall. reflexivity.
Qed.

(** ** Further properties of the input collector *)

(** X2.  The first loop of the input collector returns only a path that is
    the stripped form of a typed line, is not empty, and either exists on
    disk or was confirmed by the very next line being [y] in either case;
    every line before it was consumed, and what is left of the input is
    what follows the path line (and its confirmation). *)
Theorem X2_model_path_exists_or_confirmed f inp model_path :
  fst (fst (ask_model_path f inp)) = inr model_path ->
  PyStr.is_empty model_path = false
  /\ exists before l after,
       inp = before ++ Line l :: after
       /\ model_path = PyStr.strip l
       /\ ((Os.exists_in f model_path = true
            /\ snd (fst (ask_model_path f inp)) = after)
           \/ (Os.exists_in f model_path = false
               /\ exists c left,
                    after = Line c :: left
                    /\ PyStr.str_lower (PyStr.strip c) = "y"
                    /\ snd (fst (ask_model_path f inp)) = left)).
Proof.
  induction inp as [inp IH] using input_ind.
  destruct inp as [|[l| |why] rest]; cbn [ask_model_path]; try discriminate.
  destruct (PyStr.is_empty (PyStr.strip l)) eqn:Hempty.
  - rewrite said_result, said_rest. intros H.
    apply IH in H; [|simpl; lia].
    destruct H as [Hne [before [l' [after [-> H]]]]].
    split; [exact Hne|]. exists (Line l :: before), l', after.
    split; [reflexivity | exact H].
  - destruct (Os.exists_in f (PyStr.strip l)) eqn:Hthere; cbn [negb].
    + intros [= <-]. split; [exact Hempty|].
      exists [], l, rest. split; [reflexivity|]. split; [reflexivity|].
      left. split; [exact Hthere | reflexivity].
    + destruct rest as [|[c| |why] rest']; try discriminate.
      destruct (String.eqb (PyStr.str_lower (PyStr.strip c)) "y") eqn:Hy;
        cbn [negb].
      * intros [= <-]. split; [exact Hempty|].
        exists [], l, (Line c :: rest'). split; [reflexivity|].
        split; [reflexivity|]. right. split; [exact Hthere|].
        exists c, rest'. split; [reflexivity|].
        split; [apply String.eqb_eq; exact Hy | reflexivity].
      * rewrite said_result, said_rest. intros H.
        apply IH in H; [|simpl; lia].
        destruct H as [Hne [before [l' [after [-> H]]]]].
        split; [exact Hne|]. exists (Line l :: Line c :: before), l', after.
        split; [reflexivity | exact H].
Qed.

(** The theorem at a path that is not on disk, declined once and then
    confirmed with [Y]. *)
Lemma X2_model_path_witness :
  PyStr.is_empty "new-model" = false
  /\ exists before l after,
       [Line "new-model"; Line "n"; Line " new-model "; Line " Y "; Line "out"]
       = before ++ Line l :: after
       /\ "new-model" = PyStr.strip l
       /\ ((Os.exists_in Scenario.disk "new-model" = true
            /\ snd (fst (ask_model_path Scenario.disk
                 [Line "new-model"; Line "n"; Line " new-model "; Line " Y ";
                  Line "out"])) = after)
           \/ (Os.exists_in Scenario.disk "new-model" = false
               /\ exists c left,
                    after = Line c :: left
                    /\ PyStr.str_lower (PyStr.strip c) = "y"
                    /\ snd (fst (ask_model_path Scenario.disk
                         [Line "new-model"; Line "n"; Line " new-model ";
                          Line " Y "; Line "out"])) = left)).
Proof.
  apply (X2_model_path_exists_or_confirmed Scenario.disk
           [Line "new-model"; Line "n"; Line " new-model "; Line " Y ";
            Line "out"] "new-model").
  vm_compute. reflexivity.
Defined.

Lemma ask_model_path_raises_why f inp e :
  fst (fst (ask_model_path f inp)) = inl e ->
  (e = EOFError /\ snd (fst (ask_model_path f inp)) = [])
  \/ (e = KeyboardInterrupt /\ CtrlC ∈ inp)
  \/ (exists why, e = UnicodeDecodeError why /\ Garbled why ∈ inp).
Proof.
  induction inp as [inp IH] using input_ind.
  assert (Hlater : forall used rest,
             inp = used ++ rest -> length rest < length inp ->
             fst (fst (ask_model_path f rest)) = inl e ->
             (e = EOFError /\ snd (fst (ask_model_path f rest)) = [])
             \/ (e = KeyboardInterrupt /\ CtrlC ∈ inp)
             \/ (exists why, e = UnicodeDecodeError why /\ Garbled why ∈ inp)).
  { intros used rest -> Hlt H. apply IH in H; [|exact Hlt].
    destruct H as [H | [[He Hin] | [why [He Hin]]]]; [left; exact H | |].
    - right; left. split; [exact He|]. apply elem_of_app. right. exact Hin.
    - right; right. exists why. split; [exact He|].
      apply elem_of_app. right. exact Hin. }
  destruct inp as [|[l| |why] rest]; cbn [ask_model_path].
  - intros [= <-]. left. auto.
  - destruct (PyStr.is_empty (PyStr.strip l)).
    + rewrite said_result, said_rest.
      apply (Hlater [Line l]); [reflexivity | simpl; lia].
    + destruct (negb (Os.exists_in f (PyStr.strip l))); [|discriminate].
      destruct rest as [|[c| |why] rest'].
      * intros [= <-]. left. auto.
      * destruct (negb _); [|discriminate].
        rewrite said_result, said_rest.
        apply (Hlater [Line l; Line c]); [reflexivity | simpl; lia].
      * intros [= <-]. right; left. split; [reflexivity|].
        constructor. constructor.
      * intros [= <-]. right; right. exists why. split; [reflexivity|].
        constructor. constructor.
  - intros [= <-]. right; left. split; [reflexivity | constructor].
  - intros [= <-]. right; right. exists why. split; [reflexivity | constructor].
Qed.

Lemma ask_quants_raises_why inp e :
  fst (fst (ask_quants inp)) = inl e ->
  (e = EOFError /\ snd (fst (ask_quants inp)) = [])
  \/ (e = KeyboardInterrupt /\ CtrlC ∈ inp).
Proof.
  induction inp as [inp IH] using input_ind.
  assert (Hlater : forall used rest,
             inp = used ++ rest -> length rest < length inp ->
             fst (fst (ask_quants rest)) = inl e ->
             (e = EOFError /\ snd (fst (ask_quants rest)) = [])
             \/ (e = KeyboardInterrupt /\ CtrlC ∈ inp)).
  { intros used rest -> Hlt H. apply IH in H; [|exact Hlt].
    destruct H as [H | [He Hin]]; [left; exact H|].
    right. split; [exact He|]. apply elem_of_app. right. exact Hin. }
  destruct inp as [|[l| |why] rest]; cbn [ask_quants].
  - intros [= <-]. left. auto.
  - destruct (PyStr.is_empty (PyStr.strip l) || String.eqb (PyStr.strip l) "1");
      [discriminate|].
    destruct (String.eqb (PyStr.strip l) "2").
    + destruct rest as [|[l2| |why] rest'].
      * intros [= <-]. left. auto.
      * destruct (PyStr.is_empty (PyStr.strip l2)); [discriminate|].
        destruct (invalid_types_of _); [discriminate|].
        rewrite said_result, said_rest.
        apply (Hlater [Line l; Line l2]); [reflexivity | simpl; lia].
      * intros [= <-]. right. split; [reflexivity|]. constructor. constructor.
      * rewrite said_result, said_rest.
        apply (Hlater [Line l; Garbled why]); [reflexivity | simpl; lia].
    + rewrite said_result, said_rest.
      apply (Hlater [Line l]); [reflexivity | simpl; lia].
  - intros [= <-]. right. split; [reflexivity | constructor].
  - rewrite said_result, said_rest.
    apply (Hlater [Garbled why]); [reflexivity | simpl; lia].
Qed.

Lemma InputOnly_ret {A} (x : A) : InputOnly (ret x).
Proof. intros s e H. discriminate H. Qed.

Lemma InputOnly_print t : InputOnly (print t).
Proof. intros s e H. discriminate H. Qed.

Lemma InputOnly_input p : InputOnly (input p).
Proof.
  intros s e. unfold input. destruct (stdin s) as [|[l| |why] rest]; simpl.
  - intros [= <-]. left. auto.
  - discriminate.
  - intros [= <-]. right; left. split; [reflexivity | constructor].
  - intros [= <-]. right; right. exists why. split; [reflexivity | constructor].
Qed.

Lemma InputOnly_bind {A B} (c : M A) (k : A -> M B) :
  Quiet c -> InputOnly c -> (forall x, InputOnly (k x)) -> InputOnly (bind c k).
Proof.
  intros Hq Hc Hk s e. unfold bind.
  specialize (Hc s). destruct (Hq s) as [_ [[used Hsuf] _]].
  destruct (c s) as [[e1|x] s1]; simpl in *.
  - intros [= <-]. apply Hc. reflexivity.
  - intros H.
    destruct (Hk x s1 e H) as [Heof | [[He Hin] | [why [He Hin]]]];
      [left; exact Heof | |].
    + right; left. split; [exact He|]. rewrite Hsuf.
      apply elem_of_app. right. exact Hin.
    + right; right. exists why. split; [exact He|]. rewrite Hsuf.
      apply elem_of_app. right. exact Hin.
Qed.

Lemma InputOnly_converse {A}
    (f : gmap string node -> list input_event -> reading A) :
  (forall d inp e, fst (fst (f d inp)) = inl e ->
     (e = EOFError /\ snd (fst (f d inp)) = [])
     \/ (e = KeyboardInterrupt /\ CtrlC ∈ inp)
     \/ (exists why, e = UnicodeDecodeError why /\ Garbled why ∈ inp)) ->
  InputOnly (converse f).
Proof.
  intros H s e. unfold converse. specialize (H (fs s) (stdin s) e).
  destruct (f (fs s) (stdin s)) as [[v rest] evs]. simpl in *. exact H.
Qed.

Lemma InputOnly_ask_output_name model_path :
  InputOnly (ask_output_name model_path).
Proof.
  unfold ask_output_name. apply InputOnly_bind.
  - apply Quiet_input.
  - apply InputOnly_input.
  - intros l. cbv zeta. destruct (PyStr.is_empty _); apply InputOnly_ret.
Qed.

Lemma InputOnly_get_user_input : InputOnly get_user_input.
Proof.
  unfold get_user_input.
  repeat lazymatch goal with
  | |- InputOnly (bind _ _) =>
      apply InputOnly_bind; [solve [quiet] | | intros ?]
  | |- InputOnly (print _) => apply InputOnly_print
  | |- InputOnly (ret _) => apply InputOnly_ret
  | |- InputOnly (ask_output_name _) => apply InputOnly_ask_output_name
  | |- InputOnly (converse ask_model_path) =>
      apply InputOnly_converse, ask_model_path_raises_why
  | |- InputOnly (converse _) =>
      apply InputOnly_converse; intros _ inp e He;
      destruct (ask_quants_raises_why inp e He) as [H | H];
      [left; exact H | right; left; exact H]
  end.
Qed.

(** X3.  The input collector raises only for what it reads: [EOFError]
    when the input ended, every line of it consumed; [KeyboardInterrupt]
    when the interrupt key is in the input; [UnicodeDecodeError] when a
    line of the input cannot be decoded.  The last of these leaves the
    function from the first loop and from the question for the output name,
    which no [try] surrounds; in the selection loop the clause
    [except ValueError] catches it, at the mode prompt and at the prompt
    for the names: the loop prints its message and asks for the mode again,
    so that what leaves this loop is [EOFError] or [KeyboardInterrupt]
    only. *)
Theorem X3_get_user_input_raises_for_want_of_input s e :
  fst (get_user_input s) = inl e ->
  ((e = EOFError /\ stdin (snd (get_user_input s)) = [])
   \/ (e = KeyboardInterrupt /\ CtrlC ∈ stdin s)
   \/ (exists why, e = UnicodeDecodeError why /\ Garbled why ∈ stdin s))
  /\ (forall f why rest,
        fst (fst (ask_model_path f (Garbled why :: rest)))
        = inl (UnicodeDecodeError why))
  /\ (forall f l why rest,
        PyStr.is_empty (PyStr.strip l) = false ->
        Os.exists_in f (PyStr.strip l) = false ->
        fst (fst (ask_model_path f (Line l :: Garbled why :: rest)))
        = inl (UnicodeDecodeError why))
  /\ (forall model_path f why rest tr,
        fst (ask_output_name model_path (mkState f (Garbled why :: rest) tr))
        = inl (UnicodeDecodeError why))
  /\ (forall why rest,
        ask_quants (Garbled why :: rest)
        = said [Prompt Text.option_prompt;
                Print "❌ Please enter a valid option"]
               (ask_quants rest))
  /\ (forall l1 why rest,
        PyStr.strip l1 = "2" ->
        ask_quants (Line l1 :: Garbled why :: rest)
        = said (Prompt Text.option_prompt
                :: listing ++ [Print "❌ Please enter a valid option"])
               (ask_quants rest))
  /\ (forall inp e',
        fst (fst (ask_quants inp)) = inl e' ->
        e' = EOFError \/ e' = KeyboardInterrupt).
Proof.
  intros H. split; [apply InputOnly_get_user_input; exact H|].
  split; [reflexivity|]. split.
  { intros f l why rest Hne Hno. cbn [ask_model_path].
    rewrite Hne, Hno. reflexivity. }
  split; [reflexivity|]. split; [reflexivity|]. split.
  { intros l1 why rest H2. cbn [ask_quants]. rewrite H2. reflexivity. }
  apply ask_quants_raises.
Qed.

(** The theorem at an input that ends at the mode prompt, a line that
    cannot be decoded having been typed there before. *)
Lemma X3_get_user_input_witness :
  (EOFError = EOFError
   /\ stdin (snd (get_user_input
                    (mkState Scenario.disk
                       [Line "m"; Line EmptyString; Garbled Scenario.undecodable;
                        Line "3"] [])))
      = [])
  \/ (EOFError = KeyboardInterrupt
      /\ CtrlC ∈ stdin (mkState Scenario.disk
                          [Line "m"; Line EmptyString;
                           Garbled Scenario.undecodable; Line "3"] []))
  \/ (exists why,
        EOFError = UnicodeDecodeError why
        /\ Garbled why ∈ stdin (mkState Scenario.disk
                                  [Line "m"; Line EmptyString;
                                   Garbled Scenario.undecodable; Line "3"] [])).
Proof.
  apply (X3_get_user_input_raises_for_want_of_input
           (mkState Scenario.disk
              [Line "m"; Line EmptyString; Garbled Scenario.undecodable;
               Line "3"] []) EOFError).
  vm_compute. reflexivity.
Defined.

(** X4.  The input collector has no effect but its dialogue: whatever is
    typed, it leaves the disk as it was, runs no command, and takes its
    lines off the front of the input. *)
Theorem X4_get_user_input_only_talks s :
  fs (snd (get_user_input s)) = fs s
  /\ commands (trace (snd (get_user_input s))) = commands (trace s)
  /\ stdin (snd (get_user_input s)) `suffix_of` stdin s
  /\ trace s `prefix_of` trace (snd (get_user_input s)).
Proof.
  destruct (Quiet_get_user_input s) as [Hfs [Hin [evs [Htr Hq]]]].
  split; [exact Hfs|]. split.
  - rewrite Htr, commands_app, Hq. apply app_nil_r.
  - split; [exact Hin|]. exists evs. exact Htr.
Qed.

(** ** Further properties of the profile names *)

Ltac by_all_chars :=
  let a := fresh "a" in
  intros a; destruct a as [[] [] [] [] [] [] [] []]; vm_compute; reflexivity.

Lemma is_cont_high a : PyStr.is_cont a = true -> PyStr.is_high a = true.
Proof.
  unfold PyStr.is_cont, PyStr.is_high. intros H.
  apply andb_prop in H. destruct H as [H _]. exact H.
Qed.

Lemma chars_not_empty s : Forall (fun c => c <> EmptyString) (PyStr.chars s).
Proof.
  induction s as [|a rest IH]; cbn [PyStr.chars]; [constructor|].
  destruct (PyStr.chars rest) as [|c cs]; [repeat constructor; discriminate|].
  destruct (PyStr.is_high a && PyStr.starts_cont c).
  - inversion IH; subst. constructor; [discriminate | assumption].
  - constructor; [discriminate | exact IH].
Qed.

(** Every piece [chars] cuts is one byte, or bytes above 127 only. *)
Lemma chars_whole s : Forall whole_char (PyStr.chars s).
Proof.
  induction s as [|a rest IH]; cbn [PyStr.chars]; [constructor|].
  destruct (PyStr.chars rest) as [|c cs]; [repeat constructor|].
  destruct (PyStr.is_high a && PyStr.starts_cont c) eqn:Hm.
  - apply andb_prop in Hm. destruct Hm as [Ha Hc].
    inversion IH as [|c' cs' Hw Hws]; subst. constructor; [|exact Hws].
    destruct c as [|b r]; [discriminate Hc|].
    cbn [PyStr.starts_cont] in Hc. apply is_cont_high in Hc.
    cbn [whole_char all_high]. rewrite Ha. cbn [andb].
    destruct r as [|b2 r2].
    + cbn [all_high]. rewrite Hc. reflexivity.
    + exact Hw.
  - constructor; [exact I | exact IH].
Qed.

Section CaseOfAscii.

(** A map of bytes that leaves the bytes above 127 alone and maps the
    others among themselves: a change of case of the ASCII letters. *)
Variable g : ascii -> ascii.
Hypothesis g_high : forall a, PyStr.is_high a = true -> g a = a.
Hypothesis g_low : forall a, PyStr.is_high (g a) = PyStr.is_high a.

Lemma is_cont_map a : PyStr.is_cont (g a) = PyStr.is_cont a.
Proof.
  destruct (PyStr.is_high a) eqn:Ha; [rewrite (g_high a Ha); reflexivity|].
  pose proof (g_low a) as Hg. rewrite Ha in Hg.
  destruct (PyStr.is_cont a) eqn:Hc;
    [apply is_cont_high in Hc; congruence|].
  destruct (PyStr.is_cont (g a)) eqn:Hc';
    [apply is_cont_high in Hc'; congruence | reflexivity].
Qed.

Lemma chars_map_chars s :
  PyStr.chars (PyStr.map_chars g s) = map (PyStr.map_chars g) (PyStr.chars s).
Proof.
  induction s as [|a rest IH]; [reflexivity|].
  cbn [PyStr.map_chars PyStr.chars]. rewrite IH.
  destruct (PyStr.chars rest) as [|c cs]; [reflexivity|].
  cbn [map].
  assert (Hc : PyStr.starts_cont (PyStr.map_chars g c) = PyStr.starts_cont c).
  { destruct c as [|b r]; [reflexivity|]. apply is_cont_map. }
  rewrite Hc, g_low.
  destruct (PyStr.is_high a && PyStr.starts_cont c); reflexivity.
Qed.

Lemma map_chars_all_high c :
  all_high c = true -> PyStr.map_chars g c = c.
Proof.
  induction c as [|a r IH]; [reflexivity|].
  cbn [all_high PyStr.map_chars]. intros H. apply andb_prop in H.
  destruct H as [Ha Hr]. rewrite (g_high a Ha), (IH Hr). reflexivity.
Qed.

Lemma map_chars_app (a b : string) :
  PyStr.map_chars g (a ++ b) = (PyStr.map_chars g a ++ PyStr.map_chars g b)%string.
Proof.
  induction a as [|x a' IH]; [reflexivity|].
  change (PyStr.map_chars g (String x (String.append a' b))
          = String (g x) (String.append (PyStr.map_chars g a')
                                        (PyStr.map_chars g b))).
  cbn [PyStr.map_chars]. f_equal. exact IH.
Qed.

Lemma cat_map_chars l :
  PyStr.cat (map (PyStr.map_chars g) l) = PyStr.map_chars g (PyStr.cat l).
Proof.
  induction l as [|c l IH]; [reflexivity|].
  cbn [map PyStr.cat]. rewrite map_chars_app, IH. reflexivity.
Qed.

(** A property of characters that the map does not change on single
    bytes stays as it is on every character. *)
Lemma whole_char_map {A} (p : string -> A) c :
  (forall a, p (String (g a) EmptyString) = p (String a EmptyString)) ->
  whole_char c -> p (PyStr.map_chars g c) = p c.
Proof.
  intros Hp Hw. destruct c as [|a [|b r]]; [destruct Hw | apply Hp |].
  rewrite (map_chars_all_high _ Hw). reflexivity.
Qed.

Hypothesis g_space :
  forall a, PyStr.isspace (String (g a) EmptyString)
            = PyStr.isspace (String a EmptyString).

Lemma drop_spaces_map l :
  Forall whole_char l ->
  PyStr.drop_spaces (map (PyStr.map_chars g) l)
  = map (PyStr.map_chars g) (PyStr.drop_spaces l)
  /\ Forall whole_char (PyStr.drop_spaces l).
Proof.
  induction 1 as [|c l Hc Hl IH]; [split; [reflexivity | constructor]|].
  cbn [map PyStr.drop_spaces].
  rewrite (whole_char_map PyStr.isspace c g_space Hc).
  destruct (PyStr.isspace c); [exact IH|].
  split; [reflexivity | constructor; assumption].
Qed.

Lemma rdrop_spaces_map l :
  Forall whole_char l ->
  PyStr.rdrop_spaces (map (PyStr.map_chars g) l)
  = map (PyStr.map_chars g) (PyStr.rdrop_spaces l).
Proof.
  induction 1 as [|c l Hc Hl IH]; [reflexivity|].
  cbn [map PyStr.rdrop_spaces]. rewrite IH.
  destruct (PyStr.rdrop_spaces l) as [|d r]; cbn [map]; [|reflexivity].
  rewrite (whole_char_map PyStr.isspace c g_space Hc).
  destruct (PyStr.isspace c); reflexivity.
Qed.

(** Stripping goes through a change of case of the ASCII letters. *)
Lemma strip_map_chars s :
  PyStr.strip (PyStr.map_chars g s) = PyStr.map_chars g (PyStr.strip s).
Proof.
  unfold PyStr.strip. rewrite chars_map_chars.
  destruct (drop_spaces_map (PyStr.chars s) (chars_whole s)) as [Hd Hw].
  rewrite Hd, (rdrop_spaces_map _ Hw). apply cat_map_chars.
Qed.

Hypothesis g_upper :
  forall a, PyStr.upper_char (String (g a) EmptyString)
            = PyStr.upper_char (String a EmptyString).

(** Uppercasing undoes it. *)
Lemma str_upper_map_chars s :
  PyStr.str_upper (PyStr.map_chars g s) = PyStr.str_upper s.
Proof.
  unfold PyStr.str_upper. rewrite chars_map_chars, map_map. f_equal.
  pose proof (chars_whole s) as Hw.
  induction Hw as [|c l Hc Hl IH]; [reflexivity|].
  cbn [map]. rewrite (whole_char_map PyStr.upper_char c g_upper Hc), IH.
  reflexivity.
Qed.

Lemma split_map_chars sep s :
  (forall a, Ascii.eqb (g a) sep = Ascii.eqb a sep) ->
  PyStr.split sep (PyStr.map_chars g s)
  = map (PyStr.map_chars g) (PyStr.split sep s).
Proof.
  intros H. induction s as [|a s' IH]; simpl; [reflexivity|].
  rewrite H, IH. destruct (Ascii.eqb a sep); [reflexivity|].
  destruct (PyStr.split sep s'); reflexivity.
Qed.

Lemma custom_types_of_map_chars custom_input :
  (forall a, Ascii.eqb (g a) ","%char = Ascii.eqb a ","%char) ->
  custom_types_of (PyStr.map_chars g custom_input)
  = custom_types_of custom_input.
Proof.
  intros Hcomma. unfold custom_types_of.
  rewrite split_map_chars by exact Hcomma. rewrite map_map.
  apply map_ext. intros t.
  rewrite strip_map_chars. apply str_upper_map_chars.
Qed.

End CaseOfAscii.

Lemma high_lower a : PyStr.is_high a = true -> PyStr.lower_ascii a = a.
Proof. revert a. intros a; destruct a as [[] [] [] [] [] [] [] []]; vm_compute; intros H; first [reflexivity | discriminate H]. Qed.

Lemma high_upper a : PyStr.is_high a = true -> PyStr.upper_ascii a = a.
Proof. revert a. intros a; destruct a as [[] [] [] [] [] [] [] []]; vm_compute; intros H; first [reflexivity | discriminate H]. Qed.

Lemma low_lower a : PyStr.is_high (PyStr.lower_ascii a) = PyStr.is_high a.
Proof. revert a. by_all_chars. Qed.

Lemma low_upper a : PyStr.is_high (PyStr.upper_ascii a) = PyStr.is_high a.
Proof. revert a. by_all_chars. Qed.

Lemma isspace_lower a :
  PyStr.isspace (String (PyStr.lower_ascii a) EmptyString)
  = PyStr.isspace (String a EmptyString).
Proof. revert a. by_all_chars. Qed.

Lemma isspace_upper a :
  PyStr.isspace (String (PyStr.upper_ascii a) EmptyString)
  = PyStr.isspace (String a EmptyString).
Proof. revert a. by_all_chars. Qed.

Lemma comma_lower a :
  Ascii.eqb (PyStr.lower_ascii a) ","%char = Ascii.eqb a ","%char.
Proof. revert a. by_all_chars. Qed.

Lemma comma_upper a :
  Ascii.eqb (PyStr.upper_ascii a) ","%char = Ascii.eqb a ","%char.
Proof. revert a. by_all_chars. Qed.

Lemma upper_char_lower a :
  PyStr.upper_char (String (PyStr.lower_ascii a) EmptyString)
  = PyStr.upper_char (String a EmptyString).
Proof. revert a. by_all_chars. Qed.

Lemma upper_char_upper a :
  PyStr.upper_char (String (PyStr.upper_ascii a) EmptyString)
  = PyStr.upper_char (String a EmptyString).
Proof. revert a. by_all_chars. Qed.

(** X5.  Profile names are read without regard to case: a mode-2 line
    typed in lower case, or in upper case, yields the same names, and the
    selection loop answers it with the same result, the same output and the
    same input left.  The case in question is that of the letters [a]-[z]
    and [A]-[Z], which is all that [PyStr.lower] and [PyStr.upper] change;
    the names themselves are made with Python's [strip] and [upper]. *)
Theorem X5_names_regardless_of_case l1 l2 rest :
  PyStr.strip l1 = "2" ->
  custom_types_of (PyStr.lower l2) = custom_types_of l2
  /\ custom_types_of (PyStr.upper l2) = custom_types_of l2
  /\ ask_quants (Line l1 :: Line (PyStr.lower l2) :: rest)
     = ask_quants (Line l1 :: Line l2 :: rest)
  /\ ask_quants (Line l1 :: Line (PyStr.upper l2) :: rest)
     = ask_quants (Line l1 :: Line l2 :: rest).
Proof.
  intros H2.
  assert (Hl : forall t, custom_types_of (PyStr.lower t) = custom_types_of t).
  { intros t. apply custom_types_of_map_chars;
      [apply high_lower | apply low_lower | apply isspace_lower
       | apply upper_char_lower | apply comma_lower]. }
  assert (Hu : forall t, custom_types_of (PyStr.upper t) = custom_types_of t).
  { intros t. apply custom_types_of_map_chars;
      [apply high_upper | apply low_upper | apply isspace_upper
       | apply upper_char_upper | apply comma_upper]. }
  assert (Hsl : forall t, PyStr.strip (PyStr.lower t) = PyStr.lower (PyStr.strip t)).
  { intros t. apply strip_map_chars;
      [apply high_lower | apply low_lower | apply isspace_lower]. }
  assert (Hsu : forall t, PyStr.strip (PyStr.upper t) = PyStr.upper (PyStr.strip t)).
  { intros t. apply strip_map_chars;
      [apply high_upper | apply low_upper | apply isspace_upper]. }
  assert (He : forall g t, PyStr.is_empty (PyStr.map_chars g t)
                           = PyStr.is_empty t)
    by (intros g [|a t]; reflexivity).
  split; [apply Hl|]. split; [apply Hu|].
  split; cbn [ask_quants]; rewrite H2;
    cbn [PyStr.is_empty String.eqb Ascii.eqb orb Bool.eqb andb].
  - rewrite Hsl. unfold PyStr.lower at 1. rewrite He.
    rewrite Hl. reflexivity.
  - rewrite Hsu. unfold PyStr.upper at 1. rewrite He.
    rewrite Hu. reflexivity.
Qed.

(** The theorem at the line [q4_k_m, Q8_0]. *)
Lemma X5_names_witness :
  fst (fst (ask_quants [Line "2"; Line (PyStr.lower "q4_k_m, Q8_0")]))
  = inr ["Q4_K_M"; "Q8_0"].
Proof.
  destruct (X5_names_regardless_of_case "2" "q4_k_m, Q8_0" [])
    as [_ [_ [H _]]].
  - vm_compute. reflexivity.
  - rewrite H. vm_compute. reflexivity.
Defined.

Lemma has_char_app c a b :
  PyStr.has_char c (a ++ b) = PyStr.has_char c a || PyStr.has_char c b.
Proof.
  induction a as [|x a' IH]; simpl; [reflexivity|].
  rewrite IH. apply orb_assoc.
Qed.

Lemma split_app_sep sep a b :
  PyStr.has_char sep a = false ->
  PyStr.split sep (a ++ String sep b) = a :: PyStr.split sep b.
Proof.
  induction a as [|x a' IH]; simpl.
  - intros _. rewrite Ascii.eqb_refl. reflexivity.
  - intros H. apply orb_false_iff in H. destruct H as [Hx Ha].
    rewrite Hx, (IH Ha). reflexivity.
Qed.

Lemma string_app_assoc (a b c : string) :
  ((a ++ b) ++ c = a ++ (b ++ c))%string.
Proof.
  induction a as [|x a' IH]; [reflexivity|].
  change (String x (String.append (String.append a' b) c)
          = String x (String.append a' (String.append b c))).
  f_equal. exact IH.
Qed.

(** Names joined with a comma and a blank are read back one by one. *)
Lemma custom_types_of_join pre names :
  names <> [] ->
  Forall plain_name names ->
  PyStr.has_char ","%char pre = false ->
  (forall t, plain_name t -> PyStr.str_upper (PyStr.strip (pre ++ t)) = t) ->
  custom_types_of (pre ++ PyStr.join ", " names) = names.
Proof.
  intros Hne Hall. revert pre.
  induction Hall as [|t others Ht Hall IH]; [contradiction|].
  intros pre Hpre Hnorm. unfold custom_types_of in *.
  destruct others as [|t2 others'].
  - cbn [PyStr.join]. rewrite split_no_sep.
    + cbn [map]. rewrite (Hnorm t Ht). reflexivity.
    + rewrite has_char_app, Hpre. destruct Ht as [Hc _]. rewrite Hc. reflexivity.
  - change (PyStr.join ", " (t :: t2 :: others'))
      with (t ++ String ","%char (" " ++ PyStr.join ", " (t2 :: others')))%string.
    rewrite <- string_app_assoc. rewrite split_app_sep.
    + cbn [map]. rewrite (Hnorm t Ht). f_equal.
      apply IH; [discriminate | reflexivity |].
      intros t' [_ [_ Hblank]]. exact Hblank.
    + rewrite has_char_app, Hpre. destruct Ht as [Hc _]. rewrite Hc. reflexivity.
Qed.

Lemma QUANTIZATION_TYPES_plain t : t ∈ QUANTIZATION_TYPES -> plain_name t.
Proof.
  intros H. apply list_elem_of_In in H. unfold plain_name.
  repeat (destruct H as [<- | H]; [repeat split; vm_compute; reflexivity|]).
  destruct H.
Qed.

(** X6.  The selection is echoed in a form that selects it again: a
    mode-2 line that is, once stripped, the names of a valid selection
    joined as the program prints them (with a comma and a blank) is accepted
    and yields exactly that selection, in that order. *)
Theorem X6_echoed_selection_reads_back l1 l2 rest selected_quants :
  PyStr.strip l1 = "2" ->
  selected_quants <> [] ->
  (forall t, t ∈ selected_quants -> t ∈ QUANTIZATION_TYPES) ->
  PyStr.strip l2 = PyStr.join ", " selected_quants ->
  custom_types_of (PyStr.join ", " selected_quants) = selected_quants
  /\ fst (ask_quants (Line l1 :: Line l2 :: rest)) = (inr selected_quants, rest).
Proof.
  intros H2 Hne Hvalid Hline.
  assert (Hread : custom_types_of (PyStr.join ", " selected_quants)
                  = selected_quants).
  { apply (custom_types_of_join EmptyString); [exact Hne | | reflexivity |].
    - apply Forall_forall. intros t Ht.
      apply QUANTIZATION_TYPES_plain, Hvalid, Ht.
    - intros t [_ [Hplain _]]. exact Hplain. }
  split; [exact Hread|].
  cbn [ask_quants]. rewrite H2, Hline.
  cbn [PyStr.is_empty String.eqb Ascii.eqb orb Bool.eqb andb].
  destruct (PyStr.is_empty (PyStr.join ", " selected_quants)) eqn:Hempty.
  { exfalso. destruct (PyStr.join ", " selected_quants); [|discriminate].
    assert (Hin : EmptyString ∈ QUANTIZATION_TYPES).
    { apply Hvalid. rewrite <- Hread. vm_compute. constructor. }
    apply str_in_spec in Hin. vm_compute in Hin. discriminate Hin. }
  rewrite Hread.
  rewrite (all_valid_none_invalid _ Hvalid). reflexivity.
Qed.

(** The theorem at the echo of a selection that names a profile twice. *)
Lemma X6_echoed_selection_witness :
  fst (ask_quants [Line "2"; Line " Q8_0, Q4_K_M, Q8_0 "; Line "y"])
  = (inr ["Q8_0"; "Q4_K_M"; "Q8_0"], [Line "y"]).
Proof.
  destruct (X6_echoed_selection_reads_back "2" " Q8_0, Q4_K_M, Q8_0 "
              [Line "y"] ["Q8_0"; "Q4_K_M"; "Q8_0"]) as [_ H].
  - vm_compute. reflexivity.
  - discriminate.
  - intros t Ht. apply str_in_spec. apply list_elem_of_In in Ht.
    repeat (destruct Ht as [<- | Ht]; [reflexivity|]). destruct Ht.
  - vm_compute. reflexivity.
  - exact H.
Defined.

(** ** How a run ends *)

Section WholeRunFacts.

Variable sh : string -> gmap string node -> outcome * gmap string node.
Variable fmt_mb : N -> string.
Variable exn_str : exn -> string.

(** X11.  In every run [main] starts the command lines of
    [planned_commands] and no other: nothing when the input collector
    raises, the conversion script is missing, or the conversion command
    holds a NUL or finds no shell to run it; otherwise the conversion
    command, once and first, followed, when it ran to exit status 0, its
    file is there and the quantizer is there, by the quantize commands of
    the selected entries in the selected order, up to and including the
    first that is interrupted, and short of the first that cannot be
    started. *)
Theorem X11_main_issues_planned_commands s :
  commands (trace (snd (main sh fmt_mb exn_str s)))
  = commands (trace s) ++ planned_commands sh s.
Proof. apply (main_effect sh fmt_mb exn_str s). Qed.

(** X12.  In every run the disk [main] leaves is the disk its commands
    left: the program itself creates no directory and moves or removes no
    file, whatever is typed and whatever the tools do. *)
Theorem X12_main_leaves_disk_to_the_tools s :
  fs (snd (main sh fmt_mb exn_str s))
  = replay sh (planned_commands sh s) (fs s).
Proof. apply (main_effect sh fmt_mb exn_str s). Qed.

(** X13.  How a run ends: the [try] block of [main] always ends with the
    exception [verdict] names (the one the input collector raised;
    [SystemExit(1)] after a failed conversion; [ValueError] for a command
    line with a NUL, [OSError] when no shell can be started,
    [KeyboardInterrupt] when a tool is interrupted; [TypeError] without the
    quantizer; and [UnboundLocalError] when every command has run), the
    handlers add the line [farewell] gives for it (the interruption notice,
    the unexpected-error line, or nothing after the conversion failure),
    and the process exits with status 1. *)
Theorem X13_main_ends_as_verdict_tells s :
  fst (main_body sh fmt_mb exn_str s) = inl (verdict sh s)
  /\ trace (snd (main sh fmt_mb exn_str s))
     = trace (snd (main_body sh fmt_mb exn_str s))
       ++ farewell exn_str (verdict sh s)
  /\ fst (main sh fmt_mb exn_str s) = inl (SystemExit 1).
Proof.
  split; [apply (main_body_ends sh fmt_mb exn_str s)|].
  split; [apply main_after_body | apply main_raises_exit_1].
Qed.

(** X14.  When the input collector raises, nothing has been done: no
    command was run, the disk is as it was, and the last line printed is
    the interruption notice for the interrupt key and the unexpected-error
    line for the end of input. *)
Theorem X14_nothing_done_without_input s e :
  fst (get_user_input s) = inl e ->
  commands (trace (snd (main sh fmt_mb exn_str s))) = commands (trace s)
  /\ fs (snd (main sh fmt_mb exn_str s)) = fs s
  /\ List.last (trace (snd (main sh fmt_mb exn_str s))) (Print EmptyString)
     = Print (if decide (e = KeyboardInterrupt)
              then PyStr.nl ++ PyStr.nl ++ "Process interrupted by user"
              else "Unexpected error: " ++ exn_str e).
Proof.
  intros He.
  assert (Hp : planned_commands sh s = [])
    by (unfold planned_commands; rewrite He; reflexivity).
  assert (Hv : verdict sh s = e)
    by (unfold verdict; rewrite He; reflexivity).
  destruct (main_effect sh fmt_mb exn_str s) as [Hd Hc].
  destruct (main_after_body sh fmt_mb exn_str s) as [_ Ht].
  rewrite Hp in Hd, Hc. split; [|split].
  - rewrite Hc. apply app_nil_r.
  - exact Hd.
  - rewrite Ht, Hv.
    destruct (InputOnly_get_user_input s e He)
      as [[-> _] | [[-> _] | [why [-> _]]]];
      cbn [farewell]; rewrite last_last; reflexivity.
Qed.

End WholeRunFacts.

(** The theorem at an interrupt pressed at the mode prompt. *)
Lemma X14_nothing_done_witness :
  commands (trace (snd (main (Scenario.scripted false Scenario.all_fine)
                          Scenario.fmt_mb Scenario.exn_str
                          (mkState Scenario.disk [Line "m"; Line "out"; CtrlC]
                                   []))))
  = [].
Proof.
  destruct (X14_nothing_done_without_input
              (Scenario.scripted false Scenario.all_fine)
              Scenario.fmt_mb Scenario.exn_str
              (mkState Scenario.disk [Line "m"; Line "out"; CtrlC] [])
              KeyboardInterrupt) as [H _].
  - vm_compute. reflexivity.
  - exact H.
Defined.

(** A model path with a NUL in it, confirmed: the conversion command is
    not started, and the run ends in the handler of line 296. *)
Example run_with_nul_in_path :
  let s := Scenario.start Scenario.disk
             [String (ascii_of_nat 0) "m"; "y"; "out"; "1"] in
  fst (Scenario.go false Scenario.all_fine s) = 1%Z
  /\ commands (trace (snd (Scenario.go false Scenario.all_fine s))) = []
  /\ fs (snd (Scenario.go false Scenario.all_fine s)) = Scenario.disk
  /\ List.last (trace (snd (Scenario.go false Scenario.all_fine s)))
               (Print EmptyString)
     = Print "Unexpected error: embedded null byte".
Proof. cbv zeta. repeat split; by_running. Qed.

(** The interrupt key, pressed while the second of three quantizations
    runs: the third is not started, what was written stays, and the run
    ends in the handler of line 293. *)
Example run_interrupted_in_a_tool :
  let s := Scenario.start Scenario.disk
             ["m"; EmptyString; "2"; "Q4_0,Q4_1,Q8_0"] in
  let r := run Scenario.interrupted_at_q4_1 Scenario.fmt_mb Scenario.exn_str s in
  fst r = 1%Z
  /\ commands (trace (snd r))
     = [Scenario.convert_m; Scenario.quantize_m "Q4_0";
        Scenario.quantize_m "Q4_1"]
  /\ Killed (Scenario.quantize_m "Q4_1") ∈ trace (snd r)
  /\ fs (snd r) !! "m-Q4_1.gguf" = Some (Node false 2200000)
  /\ fs (snd r) !! "m-Q8_0.gguf" = None
  /\ List.last (trace (snd r)) (Print EmptyString)
     = Print (PyStr.nl ++ PyStr.nl ++ "Process interrupted by user").
Proof. cbv zeta. repeat split; by_running. Qed.

(** A line that cannot be decoded, typed at the first prompt, ends the
    run in the handler of line 296; typed at the mode prompt, it is
    answered and the question asked again. *)
Example run_with_garbled_lines :
  List.last (trace (snd (run (Scenario.scripted false Scenario.all_fine)
                           Scenario.fmt_mb Scenario.exn_str
                           (mkState Scenario.disk
                              [Garbled Scenario.undecodable] []))))
            (Print EmptyString)
  = Print "Unexpected error: 'utf-8' codec can't decode byte 0xff in position 0: invalid start byte"
  /\ fst (get_user_input
            (mkState Scenario.disk
               [Line "m"; Line EmptyString; Garbled Scenario.undecodable;
                Line "1"] []))
     = inr ("m", "m", QUANTIZATION_TYPES).
Proof. split; by_running. Qed.

(** ** The relocation and clean-up blocks of [main] *)

Lemma Tame_ret {A} (x : A) : Tame (ret x).
Proof. intros s e H. discriminate H. Qed.

Lemma Tame_print t : Tame (print t).
Proof. intros s e H. discriminate H. Qed.

Lemma Tame_get_fs : Tame get_fs.
Proof. intros s e H. discriminate H. Qed.

Lemma Tame_put_fs f : Tame (put_fs f).
Proof. intros s e H. discriminate H. Qed.

Lemma Tame_raise {A} e : is_Exception e = true -> Tame (@raise A e).
Proof. intros He s e' [= <-]. exact He. Qed.

Lemma Tame_bind {A B} (c : M A) (k : A -> M B) :
  Tame c -> (forall x, Tame (k x)) -> Tame (bind c k).
Proof.
  intros Hc Hk s e. unfold bind. specialize (Hc s).
  destruct (c s) as [[e1|x] s1]; simpl in *.
  - intros [= <-]. apply Hc. reflexivity.
  - apply Hk.
Qed.

Lemma Tame_Returns {A} (c : M A) : Returns c -> Tame c.
Proof.
  intros H s e He. destruct (H s) as [x Hx]. rewrite Hx in He. discriminate He.
Qed.

Lemma Tame_for_each {A} (l : list A) (body : A -> M unit) :
  (forall x, Tame (body x)) -> Tame (for_each l body).
Proof.
  intros Hb. induction l as [|x l IH]; simpl.
  - apply Tame_ret.
  - apply Tame_bind; auto.
Qed.

(** A [try] whose only clause is [except Exception] and whose handler
    returns lets nothing escape from a tame block. *)
Lemma try_except_Exception_returns {A} (c : M A) (h : exn -> M A) :
  Tame c -> (forall e, Returns (h e)) ->
  Returns (try_except c (except_Exception h)).
Proof.
  intros Hc Hh s. unfold try_except. specialize (Hc s).
  destruct (c s) as [[e|x] s1]; simpl in *.
  - unfold except_Exception. rewrite (Hc e eq_refl). apply Hh.
  - exists x. reflexivity.
Qed.

Ltac tame :=
  repeat lazymatch goal with
  | |- Tame (bind _ _) => apply Tame_bind; [| intros ? ]
  | |- Tame (ret _) => apply Tame_ret
  | |- Tame (print _) => apply Tame_print
  | |- Tame get_fs => apply Tame_get_fs
  | |- Tame (put_fs _) => apply Tame_put_fs
  | |- Tame (raise _) => apply Tame_raise; reflexivity
  | |- Tame (if ?b then _ else _) => destruct b
  | |- Tame (let _ := _ in _) => cbv zeta
  end.

Lemma Tame_path_exists p : Tame (Os.path_exists p).
Proof. unfold Os.path_exists. tame. Qed.

Lemma Tame_getsize p : Tame (Os.getsize p).
Proof.
  intros s e. unfold Os.getsize, bind, get_fs.
  destruct (Os.stat (fs s) p) as [e'|[k n]] eqn:E; [|discriminate].
  intros [= <-]. exact (stat_error _ _ _ E).
Qed.

Lemma Tame_makedirs p : Tame (Os.makedirs p).
Proof.
  unfold Os.makedirs. tame.
  destruct (Os.make_along _ _ _) as [[errno|] f']; tame.
Qed.

Lemma Tame_rename src dst : Tame (Os.rename src dst).
Proof.
  unfold Os.rename. tame.
  destruct (Os.renamed _ _ _); tame.
Qed.

Lemma Tame_listdir d : Tame (Os.listdir d).
Proof.
  intros s e. unfold Os.listdir, bind, get_fs.
  destruct (Os.stat (fs s) d) as [e'|[k n]] eqn:E.
  - intros [= <-]. exact (stat_error _ _ _ E).
  - destruct (is_dir n); [discriminate|]. intros [= <-]. reflexivity.
Qed.

Lemma Tame_move_each gguf_folder output_name quants :
  forall moved_files, Tame (move_each gguf_folder output_name quants moved_files).
Proof.
  induction quants as [|q others IH]; intros moved; simpl.
  - apply Tame_ret.
  - apply Tame_bind; [apply Tame_path_exists|]. intros there.
    destruct there; [|apply IH].
    cbv zeta. apply Tame_bind; [apply Tame_rename|]. intros _.
    apply Tame_bind; [apply Tame_print|]. intros _. apply IH.
Qed.

(** X15.  The relocation block lets no filesystem error out: whatever the
    disk holds, whether the directory can be made, a file moved or the
    folder listed, the block completes normally, the error (if any) having
    been reported by one of its two handlers. *)
Theorem X15_organize_always_completes
    fmt_mb exn_str gguf_folder f16_file output_name successful_quants s :
  fst (organize fmt_mb exn_str gguf_folder f16_file output_name
                successful_quants s) = inr tt.
Proof.
  assert (H : Returns (organize fmt_mb exn_str gguf_folder f16_file output_name
                                successful_quants)).
  { unfold organize. apply try_except_Exception_returns.
    - apply Tame_bind; [apply Tame_makedirs|]. intros _.
      apply Tame_bind; [apply Tame_print|]. intros _.
      apply Tame_bind; [apply Tame_path_exists|]. intros f16_there.
      apply Tame_bind.
      { destruct f16_there; [|apply Tame_ret]. cbv zeta.
        apply Tame_bind; [apply Tame_rename|]. intros _.
        apply Tame_bind; [apply Tame_print|]. intros _. apply Tame_ret. }
      intros moved.
      apply Tame_bind; [apply Tame_move_each|]. intros moved'.
      apply Tame_bind; [apply Tame_print|]. intros _.
      apply Tame_bind; [apply Tame_print|]. intros _.
      apply Tame_Returns, try_except_Exception_returns.
      + apply Tame_bind; [apply Tame_listdir|]. intros names.
        apply Tame_for_each. intros filename.
        destruct (PyStr.ends_with ".gguf" filename); [|apply Tame_ret].
        cbv zeta. apply Tame_bind; [apply Tame_getsize|]. intros sz.
        apply Tame_print.
      + intros e. apply Returns_print.
    - intros e. apply Returns_bind; [apply Returns_print|].
      intros _. apply Returns_print. }
  destruct (H s) as [[] Hx]. exact Hx.
Qed.

(** An entry that [os.stat] finds and that is no directory is in the map
    under its key. *)
Lemma stat_file f p k n :
  Os.stat f p = inr (k, n) -> is_dir n = false -> f !! k = Some n.
Proof.
  unfold Os.stat. destruct (PyStr.has_nul p); [discriminate|].
  destruct (Os.locate f p) as [errno|pl]; [discriminate|].
  unfold Os.node_at.
  destruct (Os.implicit pl).
  - intros [= <- <-]. discriminate.
  - destruct (f !! Os.key pl) as [n'|] eqn:Hn; [|discriminate].
    intros [= <- <-] _. exact Hn.
Qed.

(** The disk the clean-up block leaves. *)
Lemma offer_cleanup_disk exn_str gguf_folder f16_file successful_quants s :
  fs (snd (offer_cleanup exn_str gguf_folder f16_file successful_quants s))
  = match Os.stat (fs s) (OsPath.join gguf_folder f16_file) with
    | inr (k, n) =>
        match successful_quants, stdin s with
        | _ :: _, Line l :: _ =>
            if String.eqb (PyStr.str_lower (PyStr.strip l)) "y"
            then if is_dir n then fs s else delete k (fs s)
            else fs s
        | _, _ => fs s
        end
    | inl _ => fs s
    end.
Proof.
  unfold offer_cleanup. cbv zeta.
  unfold bind at 1. unfold Os.path_exists at 1, bind at 1, get_fs, ret.
  unfold Os.exists_in.
  destruct (Os.stat (fs s) (OsPath.join gguf_folder f16_file))
    as [e|[k n]] eqn:Hst; [reflexivity|].
  destruct successful_quants as [|q others]; [reflexivity|].
  cbn [length Nat.eqb negb andb].
  unfold bind at 1, input.
  destruct (stdin s) as [|[l| |why] rest] eqn:Hin; try reflexivity.
  destruct (String.eqb (PyStr.str_lower (PyStr.strip l)) "y") eqn:Hy;
    [|reflexivity].
  unfold try_except. unfold bind at 1. unfold Os.remove at 1, bind at 1, get_fs.
  cbn [fs]. rewrite Hst.
  destruct (is_dir n); reflexivity.
Qed.

(** X16.  The clean-up block removes the relocated f16 file exactly when
    it is told to.  When the path [<folder>/<f16 file>] leads to an entry
    that is no directory, a quantization has succeeded and the next line
    typed is [y] (in either case, white space around it ignored), that
    entry is removed from the disk and nothing else is changed.  In every
    other case the disk is left as it was: when nothing is at that path,
    when no quantization has succeeded, when the answer is anything else or
    there is none, and when what is at the path is a directory, for which
    the removal fails and is reported. *)
Theorem X16_cleanup_only_on_yes
    exn_str gguf_folder f16_file successful_quants s :
  let target := OsPath.join gguf_folder f16_file in
  let final :=
    fs (snd (offer_cleanup exn_str gguf_folder f16_file successful_quants s)) in
  let told k n l rest :=
    Os.stat (fs s) target = inr (k, n)
    /\ is_dir n = false
    /\ successful_quants <> []
    /\ stdin s = Line l :: rest
    /\ PyStr.str_lower (PyStr.strip l) = "y" in
  (forall k n l rest,
     told k n l rest ->
     final = delete k (fs s) /\ fs s !! k = Some n /\ final !! k = None)
  /\ ((exists k n l rest, told k n l rest) \/ final = fs s).
Proof.
  intros target final told. unfold told.
  pose proof (offer_cleanup_disk exn_str gguf_folder f16_file
                successful_quants s) as Hrun.
  fold target final in Hrun.
  split.
  - intros k n l rest [Hst [Hfile [Hsome [Hin Hy]]]].
    rewrite Hst, Hin in Hrun.
    destruct successful_quants as [|q others]; [contradiction|].
    rewrite Hy, Hfile in Hrun. cbn in Hrun.
    split; [exact Hrun|]. split; [exact (stat_file _ _ _ _ Hst Hfile)|].
    rewrite Hrun. apply lookup_delete_eq.
  - destruct (Os.stat (fs s) target) as [e|[k n]] eqn:Hst; [right; exact Hrun|].
    destruct successful_quants as [|q others]; [right; exact Hrun|].
    destruct (stdin s) as [|[l| |why] rest] eqn:Hin; try (right; exact Hrun).
    destruct (String.eqb (PyStr.str_lower (PyStr.strip l)) "y") eqn:Hy;
      [|right; exact Hrun].
    destruct (is_dir n) eqn:Hdir; [right; exact Hrun|].
    left. exists k, n, l, rest.
    split; [reflexivity|]. split; [exact Hdir|]. split; [discriminate|].
    split; [reflexivity|]. apply String.eqb_eq. exact Hy.
Qed.

(** The theorem in a folder that holds the relocated f16 file, two
    quantizations having succeeded and the answer being [Y]. *)
Lemma X16_cleanup_witness :
  fs (snd (offer_cleanup Scenario.exn_str "m-GGUF" "m-f16.gguf"
             ["Q4_0"; "Q8_0"]
             (mkState (<["m-GGUF/m-f16.gguf" := Node false 14000000]>
                         (<["m-GGUF" := Node true 0]> Scenario.disk))
                      [Line " Y "] [])))
  = delete "m-GGUF/m-f16.gguf"
      (<["m-GGUF/m-f16.gguf" := Node false 14000000]>
         (<["m-GGUF" := Node true 0]> Scenario.disk)).
Proof.
  pose proof (X16_cleanup_only_on_yes Scenario.exn_str "m-GGUF" "m-f16.gguf"
                ["Q4_0"; "Q8_0"]
                (mkState (<["m-GGUF/m-f16.gguf" := Node false 14000000]>
                            (<["m-GGUF" := Node true 0]> Scenario.disk))
                         [Line " Y "] [])) as H.
  cbv zeta in H. destruct H as [H _].
  destruct (H "m-GGUF/m-f16.gguf" (Node false 14000000) " Y " []) as [Hd _].
  - split; [vm_compute; reflexivity|]. split; [reflexivity|].
    split; [discriminate|]. split; [reflexivity|]. vm_compute. reflexivity.
  - exact Hd.
Defined.
